(** * ATUS time-use analysis scripts: a shallow embedding

    The Python scripts of [2025_07_21_time_use_analysis] fetch American
    Time-Use Survey figures from the BLS web API or scrape them from the
    text of a PDF report, and flatten them into tables.  This file embeds
    the scripts that do the fetching, the flattening and the scraping:

    - [API Method/scripts/atus_api_client.py]   (modules [ApiClient]
                                                 and [ApiClientMain])
    - [PDF Method/fetch_atus_api.py]            (module [FetchApi])
    - [PDF Method/extract_atus_final.py]        (modules [ExtractFinal]
                                                 and [ExtractFinalMain])
    - [PDF Method/scrape_atus.py]               (modules [ScrapeAtus]
                                                 and [ScrapeAtusMain])
    - [PDF Method/examine_pdf_structure.py]     (module [ExaminePdf])

    Python values are a tagged union, dictionaries are finite maps,
    exceptions are an error type, and printing, HTTP requests and file
    writes are recorded in an event trace. *)

From Stdlib Require Import ZArith String Ascii List Floats Sorting.Sorted Permutation.
From stdpp Require Import gmap strings list.

#[local] Set Warnings "-register-all,-inexact-float,-clear-no-such-hyp".
#[local] Open Scope Z_scope.

(** ** Python strings

    Text is modelled as [string] (a sequence of 8-bit characters).  The
    character classes are Python's, restricted to that range. *)

Module Str.

Definition code (c : ascii) : nat := nat_of_ascii c.

(** [\d] and [str.isdigit] on one character. *)
Definition is_digit (c : ascii) : bool :=
  (48 <=? code c)%nat && (code c <=? 57)%nat.

(** [\s] and [str.isspace] on one character: TAB, LF, VT, FF, CR, the
    four separators FS, GS, RS, US, the space, the next-line control
    U+0085 and the no-break space U+00A0. *)
Definition is_space (c : ascii) : bool :=
  ((9 <=? code c)%nat && (code c <=? 13)%nat)
  || ((28 <=? code c)%nat && (code c <=? 32)%nat)
  || (code c =? 133)%nat || (code c =? 160)%nat.

Definition newline : ascii := ascii_of_nat 10.

Definition is_empty (s : string) : bool :=
  match s with EmptyString => true | String _ _ => false end.

Fixpoint all (p : ascii → bool) (s : string) : bool :=
  match s with
  | EmptyString => true
  | String c s' => p c && all p s'
  end.

(** [s[:n]] *)
Fixpoint take (n : nat) (s : string) : string :=
  match n, s with
  | S n', String c s' => String c (take n' s')
  | _, _ => EmptyString
  end.

(** [s.lstrip()], [s.rstrip()] and [s.strip()] *)
Fixpoint lstrip (s : string) : string :=
  match s with
  | String c s' => if is_space c then lstrip s' else s
  | EmptyString => EmptyString
  end.

Fixpoint rstrip (s : string) : string :=
  match s with
  | EmptyString => EmptyString
  | String c s' =>
      let r := rstrip s' in
      if is_space c && is_empty r then EmptyString else String c r
  end.

Definition strip (s : string) : string := rstrip (lstrip s).

(** [s.split('\n')]: never the empty list. *)
Fixpoint split_lines (s : string) : list string :=
  match s with
  | EmptyString => [EmptyString]
  | String c s' =>
      if Ascii.eqb c newline then EmptyString :: split_lines s'
      else match split_lines s' with
           | l :: ls => String c l :: ls
           | [] => [String c EmptyString]
           end
  end.

(** [s.startswith(p)], returning the rest of [s] after [p]. *)
Fixpoint strip_prefix (p s : string) : option string :=
  match p, s with
  | EmptyString, _ => Some s
  | String a p', String b s' => if Ascii.eqb a b then strip_prefix p' s' else None
  | String _ _, EmptyString => None
  end.

(** [sub in s] *)
Fixpoint contains (sub s : string) : bool :=
  match strip_prefix sub s with
  | Some _ => true
  | None => match s with
            | String _ s' => contains sub s'
            | EmptyString => false
            end
  end.

(** The text before the first occurrence of [sep], the whole of [s]
    when there is none: [s.split(sep)[0]] for a non-empty [sep]. *)
Fixpoint before_first (sep s : string) : string :=
  match strip_prefix sep s with
  | Some _ => EmptyString
  | None => match s with
            | String c s' => String c (before_first sep s')
            | EmptyString => EmptyString
            end
  end.

(** [s.lower()] *)
Definition lower_char (c : ascii) : ascii :=
  if (65 <=? code c)%nat && (code c <=? 90)%nat
  then ascii_of_nat (code c + 32) else c.

Fixpoint lower (s : string) : string :=
  match s with
  | EmptyString => EmptyString
  | String c s' => String (lower_char c) (lower s')
  end.

(** [sep.join(l)] *)
Fixpoint join (sep : string) (l : list string) : string :=
  match l with
  | [] => EmptyString
  | [x] => x
  | x :: l' => x +:+ sep +:+ join sep l'
  end.

(** [s * n] *)
Fixpoint repeat (s : string) (n : nat) : string :=
  match n with
  | O => EmptyString
  | S n' => s +:+ repeat s n'
  end.

(** The value of a string of decimal digits, most significant first. *)
Definition digit_value (c : ascii) : Z := Z.of_nat (code c) - 48.

Fixpoint digits_value_from (acc : Z) (s : string) : Z :=
  match s with
  | EmptyString => acc
  | String c s' => digits_value_from (10 * acc + digit_value c) s'
  end.

Definition digits_value (s : string) : Z := digits_value_from 0 s.

(** The longest prefix of digits, and the rest. *)
Fixpoint span_digits (s : string) : string * string :=
  match s with
  | String c s' =>
      if is_digit c
      then let '(d, r) := span_digits s' in (String c d, r)
      else (EmptyString, s)
  | EmptyString => (EmptyString, EmptyString)
  end.

(** Strings of the shape [\d+\.\d+]. *)
Definition decimal_literal (s : string) : bool :=
  let '(ip, r) := span_digits s in
  negb (is_empty ip)
  && match r with
     | String c r' =>
         Ascii.eqb c "."
         && let '(fp, r'') := span_digits r' in negb (is_empty fp) && is_empty r''
     | EmptyString => false
     end.

(** Strings of the shape [\d+]. *)
Definition digit_string (s : string) : bool := negb (is_empty s) && all is_digit s.

End Str.

(** ** Python values, exceptions and effects *)

(** The values the scripts handle: what [json.loads] produces, and what
    the scripts store in dictionaries and table cells. *)
Inductive pyval :=
| PNone
| PBool (b : bool)
| PInt (z : Z)
| PFloat (f : float)
| PStr (s : string)
| PList (l : list pyval)
| PDict (d : gmap string pyval).

(** The exceptions that can be raised.  [RequestException] stands for
    [requests.exceptions.RequestException] and its subclasses, and carries
    the text of [str(e)]. *)
Inductive exn :=
| KeyError (k : string)
| TypeError
| AttributeError
| ValueError
| IndexError
| OverflowError
| OSError
| NameError (name : string)
| RequestException (msg : string)
| OtherException (msg : string).

(** A computation that returns or raises. *)
Inductive result (A : Type) :=
| Ok (a : A)
| Raise (e : exn).
Arguments Ok {A} a.
Arguments Raise {A} e.

#[export] Instance result_ret : MRet result := λ A a, Ok a.
#[export] Instance result_bind : MBind result :=
  λ A B f m, match m with Ok a => f a | Raise e => Raise e end.

#[export] Instance result_fmap : FMap result :=
  λ A B f m, match m with Ok a => Ok (f a) | Raise e => Raise e end.

(** [l[i]] for a list and an index [i ≥ 0] *)
Definition list_getitem {A} (l : list A) (i : nat) : result A :=
  match l !! i with
  | Some x => Ok x
  | None => Raise IndexError
  end.

(** What a script does to the outside world, in order. *)
Inductive event :=
| EPrint (line : string)                      (* print(line) *)
| EPrintFrame (rows : list (gmap string pyval)) (* print(df) *)
| EGet (url : string)                         (* requests.get(url) *)
| EPost (url data : string) (headers : list (string * string))
                                              (* requests.post(url, data=, headers=) *)
| EToCsv (path : string) (rows : list (gmap string pyval)).
                                              (* df.to_csv(path, index=False) *)

(** A computation with effects: the events so far, and how it ended. *)
Definition Py (A : Type) : Type := list event * result A.

#[export] Instance Py_ret : MRet Py := λ A a, ([], Ok a).
#[export] Instance Py_bind : MBind Py :=
  λ A B f m,
    match m with
    | (t, Ok a) => let '(t', r) := f a in (t ++ t', r)
    | (t, Raise e) => (t, Raise e)
    end.

Definition emit (e : event) : Py unit := ([e], Ok tt).
Definition print (line : string) : Py unit := emit (EPrint line).
Definition raise {A} (e : exn) : Py A := ([], Raise e).
Definition lift {A} (r : result A) : Py A := ([], r).

(** [for x in l: body x], stopping at the first exception. *)
Fixpoint for_each {A} (l : list A) (body : A → Py unit) : Py unit :=
  match l with
  | [] => mret tt
  | x :: l' => body x ;; for_each l' body
  end.

(** A list built by a loop: each round appends some items, or raises. *)
Fixpoint collect {A B} (body : A → result (list B)) (l : list A) : result (list B) :=
  match l with
  | [] => Ok []
  | x :: l' => ys ← body x; zs ← collect body l'; Ok (ys ++ zs)
  end.

(** What the interpreter and the libraries provide and this development
    does not look into. *)
Class Runtime := {
  (** [str(v)], as an f-string or [print] formats a value *)
  py_str : pyval → string;
  (** [json.dumps(v)] *)
  json_dumps : pyval → string;
  (** [float(s)] for a string [s] that is not of the shape [\d+\.\d+] *)
  float_of_other_str : string → result float;
  (** [int(s)] for a string [s] that is not of the shape [\d+] *)
  int_of_other_str : string → result Z;
  (** [sys.get_int_max_str_digits()]: the length of the longest string of
      digits that [int] converts, 0 when there is no limit *)
  int_max_str_digits : nat;
  (** [Series.round(2)] on one cell *)
  round2 : float → float;
  (** [f"{x:.1f}"] and [f"{x:.2f}"] *)
  format_fixed : nat → float → string
}.

(** The web: what a request is answered with.  [Ok j] is the decoded
    body of a response whose status is not an error; [Raise e] is the
    first exception raised by the request, by [raise_for_status()] or by
    [json()]. *)
Class Network := {
  http_get : string → result pyval;
  http_post : string → string → list (string * string) → result pyval
}.

(** The disk: the directories that exist besides the current one, each
    under the relative path that names it. *)
Class FileSystem := {
  is_dir : string → bool
}.

Module Path.

(** [Path(path).parent] for a relative path: the text before its last
    [/], and [.] for a path without one. *)
Fixpoint parent_from (path : string) : string :=
  match path with
  | EmptyString => EmptyString
  | String c path' =>
      if Str.contains "/" path' then String c (parent_from path')
      else EmptyString
  end.

Definition parent (path : string) : string :=
  if Str.contains "/" path then parent_from path else ".".

(** The disk after [Path(dir).mkdir(exist_ok=True)] has returned. *)
Definition mkdir (dir : string) (disk : FileSystem) : FileSystem :=
  {| is_dir := λ d, String.eqb d dir || is_dir d |}.

End Path.

(** [df.to_csv(path, index=False)]: pandas refuses to write a file into
    a directory that does not exist. *)
Definition to_csv {disk : FileSystem} (path : string)
    (rows : list (gmap string pyval)) : Py unit :=
  if String.eqb (Path.parent path) "." || is_dir (Path.parent path)
  then emit (EToCsv path rows)
  else raise OSError.

Module Builtins.

(** [s.split(sep)[0]]: an empty separator is refused. *)
Definition split_head (sep s : string) : result string :=
  if Str.is_empty sep then Raise ValueError else Ok (Str.before_first sep s).

(** [bool(v)] *)
Definition truthy (v : pyval) : bool :=
  match v with
  | PNone => false
  | PBool b => b
  | PInt z => negb (z =? 0)
  | PFloat f => negb (PrimFloat.eqb f 0%float)
  | PStr s => negb (Str.is_empty s)
  | PList l => match l with [] => false | _ => true end
  | PDict d => negb (bool_decide (d = ∅))
  end.

(** [v == s] for a string literal [s] *)
Definition eq_str (v : pyval) (s : string) : bool :=
  match v with
  | PStr s' => String.eqb s' s
  | _ => false
  end.

(** [v[key]] for a string key *)
Definition getitem (v : pyval) (key : string) : result pyval :=
  match v with
  | PDict d => match d !! key with
               | Some x => Ok x
               | None => Raise (KeyError key)
               end
  | _ => Raise TypeError
  end.

(** [v.get(key, dflt)] *)
Definition get (v : pyval) (key : string) (dflt : pyval) : result pyval :=
  match v with
  | PDict d => Ok (default dflt (d !! key))
  | _ => Raise AttributeError
  end.

(** [key in v] for a string [key] *)
Definition contains_key (key : string) (v : pyval) : result bool :=
  match v with
  | PDict d => Ok (bool_decide (is_Some (d !! key)))
  | PList l => Ok (existsb (λ x, eq_str x key) l)
  | PStr s => Ok (Str.contains key s)
  | PNone | PBool _ | PInt _ | PFloat _ => Raise TypeError
  end.

(** [for x in v]: the elements a loop over [v] visits.  A loop over a
    dictionary visits its keys, a loop over a string its characters. *)
Definition iter (v : pyval) : result (list pyval) :=
  match v with
  | PList l => Ok l
  | PDict d => Ok ((λ kv, PStr kv.1) <$> map_to_list d)
  | PStr s => Ok ((λ c, PStr (String c EmptyString)) <$> list_ascii_of_string s)
  | _ => Raise TypeError
  end.

(** [v.items()] *)
Definition items (v : pyval) : result (list (string * pyval)) :=
  match v with
  | PDict d => Ok (map_to_list d)
  | _ => Raise AttributeError
  end.

(** The binary64 number nearest to [n / d] (ties to even). *)
Definition float_of_ratio (n : Z) (d : positive) : float :=
  match n with
  | Zpos p => SF2Prim (SFdiv prec emax (S754_finite false p 0) (S754_finite false d 0))
  | Zneg p => SF2Prim (SFdiv prec emax (S754_finite true p 0) (S754_finite false d 0))
  | Z0 => 0%float
  end.

(** [float(s)] for [s] of the shape [\d+\.\d+]. *)
Definition float_of_decimal (s : string) : float :=
  let '(ip, r) := Str.span_digits s in
  let fp := (Str.span_digits (match r with String _ r' => r' | EmptyString => r end)).1 in
  float_of_ratio (Str.digits_value (ip +:+ fp)) (Pos.pow 10 (Pos.of_nat (String.length fp))).

Section WithRuntime.
Context `{Runtime}.

(** [float(s)] for a string *)
Definition float_of_str (s : string) : result float :=
  if Str.decimal_literal s then Ok (float_of_decimal s) else float_of_other_str s.

(** A string of digits that is too long for [int]. *)
Definition exceeds_limit (s : string) : bool :=
  (0 <? int_max_str_digits)%nat && (int_max_str_digits <? String.length s)%nat.

(** [int(s)] for a string *)
Definition int_of_str (s : string) : result Z :=
  if Str.digit_string s then
    if exceeds_limit s then Raise ValueError else Ok (Str.digits_value s)
  else int_of_other_str s.

(** [float(v)] *)
Definition float_of (v : pyval) : result float :=
  match v with
  | PStr s => float_of_str s
  | PFloat f => Ok f
  | PBool b => Ok (if b then 1%float else 0%float)
  | PInt z =>
      let f := float_of_ratio z 1 in
      if PrimFloat.is_infinity f then Raise OverflowError else Ok f
  | PNone | PList _ | PDict _ => Raise TypeError
  end.
End WithRuntime.

(** [v * n] for a small [int] literal [n] *)
Definition mul_int (v : pyval) (n : Z) : result pyval :=
  match v with
  | PInt z => Ok (PInt (z * n))
  | PBool b => Ok (PInt ((if b then 1 else 0) * n))
  | PFloat f => Ok (PFloat (f * float_of_ratio n 1)%float)
  | PStr s => Ok (PStr (Str.repeat s (Z.to_nat n)))
  | PList l => Ok (PList (mjoin (replicate (Z.to_nat n) l)))
  | PNone | PDict _ => Raise TypeError
  end.

End Builtins.

(** ** Data frames

    What [pd.DataFrame(records)] makes of a list of dictionaries, as far
    as the scripts read it back: a row for each record and a column for
    each key of any record.  A record that lacks a key has NaN in that
    column.  A column in which every cell is a float, a 64-bit integer,
    [None] or absent is stored as floats, with NaN for [None] and for an
    absent cell, unless all its cells are integers or all are [None];
    every other column keeps its cells as they are. *)

Module Pandas.

Definition int64 (z : Z) : bool := (- 2 ^ 63 <=? z) && (z <? 2 ^ 63).

Definition numeric (cell : option pyval) : bool :=
  match cell with
  | None | Some PNone | Some (PFloat _) => true
  | Some (PInt z) => int64 z
  | Some _ => false
  end.

Definition is_none (cell : option pyval) : bool :=
  match cell with Some PNone => true | _ => false end.

Definition is_int (cell : option pyval) : bool :=
  match cell with Some (PInt _) => true | _ => false end.

(** The column is stored as floats. *)
Definition float_column (cells : list (option pyval)) : bool :=
  forallb numeric cells && negb (forallb is_none cells) && negb (forallb is_int cells).

Definition as_float (cell : option pyval) : pyval :=
  match cell with
  | Some (PFloat f) => PFloat f
  | Some (PInt z) => PFloat (Builtins.float_of_ratio z 1)
  | _ => PFloat nan
  end.

(** A cell as the frame holds it, given the cells of its column. *)
Definition convert (cells : list (option pyval)) (cell : option pyval) : pyval :=
  if float_column cells then as_float cell else default (PFloat nan) cell.

Definition column (records : list (gmap string pyval)) (k : string)
    : list (option pyval) :=
  (λ record, record !! k) <$> records.

Definition columns (records : list (gmap string pyval)) : gset string :=
  ⋃ (dom <$> records).

(** The rows of the frame, in the order of the records. *)
Definition DataFrame (records : list (gmap string pyval))
    : list (gmap string pyval) :=
  (λ record,
     map_imap (λ k _, Some (convert (column records k) (record !! k)))
       (gset_to_gmap tt (columns records))) <$> records.

End Pandas.

(** ** Regular expressions

    The fragment of Python's [re] that the scripts' patterns are written
    in: literal text, one character of a class, a greedy [+] over a class,
    concatenation, numbered groups and [$].  Matching is by backtracking, as
    in [re]: the matcher takes the rest of the pattern as a continuation and
    tries the longest repetition first. *)

Module Regex.

Inductive regex :=
| Lit (s : string)               (* literal text *)
| Cls (p : ascii → bool)         (* one character of a class *)
| Plus (p : ascii → bool)        (* [c+], greedy *)
| Cat (r1 r2 : regex)
| Grp (n : nat) (r : regex)      (* the [n]-th parenthesised group *)
| Eos.                           (* [$] *)

Infix "⋅" := Cat (at level 41, right associativity).

Definition digit : ascii → bool := Str.is_digit.
Definition space : ascii → bool := Str.is_space.
(** [[^(]] *)
Definition not_lparen (c : ascii) : bool := negb (Ascii.eqb c "(").
(** [\.] as a class, for [\.+] *)
Definition dot (c : ascii) : bool := Ascii.eqb c ".".

(** [$] matches at the end of the text and before a final newline. *)
Definition at_end (s : string) : bool :=
  match s with
  | EmptyString => true
  | String c EmptyString => Ascii.eqb c Str.newline
  | _ => false
  end.

(** The text between a position [s] and a later position [s']. *)
Definition consumed (s s' : string) : string :=
  Str.take (String.length s - String.length s') s.

(** After one character of the class: take as many more as possible,
    giving one back at a time when the rest of the pattern fails. *)
Fixpoint more {A} (p : ascii → bool) (s : string) (k : string → option A) : option A :=
  match s with
  | String c s' =>
      if p c
      then match more p s' k with
           | Some a => Some a
           | None => k s
           end
      else k s
  | EmptyString => k s
  end.

Fixpoint rmatch {A} (r : regex) (s : string) (g : gmap nat string)
    (k : string → gmap nat string → option A) : option A :=
  match r with
  | Lit l =>
      match Str.strip_prefix l s with
      | Some s' => k s' g
      | None => None
      end
  | Cls p =>
      match s with
      | String c s' => if p c then k s' g else None
      | EmptyString => None
      end
  | Plus p =>
      match s with
      | String c s' => if p c then more p s' (λ s'', k s'' g) else None
      | EmptyString => None
      end
  | r1 ⋅ r2 => rmatch r1 s g (λ s' g', rmatch r2 s' g' k)
  | Grp n r1 => rmatch r1 s g (λ s' g', k s' (<[n := consumed s s']> g'))
  | Eos => if at_end s then k s g else None
  end.

(** A match object: the text before the match, [group(0)], the groups,
    and the text after the match. *)
Record rematch := {
  m_before : string;
  m_text : string;
  m_groups : gmap nat string;
  m_after : string
}.

(** [match.group(n)] for [n ≥ 1]; [None] for a group that did not take
    part in the match. *)
Definition group (m : rematch) (n : nat) : option string := m_groups m !! n.

Definition shift (c : ascii) (m : rematch) : rematch :=
  {| m_before := String c (m_before m); m_text := m_text m;
     m_groups := m_groups m; m_after := m_after m |}.

(** [re.search(r, s)]: the match at the leftmost position that has one *)
Fixpoint search (r : regex) (s : string) : option rematch :=
  match rmatch r s ∅ (λ s' g, Some (s', g)) with
  | Some (s', g) =>
      Some {| m_before := EmptyString; m_text := consumed s s';
              m_groups := g; m_after := s' |}
  | None =>
      match s with
      | String c s' => shift c <$> search r s'
      | EmptyString => None
      end
  end.

(** Where the scan resumes after a match: at its end, one character
    further when the match is empty. *)
Definition resume (m : rematch) : string * string :=
  if Str.is_empty (m_text m)
  then match m_after m with
       | String c s' => (String c EmptyString, s')
       | EmptyString => (EmptyString, EmptyString)
       end
  else (EmptyString, m_after m).

(** [re.findall(r, s)] for a pattern without groups: the texts of the
    successive non-overlapping matches. *)
Fixpoint findall_upto (fuel : nat) (r : regex) (s : string) : list string :=
  match fuel with
  | O => []
  | S fuel' =>
      match search r s with
      | None => []
      | Some m =>
          m_text m ::
            (if Str.is_empty (m_after m) && Str.is_empty (m_text m) then []
             else findall_upto fuel' r (resume m).2)
      end
  end.

Definition findall (r : regex) (s : string) : list string :=
  findall_upto (S (String.length s)) r s.

(** [re.sub(r, '', s)]: [s] without the matches of [r] *)
Fixpoint remove_upto (fuel : nat) (r : regex) (s : string) : string :=
  match fuel with
  | O => s
  | S fuel' =>
      match search r s with
      | None => s
      | Some m =>
          m_before m +:+ (resume m).1 +:+
            (if Str.is_empty (m_after m) then EmptyString
             else remove_upto fuel' r (resume m).2)
      end
  end.

Definition remove_all (r : regex) (s : string) : string :=
  remove_upto (S (String.length s)) r s.

(** The words a pattern matches, and the pattern of each group. *)
Inductive matches : regex → string → Prop :=
| matches_lit l : matches (Lit l) l
| matches_cls (p : ascii → bool) c :
    p c = true → matches (Cls p) (String c EmptyString)
| matches_plus (p : ascii → bool) c w :
    p c = true → Str.all p w = true → matches (Plus p) (String c w)
| matches_cat r1 r2 w1 w2 :
    matches r1 w1 → matches r2 w2 → matches (r1 ⋅ r2) (w1 +:+ w2)
| matches_grp n r w : matches r w → matches (Grp n r) w
| matches_eos : matches Eos EmptyString.

Fixpoint group_pattern (r : regex) (n : nat) : option regex :=
  match r with
  | r1 ⋅ r2 =>
      match group_pattern r2 n with
      | Some r' => Some r'
      | None => group_pattern r1 n
      end
  | Grp m r1 => if bool_decide (m = n) then Some r1 else group_pattern r1 n
  | _ => None
  end.

(** The groups after a match of [r] that started with the groups [g]:
    every group of [r] holds a word its pattern matches, the others are
    as before. *)
Definition captured (r : regex) (g g' : gmap nat string) : Prop :=
  ∀ n, match group_pattern r n with
       | Some r' => ∃ w, g' !! n = Some w ∧ matches r' w
       | None => g' !! n = g !! n
       end.

(** [r'\d+\.\d+'] *)
Definition decimal : regex := Plus digit ⋅ Lit "." ⋅ Plus digit.

End Regex.

(** [float(m.group(n))] and [int(m.group(n))]: a group that took no part
    in the match is [None]. *)
Section GroupConversions.
Context `{Runtime}.

Definition float_of_group (m : Regex.rematch) (n : nat) : result float :=
  match Regex.group m n with
  | Some s => Builtins.float_of_str s
  | None => Raise TypeError
  end.

Definition int_of_group (m : Regex.rematch) (n : nat) : result Z :=
  match Regex.group m n with
  | Some s => Builtins.int_of_str s
  | None => Raise TypeError
  end.
End GroupConversions.

(** ** PDF documents

    A document opened with [fitz.open] is the list of the texts of its
    pages ([page.get_text()]). *)

Module Fitz.

Definition document := list string.

(** [doc[i]]: pages are numbered from 0 and a negative [i] counts back
    from the end; an [i] past the last page raises [IndexError].  For a
    document without pages every index is out of range here. *)
Definition getitem (doc : document) (i : Z) : result string :=
  let n := Z.of_nat (length doc) in
  if (i <? n) && (0 <? n)
  then match doc !! Z.to_nat (i `mod` n) with
       | Some text => Ok text
       | None => Raise IndexError
       end
  else Raise IndexError.

End Fitz.

(** ** [PDF Method/extract_atus_final.py] *)

Module ExtractFinal.
Import Regex.

(** [r'Watching TV was the leisure[^(]+\((\d+\.\d+) hours per day\)'] *)
Definition tv_pattern : regex :=
  Lit "Watching TV was the leisure" ⋅ Plus not_lparen ⋅ Lit "("
  ⋅ Grp 1 decimal ⋅ Lit " hours per day)".

(** [r'all leisure time[^(]+\((\d+\.\d+) hours per day\)'] *)
Definition leisure_pattern : regex :=
  Lit "all leisure time" ⋅ Plus not_lparen ⋅ Lit "("
  ⋅ Grp 1 decimal ⋅ Lit " hours per day)".

(** [r'(\d+) minutes playing games and\s+using a computer for leisure'] *)
Definition gaming_pattern : regex :=
  Grp 1 (Plus digit) ⋅ Lit " minutes playing games and" ⋅ Plus space
  ⋅ Lit "using a computer for leisure".

(** [r'(\d+) minutes socializing and communicating'] *)
Definition social_pattern : regex :=
  Grp 1 (Plus digit) ⋅ Lit " minutes socializing and communicating".

(** [r'men spent more time[^(]+than\s+did women \((\d+\.\d+) hours, compared with (\d+\.\d+) hours\)'] *)
Definition gender_pattern : regex :=
  Lit "men spent more time" ⋅ Plus not_lparen ⋅ Lit "than" ⋅ Plus space
  ⋅ Lit "did women (" ⋅ Grp 1 decimal ⋅ Lit " hours, compared with "
  ⋅ Grp 2 decimal ⋅ Lit " hours)".

(** One row of Table 11A as the script builds it. *)
Record leisure_row := {
  demographic : string;
  total_leisure : float;
  sports : float;
  socializing : float;
  tv : float;
  reading : float;
  relaxing : float;
  gaming : float;
  other : float
}.

(** The demographic labels looked for in a line of Table 11A. *)
Definition keywords_11a : list string :=
  [ "Total, 15 years and over"; "Men"; "Women"; "to 24 years";
    "to 34 years"; "to 44 years"; "to 54 years";
    "to 64 years"; "65 to 74 years"; "75 years and over";
    "Less than a high school"; "High school grad";
    "Bachelor's degree" ].

(** [any(keyword in line for keyword in [...])] *)
Definition has_keyword (line : string) : bool :=
  existsb (λ keyword, Str.contains keyword line) keywords_11a.

Section WithRuntime.
Context `{Runtime} {disk : FileSystem}.

(** The body of [extract_key_statistics] once the text of page 2 is
    at hand. *)
Definition key_statistics_of_text (text : string) : result (gmap string pyval) :=
  let key_stats : gmap string pyval := ∅ in
  key_stats ←
    match search tv_pattern text with
    | Some tv_match =>
        v ← float_of_group tv_match 1;
        Ok (<["tv_hours" := PFloat v]> key_stats)
    | None => Ok key_stats
    end;
  key_stats ←
    match search leisure_pattern text with
    | Some leisure_match =>
        v ← float_of_group leisure_match 1;
        Ok (<["total_leisure_hours" := PFloat v]> key_stats)
    | None => Ok key_stats
    end;
  key_stats ←
    match search gaming_pattern text with
    | Some gaming_match =>
        v ← int_of_group gaming_match 1;
        Ok (<["gaming_minutes" := PInt v]> key_stats)
    | None => Ok key_stats
    end;
  key_stats ←
    match search social_pattern text with
    | Some social_match =>
        v ← int_of_group social_match 1;
        Ok (<["socializing_minutes" := PInt v]> key_stats)
    | None => Ok key_stats
    end;
  key_stats ←
    match search gender_pattern text with
    | Some gender_match =>
        v1 ← float_of_group gender_match 1;
        let key_stats := <["men_leisure_hours" := PFloat v1]> key_stats in
        v2 ← float_of_group gender_match 2;
        Ok (<["women_leisure_hours" := PFloat v2]> key_stats)
    | None => Ok key_stats
    end;
  Ok key_stats.

Definition extract_key_statistics (doc : Fitz.document) : result (gmap string pyval) :=
  text ← Fitz.getitem doc 1;
  key_statistics_of_text text.

(** [float(numbers[i]) if len(numbers) > i else 0]; the [0] is stored
    in a column of floats. *)
Definition cell (numbers : list string) (i : nat) : result float :=
  match numbers !! i with
  | Some s => Builtins.float_of_str s
  | None => Ok 0%float
  end.

(** What one line of the page adds to [data_rows]. *)
Definition rows_of_line (line : string) : result (list leisure_row) :=
  if Str.is_empty (Str.strip line) then Ok []
  else if has_keyword line then
    let numbers := findall decimal line in
    if negb (bool_decide (numbers = [])) && (7 <=? length numbers)%nat then
      number0 ← list_getitem numbers 0;
      before ← Builtins.split_head number0 line;
      let demographic := Str.strip before in
      if (7 <=? length numbers)%nat then
        number0 ← list_getitem numbers 0;
        total_leisure ← Builtins.float_of_str number0;
        sports ← cell numbers 1;
        socializing ← cell numbers 2;
        tv ← cell numbers 3;
        reading ← cell numbers 4;
        relaxing ← cell numbers 5;
        gaming ← cell numbers 6;
        other ← cell numbers 7;
        Ok [ {| demographic := demographic;
                total_leisure := total_leisure;
                sports := sports; socializing := socializing;
                tv := tv; reading := reading; relaxing := relaxing;
                gaming := gaming; other := other |} ]
      else Ok []
    else Ok []
  else Ok [].

(** The loop over the lines of the page. *)
Definition table_11a_of_text (text : string) : result (list leisure_row) :=
  collect rows_of_line (Str.split_lines text).

Definition extract_table_11a_data (doc : Fitz.document) (page_num : Z)
    : result (list leisure_row) :=
  text ← Fitz.getitem doc (page_num - 1);
  table_11a_of_text text.

(** *** [process_and_save_data]

    [key_stats] is a dictionary that the caller owns and the function
    updates in place: the function is given its contents and returns
    the contents it has when the call ends, by a return or by an
    exception, next to the events and the outcome of the call. *)

(** [if hours in key_stats: key_stats[minutes] = key_stats[hours] * 60] *)
Definition add_minutes (hours minutes : string) (key_stats : gmap string pyval)
    : gmap string pyval * result unit :=
  if bool_decide (is_Some (key_stats !! hours)) then
    match v ← Builtins.getitem (PDict key_stats) hours; Builtins.mul_int v 60 with
    | Ok v => (<[minutes := v]> key_stats, Ok tt)
    | Raise e => (key_stats, Raise e)
    end
  else (key_stats, Ok tt).

(** A row of Table 11A as a row of the CSV file. *)
Definition row_dict (r : leisure_row) : gmap string pyval :=
  {[ "demographic" := PStr (demographic r);
     "total_leisure" := PFloat (total_leisure r);
     "sports" := PFloat (sports r);
     "socializing" := PFloat (socializing r);
     "tv" := PFloat (tv r);
     "reading" := PFloat (reading r);
     "relaxing" := PFloat (relaxing r);
     "gaming" := PFloat (gaming r);
     "other" := PFloat (other r) ]}.

(** [(df[col] / df['total_leisure'] * 100).round(2)] on one row *)
Definition pct_of_leisure (r : leisure_row) (x : float) : float :=
  round2 (x / total_leisure r * 100)%float.

Definition analysis_dict (r : leisure_row) : gmap string pyval :=
  <["socializing_pct_of_leisure" := PFloat (pct_of_leisure r (socializing r))]>
  (<["tv_pct_of_leisure" := PFloat (pct_of_leisure r (tv r))]>
  (<["gaming_pct_of_leisure" := PFloat (pct_of_leisure r (gaming r))]>
  (row_dict r))).

(** [key_stats.get(key, 'N/A')] inside an f-string *)
Definition stat_or_na (key_stats : gmap string pyval) (key : string) : string :=
  py_str (default (PStr "N/A") (key_stats !! key)).

(** Lines 149 to 186: the files written and the report printed. *)
Definition save_and_report (key_stats : gmap string pyval)
    (table_11a_df : list leisure_row) (table_11b_df : list (gmap string pyval))
    : Py unit :=
  to_csv "data/key_statistics.csv" [key_stats];;
  (if bool_decide (table_11a_df = []) then mret tt
   else
     to_csv "data/leisure_by_demographics.csv" (row_dict <$> table_11a_df);;
     to_csv "data/leisure_analysis.csv" (analysis_dict <$> table_11a_df));;
  (if bool_decide (table_11b_df = []) then mret tt
   else to_csv "data/leisure_by_day_type.csv" table_11b_df);;
  print (String Str.newline "=== AMERICAN TIME USE SURVEY 2024 - KEY FINDINGS ==="
         +:+ String Str.newline "");;
  print "Overall Statistics:";;
  print ("  • Total leisure time: " +:+ stat_or_na key_stats "total_leisure_hours"
         +:+ " hours/day");;
  print ("  • TV watching: " +:+ stat_or_na key_stats "tv_hours" +:+ " hours/day");;
  print ("  • Gaming/computer leisure: " +:+ stat_or_na key_stats "gaming_minutes"
         +:+ " minutes/day");;
  print ("  • Socializing: " +:+ stat_or_na key_stats "socializing_minutes"
         +:+ " minutes/day");;
  print (String Str.newline "Gender Differences:");;
  print ("  • Men: " +:+ stat_or_na key_stats "men_leisure_hours" +:+ " hours/day");;
  print ("  • Women: " +:+ stat_or_na key_stats "women_leisure_hours" +:+ " hours/day");;
  if bool_decide (table_11a_df = []) then mret tt
  else
    print (String Str.newline "Age Group Analysis (Gaming time in hours/day):");;
    let age_groups :=
      filter (λ r, Str.contains "years" (demographic r) = true) table_11a_df in
    for_each age_groups (λ row,
      print ("  • " +:+ demographic row +:+ ": " +:+ format_fixed 2 (gaming row)
             +:+ " hours (" +:+ format_fixed 1 (pct_of_leisure row (gaming row))
             +:+ "% of leisure)")).

Definition process_and_save_data (key_stats : gmap string pyval)
    (table_11a_df : list leisure_row) (table_11b_df : list (gmap string pyval))
    : gmap string pyval * Py unit :=
  let '(key_stats, r) := add_minutes "tv_hours" "tv_minutes" key_stats in
  match r with
  | Raise e => (key_stats, raise e)
  | Ok _ =>
      let '(key_stats, r) :=
        add_minutes "total_leisure_hours" "total_leisure_minutes" key_stats in
      match r with
      | Raise e => (key_stats, raise e)
      | Ok _ => (key_stats, save_and_report key_stats table_11a_df table_11b_df)
      end
  end.

End WithRuntime.

End ExtractFinal.

(** ** [PDF Method/scrape_atus.py] *)

Module ScrapeAtus.
Import Regex.

(** [time_pattern = r'(\d+):(\d+)'] *)
Definition time_pattern : regex := Grp 1 (Plus digit) ⋅ Lit ":" ⋅ Grp 2 (Plus digit).

(** [r'\.+$'] *)
Definition trailing_dots : regex := Plus dot ⋅ Eos.

(** One row of the table: the dictionary appended to [data]. *)
Record time_row := {
  category : string;
  hours : Z;
  minutes : Z;
  total_minutes : Z
}.

(** [df[df['total_minutes'] > 0]] *)
Definition positive_rows (df : list time_row) : list time_row :=
  filter (λ r, 0 < total_minutes r) df.

(** [df.drop_duplicates(subset=['category'])]: of the rows with one
    category the first is kept.  [seen] holds the categories met so far. *)
Fixpoint drop_duplicates_from (seen : gset string) (df : list time_row) : list time_row :=
  match df with
  | [] => []
  | r :: df' =>
      if bool_decide (category r ∈ seen) then drop_duplicates_from seen df'
      else r :: drop_duplicates_from ({[category r]} ∪ seen) df'
  end.

Definition drop_duplicates (df : list time_row) : list time_row :=
  drop_duplicates_from ∅ df.

(** [df.sort_values('total_minutes', ascending=False)], here by
    insertion; pandas leaves the order of rows with equal keys open. *)
Fixpoint insert_desc (r : time_row) (df : list time_row) : list time_row :=
  match df with
  | [] => [r]
  | r' :: df' =>
      if total_minutes r' <? total_minutes r then r :: df
      else r' :: insert_desc r df'
  end.

Fixpoint sort_values_desc (df : list time_row) : list time_row :=
  match df with
  | [] => []
  | r :: df' => insert_desc r (sort_values_desc df')
  end.

(** The order [sort_values] establishes. *)
Definition desc (r r' : time_row) : Prop := total_minutes r' ≤ total_minutes r.

(** A row whose total is the total of its hours and minutes. *)
Definition consistent (r : time_row) : Prop :=
  total_minutes r = hours r * 60 + minutes r.

Section WithRuntime.
Context `{Runtime}.

(** One round of the loop over the lines: what it appends to [data]. *)
Definition rows_of_line (line : string) : result (list time_row) :=
  let line := Str.strip line in
  if Str.is_empty line then Ok []
  else
    match search time_pattern line with
    | Some m =>
        hours ← int_of_group m 1;
        minutes ← int_of_group m 2;
        let total_minutes := hours * 60 + minutes in
        let category_text := Str.strip (remove_all time_pattern line) in
        let category_text := Str.strip (remove_all trailing_dots category_text) in
        if negb (Str.is_empty category_text) then
          Ok [ {| category := category_text; hours := hours;
                  minutes := minutes; total_minutes := total_minutes |} ]
        else Ok []
    | None => Ok []
    end.

Definition extract_time_use_data (doc : Fitz.document) : result (list time_row) :=
  let all_text := foldl (λ all_text page, all_text +:+ page) "" doc in
  let lines := Str.split_lines all_text in
  data ← collect rows_of_line lines;
  let df := data in
  if negb (bool_decide (df = [])) then
    let df := positive_rows df in
    let df := drop_duplicates df in
    let df := sort_values_desc df in
    Ok df
  else Ok df.

End WithRuntime.

End ScrapeAtus.

(** ** [PDF Method/examine_pdf_structure.py] *)

Module ExaminePdf.
Import Regex.

(** The names bound in the module's namespace once its top level has
    run with [__name__] set to [name]: the two imports and the [def]
    always, [re] and [pdf_path] only in the [__main__] block. *)
Definition module_globals (name : string) : gset string :=
  {[ "fitz"; "Path"; "examine_page_with_data" ]}
  ∪ (if bool_decide (name = "__main__") then {[ "re"; "pdf_path" ]} else ∅).

(** Evaluating a global name. *)
Definition load_global (globals : gset string) (name : string) : Py unit :=
  if bool_decide (name ∈ globals) then mret tt else raise (NameError name).

(** [r'\d+:\d+'] *)
Definition hhmm_pattern : regex := Plus digit ⋅ Lit ":" ⋅ Plus digit.

Definition words : list string :=
  [ "game"; "gaming"; "television"; "tv"; "leisure"; "computer" ].

(** The default of [page_numbers]. *)
Definition default_page_numbers : list Z := [1; 2; 23; 24].

Section WithRuntime.
Context `{Runtime}.

Definition rule : string := Str.repeat "=" 80.

Definition examine_page_with_data (globals : gset string)
    (doc : Fitz.document) (page_numbers : list Z) : Py unit :=
  for_each page_numbers (λ page_num,
    if page_num <=? Z.of_nat (length doc) then
      text ← lift (Fitz.getitem doc (page_num - 1));
      print (String Str.newline rule);;
      print ("PAGE " +:+ py_str (PInt page_num) +:+ " - First 2000 characters:");;
      print rule;;
      print (Str.take 2000 text);;
      print (String Str.newline "--- Lines with time values (HH:MM format) on page "
             +:+ py_str (PInt page_num) +:+ " ---");;
      let lines := Str.split_lines text in
      for_each lines (λ line,
        load_global globals "re";;
        if bool_decide (is_Some (search hhmm_pattern line))
        then print ("  > " +:+ Str.strip line)
        else mret tt);;
      print (String Str.newline "--- Lines with gaming/TV/leisure mentions on page "
             +:+ py_str (PInt page_num) +:+ " ---");;
      for_each lines (λ line,
        let line_lower := Str.lower line in
        if existsb (λ word, Str.contains word line_lower) words
        then print ("  > " +:+ Str.strip line)
        else mret tt)
    else mret tt).

End WithRuntime.

End ExaminePdf.

(** ** [API Method/scripts/atus_api_client.py] *)

Module ApiClient.

(** An [ATUSAPIClient] object. *)
Record client := {
  api_key : string;
  base_url : string;
  headers : list (string * string)
}.

(** [ATUSAPIClient(api_key)] *)
Definition init (api_key : string) : client :=
  {| api_key := api_key;
     base_url := "https://api.bls.gov/publicAPI/v2";
     headers := [("Content-type", "application/json")] |}.

Section WithRuntime.
Context `{Runtime} `{Network}.

(** The [try] block around a request: the decoded body is returned;
    a [RequestException] is caught, reported after [label] and turned
    into [None]; any other exception goes on to the caller. *)
Definition guarded (label : string) (request : event) (answer : result pyval)
    : Py pyval :=
  emit request;;
  match answer with
  | Ok json => mret json
  | Raise (RequestException e) => print (label +:+ e);; mret PNone
  | Raise e => raise e
  end.

Definition get_latest_series (self : client) (series_ids : list string) : Py pyval :=
  if bool_decide (length series_ids = 1%nat) then
    series0 ← lift (list_getitem series_ids 0);
    let url := base_url self +:+ "/timeseries/data/" +:+ series0
               +:+ "?latest=true&registrationkey=" +:+ api_key self in
    guarded "Error fetching latest data: " (EGet url) (http_get url)
  else
    let url := base_url self +:+ "/timeseries/data/" in
    let payload : gmap string pyval :=
      {[ "seriesid" := PList (PStr <$> series_ids);
         "latest" := PBool true;
         "registrationkey" := PStr (api_key self) ]} in
    let data := json_dumps (PDict payload) in
    guarded "Error fetching latest data: "
      (EPost url data (headers self)) (http_post url data (headers self)).

Definition get_series_data (self : client) (series_ids : list string)
    (start_year end_year : string)
    (catalog calculations annualaverage aspects : bool) : Py pyval :=
  let url := base_url self +:+ "/timeseries/data/" in
  let payload : gmap string pyval :=
    {[ "seriesid" := PList (PStr <$> series_ids);
       "startyear" := PStr start_year;
       "endyear" := PStr end_year;
       "catalog" := PBool catalog;
       "calculations" := PBool calculations;
       "annualaverage" := PBool annualaverage;
       "aspects" := PBool aspects;
       "registrationkey" := PStr (api_key self) ]} in
  let data := json_dumps (PDict payload) in
  guarded "Error fetching series data: "
    (EPost url data (headers self)) (http_post url data (headers self)).

(** The text of one footnote, [None] for a footnote that is skipped. *)
Definition footnote_text (footnote : pyval) : result (option string) :=
  if Builtins.truthy footnote then
    code ← Builtins.get footnote "code" (PStr "");
    text ← Builtins.get footnote "text" (PStr "");
    Ok (Some (py_str code +:+ ": " +:+ py_str text))
  else Ok None.

(** [row[f'calc_{calc_type}'] = calc_value] for every item of the
    dictionary of calculations *)
Definition add_calculations (calculations : list (string * pyval))
    (row : gmap string pyval) : gmap string pyval :=
  foldl (λ row kv, <["calc_" +:+ kv.1 := kv.2]> row) row calculations.

(** The body of the loop over [series['data']]: the row of one item. *)
Definition row_of_item (series_id series_catalog item : pyval)
    : result (gmap string pyval) :=
  series_title ← Builtins.get series_catalog "series_title" (PStr "");
  survey_name ← Builtins.get series_catalog "survey_name" (PStr "");
  survey_abbreviation ← Builtins.get series_catalog "survey_abbreviation" (PStr "");
  year ← Builtins.getitem item "year";
  period ← Builtins.getitem item "period";
  period_name ← Builtins.get item "periodName" (PStr "");
  raw ← Builtins.getitem item "value";
  value ←
    (if negb (Builtins.eq_str raw "-")
     then raw ← Builtins.getitem item "value";
          f ← Builtins.float_of raw;
          Ok (PFloat f)
     else Ok PNone);
  latest ← Builtins.get item "latest" (PBool false);
  let row : gmap string pyval :=
    {[ "series_id" := series_id;
       "series_title" := series_title;
       "survey_name" := survey_name;
       "survey_abbreviation" := survey_abbreviation;
       "year" := year;
       "period" := period;
       "period_name" := period_name;
       "value" := value;
       "latest" := latest ]} in
  notes ← Builtins.get item "footnotes" (PList []);
  notes ← Builtins.iter notes;
  footnotes ← collect (λ footnote, option_list <$> footnote_text footnote) notes;
  let row :=
    <["footnotes" :=
        PStr (if bool_decide (footnotes = []) then "" else Str.join "; " footnotes)]> row in
  has_calculations ← Builtins.contains_key "calculations" item;
  if (has_calculations : bool) then
    calculations ← Builtins.getitem item "calculations";
    calculations ← Builtins.items calculations;
    Ok (add_calculations calculations row)
  else Ok row.

(** The body of the loop over [json_data['Results']['series']]. *)
Definition rows_of_series (series : pyval) : result (list (gmap string pyval)) :=
  series_id ← Builtins.getitem series "seriesID";
  series_catalog ← Builtins.get series "catalog" (PDict ∅);
  data ← Builtins.getitem series "data";
  items ← Builtins.iter data;
  collect (λ item, row ← row_of_item series_id series_catalog item; Ok [row]) items.

Definition parse_response_to_dataframe (json_data : pyval)
    : Py (option (list (gmap string pyval))) :=
  invalid ← lift (
    if negb (Builtins.truthy json_data) then Ok true
    else status ← Builtins.get json_data "status" PNone;
         Ok (negb (Builtins.eq_str status "REQUEST_SUCCEEDED")));
  if (invalid : bool) then
    message ← lift (Builtins.get json_data "message" (PStr "Unknown error"));
    print ("Invalid response: " +:+ py_str message);;
    mret None
  else
    all_series ← lift (results ← Builtins.getitem json_data "Results";
                       series ← Builtins.getitem results "series";
                       Builtins.iter series);
    all_data ← lift (collect rows_of_series all_series);
    mret (Some (Pandas.DataFrame all_data)).

End WithRuntime.

End ApiClient.

(** ** [PDF Method/fetch_atus_api.py] *)

Module FetchApi.

Definition endpoint : string := "https://api.bls.gov/publicAPI/v2/timeseries/data/".

Definition atus_series_ids : list string :=
  [ "TUU10101AA01000000"; "TUU10301AA01000000"; "TUU10801AA01000000";
    "TUU10802AA01000000"; "TUU10401AA01000000" ].

Definition test_series : list string := [ "CUUR0000SA0" ].

Section WithRuntime.
Context `{Runtime} `{Network} {disk : FileSystem}.

Definition fetch_atus_data (series_ids : list string) (start_year end_year : string)
    : Py pyval :=
  let headers := [("Content-type", "application/json")] in
  let payload : gmap string pyval :=
    {[ "seriesid" := PList (PStr <$> series_ids);
       "startyear" := PStr start_year;
       "endyear" := PStr end_year ]} in
  let data := json_dumps (PDict payload) in
  print ("Fetching data for series: " +:+ py_str (PList (PStr <$> series_ids)));;
  print ("Years: " +:+ start_year +:+ " to " +:+ end_year);;
  emit (EPost endpoint data headers);;
  match http_post endpoint data headers with
  | Ok json_data =>
      status ← lift (Builtins.getitem json_data "status");
      if Builtins.eq_str status "REQUEST_SUCCEEDED" then
        print "API request successful!";;
        mret json_data
      else
        message ← lift (Builtins.get json_data "message" (PStr "Unknown error"));
        print ("API request failed: " +:+ py_str message);;
        mret PNone
  | Raise (RequestException e) =>
      print ("Error making API request: " +:+ e);;
      mret PNone
  | Raise e => raise e
  end.

(** The text of one footnote, [None] for a footnote that is skipped. *)
Definition footnote_text (footnote : pyval) : result (option string) :=
  if Builtins.truthy footnote then
    text ← Builtins.get footnote "text" (PStr "");
    Ok (Some (py_str text))
  else Ok None.

(** The body of the loop over [series['data']]: the row of one item. *)
Definition row_of_item (series_id series_catalog item : pyval)
    : result (gmap string pyval) :=
  series_title ← Builtins.get series_catalog "series_title" (PStr "");
  year ← Builtins.getitem item "year";
  period ← Builtins.getitem item "period";
  raw ← Builtins.getitem item "value";
  value ← Builtins.float_of raw;
  period_name ← Builtins.get item "periodName" (PStr "");
  latest ← Builtins.get item "latest" (PBool false);
  let row : gmap string pyval :=
    {[ "series_id" := series_id;
       "series_title" := series_title;
       "year" := year;
       "period" := period;
       "value" := PFloat value;
       "periodName" := period_name;
       "latest" := latest ]} in
  notes ← Builtins.get item "footnotes" (PList []);
  notes ← Builtins.iter notes;
  footnotes ← collect (λ footnote, option_list <$> footnote_text footnote) notes;
  Ok (<["footnotes" :=
          PStr (if bool_decide (footnotes = []) then "" else Str.join ", " footnotes)]> row).

(** The body of the loop over [json_data['Results']['series']]: the
    rows it appends to [all_data]; an exception ends the loop with
    the rows of this series lost. *)
Definition rows_of_series (series : pyval) : Py (list (gmap string pyval)) :=
  series_id ← lift (Builtins.getitem series "seriesID");
  series_catalog ← lift (Builtins.get series "catalog" (PDict ∅));
  print (String Str.newline "Processing series: " +:+ py_str series_id);;
  series_title ← lift (Builtins.get series_catalog "series_title" (PStr "N/A"));
  print ("Series title: " +:+ py_str series_title);;
  lift (data ← Builtins.getitem series "data";
        items ← Builtins.iter data;
        collect (λ item, row ← row_of_item series_id series_catalog item; Ok [row]) items).

(** The loop over the series, with its prints. *)
Fixpoint rows_of_all (all_series : list pyval) : Py (list (gmap string pyval)) :=
  match all_series with
  | [] => mret []
  | series :: rest =>
      rows ← rows_of_series series;
      rows' ← rows_of_all rest;
      mret (rows ++ rows')
  end.

Definition parse_atus_response (json_data : pyval)
    : Py (option (list (gmap string pyval))) :=
  absent ← lift (
    if negb (Builtins.truthy json_data) then Ok true
    else present ← Builtins.contains_key "Results" json_data;
         Ok (negb present));
  if (absent : bool) then mret None
  else
    all_series ← lift (results ← Builtins.getitem json_data "Results";
                       series ← Builtins.getitem results "series";
                       Builtins.iter series);
    all_data ← rows_of_all all_series;
    let df := Pandas.DataFrame all_data in
    mret (Some df).

(** What the script does with the answer to the request for the
    ATUS series (lines 126 to 139). *)
Definition use_atus_data (atus_data : pyval) : Py unit :=
  if Builtins.truthy atus_data then
    df ← parse_atus_response atus_data;
    match df with
    | Some (_ :: _ as df) =>
        print (String Str.newline "ATUS Data Retrieved:");;
        emit (EPrintFrame (take 5 df));;
        to_csv "data/atus_api_data.csv" df;;
        print (String Str.newline "Data saved to data/atus_api_data.csv")
    | Some [] | None =>
        print (String Str.newline "No data found in ATUS response")
    end
  else print (String Str.newline "Failed to fetch ATUS data").

(** The statements at the top level of the script (lines 117 to 141). *)
Definition script : Py unit :=
  print "Testing BLS API connection...";;
  test_data ← fetch_atus_data test_series "2023" "2024";
  if Builtins.truthy test_data then
    print (String Str.newline "API connection successful! Now trying ATUS series...");;
    atus_data ← fetch_atus_data atus_series_ids "2023" "2024";
    use_atus_data atus_data
  else print (String Str.newline "API connection test failed").

End WithRuntime.

End FetchApi.

(** ** The contents of the dictionary of key statistics, pattern by pattern *)

Module KeyStatistics.
Import Regex.

(** The value stored for a group of a pattern, if the pattern is found. *)
Definition found (r : regex) (n : nat) (conv : string → pyval) (text : string)
    : option pyval :=
  m ← search r text; w ← group m n; Some (conv w).

Definition as_float (w : string) : pyval := PFloat (Builtins.float_of_decimal w).
Definition as_int (w : string) : pyval := PInt (Str.digits_value w).

(** [key_stats[k] = v] when there is a [v]. *)
Definition set_if (k : string) (o : option pyval) (m : gmap string pyval)
    : gmap string pyval :=
  match o with Some v => <[k := v]> m | None => m end.

Definition expected (text : string) : gmap string pyval :=
  set_if "women_leisure_hours" (found ExtractFinal.gender_pattern 2 as_float text)
  (set_if "men_leisure_hours" (found ExtractFinal.gender_pattern 1 as_float text)
  (set_if "socializing_minutes" (found ExtractFinal.social_pattern 1 as_int text)
  (set_if "gaming_minutes" (found ExtractFinal.gaming_pattern 1 as_int text)
  (set_if "total_leisure_hours" (found ExtractFinal.leisure_pattern 1 as_float text)
  (set_if "tv_hours" (found ExtractFinal.tv_pattern 1 as_float text) ∅))))).

(** The names of the statistics the extractor knows: those stored in
    hours and those stored in minutes. *)
Definition hour_keys : gset string :=
  {[ "tv_hours"; "total_leisure_hours"; "men_leisure_hours"; "women_leisure_hours" ]}.

Definition minute_keys : gset string :=
  {[ "gaming_minutes"; "socializing_minutes" ]}.

Definition known_keys : gset string :=
  {[ "tv_hours"; "total_leisure_hours"; "gaming_minutes";
     "socializing_minutes"; "men_leisure_hours"; "women_leisure_hours" ]}.

(** The regular expression behind each name. *)
Definition pattern_of (k : string) : option regex :=
  if bool_decide (k = "tv_hours") then Some ExtractFinal.tv_pattern
  else if bool_decide (k = "total_leisure_hours") then Some ExtractFinal.leisure_pattern
  else if bool_decide (k = "gaming_minutes") then Some ExtractFinal.gaming_pattern
  else if bool_decide (k = "socializing_minutes") then Some ExtractFinal.social_pattern
  else if bool_decide (k = "men_leisure_hours") then Some ExtractFinal.gender_pattern
  else if bool_decide (k = "women_leisure_hours") then Some ExtractFinal.gender_pattern
  else None.

(** The pattern is found with a number in its group [n] that is too
    long for [int]. *)
Definition oversized `{Runtime} (r : regex) (n : nat) (text : string) : bool :=
  match search r text with
  | Some m =>
      match group m n with
      | Some w => Builtins.exceeds_limit w
      | None => false
      end
  | None => false
  end.

End KeyStatistics.

(** ** Sample inputs

    A runtime, a network and a few inputs on which the embedded scripts
    are run in the examples below. *)

Module Sample.

(** A runtime that formats strings as themselves and refuses number
    literals other than the plain decimal ones. *)
Definition runtime : Runtime :=
  {| py_str := λ v, match v with
                    | PStr s => s
                    | PNone => "None"
                    | PBool true => "True"
                    | PBool false => "False"
                    | _ => "<value>"
                    end;
     json_dumps := λ v, "<json>";
     float_of_other_str := λ _, Raise ValueError;
     int_of_other_str := λ _, Raise ValueError;
     int_max_str_digits := 4300;
     round2 := λ f, f;
     format_fixed := λ _ _, "<number>" |}.

Definition nl : string := String Str.newline "".

(** Page 2 of a report: the summary paragraph. *)
Definition summary : string :=
  "Watching TV was the leisure activity that occupied the most time "
  +:+ "(2.6 hours per day), accounting for just over half of all leisure time, "
  +:+ "on average (5.1 hours per day)." +:+ nl
  +:+ "They spent 34 minutes playing games and" +:+ nl
  +:+ "using a computer for leisure.".

(** A page with two lines of Table 11A and a heading. *)
Definition table : string :=
  "Table 11A. Time spent in leisure and sports activities" +:+ nl
  +:+ "Men ............ 5.51 0.39 0.58 2.95 0.25 0.42 0.63 0.29" +:+ nl
  +:+ "Women .......... 4.73 0.21 0.59" +:+ nl.

Definition report : Fitz.document := [ "AMERICAN TIME USE SURVEY"; summary; table ].

(** A report with a table of times. *)
Definition times : Fitz.document :=
  [ "Sleeping ........ 8:30" +:+ nl +:+ "Working 3:45" +:+ nl;
    "Sleeping 9:00" +:+ nl +:+ "Idle ... 0:00" +:+ nl +:+ "Watching TV 2:40" ].

End Sample.

(** ** Well-formed answers of the API

    The shape of a successful answer of the BLS API, as the flattener
    reads it: a status, and under [Results] a list of series, each with
    its identifier, an optional catalog and a list of observations. *)

Module Response.

(** A request of the trace. *)
Definition is_request (e : event) : bool :=
  match e with
  | EGet _ | EPost _ _ _ => true
  | _ => false
  end.

Definition is_dict (v : pyval) : bool :=
  match v with PDict _ => true | _ => false end.

Definition is_Ok {A} (r : result A) : bool :=
  match r with Ok _ => true | Raise _ => false end.

(** [json_data['Results']['series']], [series['data']] and
    [series['seriesID']] where they exist. *)
Definition series_of (json_data : pyval) : list pyval :=
  match json_data with
  | PDict d =>
      match d !! "Results" with
      | Some (PDict results) =>
          match results !! "series" with
          | Some (PList all_series) => all_series
          | _ => []
          end
      | _ => []
      end
  | _ => []
  end.

Definition data_of (series : pyval) : list pyval :=
  match series with
  | PDict d => match d !! "data" with Some (PList items) => items | _ => [] end
  | _ => []
  end.

Definition series_id_of (series : pyval) : pyval :=
  match series with
  | PDict d => default PNone (d !! "seriesID")
  | _ => PNone
  end.

(** The observations of an answer, each with the identifier of its
    series, in the order of the answer. *)
Definition observations (json_data : pyval) : list (pyval * pyval) :=
  series ← series_of json_data;
  (λ item, (series_id_of series, item)) <$> data_of series.

Section WithRuntime.
Context `{Runtime}.

(** A footnote is an object, or something falsy such as [{}] or [null]. *)
Definition footnote_ok (footnote : pyval) : bool :=
  negb (Builtins.truthy footnote) || is_dict footnote.

(** An observation: a year, a period, a value that is the marker ["-"]
    or that [float] accepts, footnotes in a list if any, calculations in
    an object if any. *)
Definition item_ok (item : pyval) : bool :=
  match item with
  | PDict d =>
      bool_decide (is_Some (d !! "year"))
      && bool_decide (is_Some (d !! "period"))
      && match d !! "value" with
         | Some raw => Builtins.eq_str raw "-" || is_Ok (Builtins.float_of raw)
         | None => false
         end
      && match d !! "footnotes" with
         | None => true
         | Some (PList notes) => forallb footnote_ok notes
         | Some _ => false
         end
      && match d !! "calculations" with
         | None | Some (PDict _) => true
         | Some _ => false
         end
  | _ => false
  end.

Definition series_ok (series : pyval) : bool :=
  match series with
  | PDict d =>
      bool_decide (is_Some (d !! "seriesID"))
      && match d !! "catalog" with
         | None | Some (PDict _) => true
         | Some _ => false
         end
      && match d !! "data" with
         | Some (PList items) => forallb item_ok items
         | _ => false
         end
  | _ => false
  end.

(** A well-formed successful answer. *)
Definition response_ok (json_data : pyval) : bool :=
  match json_data with
  | PDict d =>
      match d !! "status" with
      | Some status => Builtins.eq_str status "REQUEST_SUCCEEDED"
      | None => false
      end
      && match d !! "Results" with
         | Some (PDict results) =>
             match results !! "series" with
             | Some (PList all_series) => forallb series_ok all_series
             | _ => false
             end
         | _ => false
         end
  | _ => false
  end.

(** The cell [value] of the row of an observation: [None] for the
    marker, the number otherwise. *)
Definition value_cell (item : pyval) : pyval :=
  match Builtins.getitem item "value" with
  | Ok raw =>
      if Builtins.eq_str raw "-" then PNone
      else match Builtins.float_of raw with
           | Ok f => PFloat f
           | Raise _ => PNone
           end
  | Raise _ => PNone
  end.

(** A row that carries the identifier and the value of an observation. *)
Definition row_of (row : gmap string pyval) (observation : pyval * pyval) : Prop :=
  row !! "series_id" = Some observation.1
  ∧ row !! "value" = Some (value_cell observation.2).

End WithRuntime.

End Response.

(** An answer of the API with two series: the first has an observation
    for 2024 and the missing-value marker for 2023, the second a catalog
    and an observation with calculations. *)
Module SampleResponse.

Definition leisure_2024 : pyval :=
  PDict {[ "year" := PStr "2024"; "period" := PStr "A01";
           "periodName" := PStr "Annual"; "value" := PStr "5.07";
           "footnotes" := PList [PDict ∅] ]}.

Definition leisure_2023 : pyval :=
  PDict {[ "year" := PStr "2023"; "period" := PStr "A01";
           "periodName" := PStr "Annual"; "value" := PStr "-";
           "footnotes" := PList [PDict {[ "code" := PStr "N";
                                          "text" := PStr "Not available" ]}] ]}.

Definition tv_2024 : pyval :=
  PDict {[ "year" := PStr "2024"; "period" := PStr "A01";
           "value" := PStr "2.60"; "latest" := PStr "true";
           "calculations" := PDict {[ "net_changes" := PDict ∅ ]} ]}.

Definition answer : pyval :=
  PDict {[ "status" := PStr "REQUEST_SUCCEEDED";
           "responseTime" := PInt 120;
           "Results" := PDict {[ "series" := PList [
             PDict {[ "seriesID" := PStr "TUU10101AA01000000";
                      "data" := PList [leisure_2024; leisure_2023] ]};
             PDict {[ "seriesID" := PStr "TUU10301AA01000000";
                      "catalog" := PDict {[ "series_title" := PStr "Watching TV" ]};
                      "data" := PList [tv_2024] ]} ] ]} ]}.

End SampleResponse.

(** ** Traces *)

(** The files written in a trace, in order. *)
Definition csv_paths (t : list event) : list string :=
  omap (λ e, match e with EToCsv path _ => Some path | _ => None end) t.

(** ** [PDF Method/extract_atus_final.py]: Table 11B and [main] *)

Module ExtractFinalMain.
Import Regex.

(** One row of Table 11B as the script builds it: the weekday and the
    weekend value of each of the eight activities. *)
Record day_type_row := {
  demographic_11b : string;
  total_weekday : float;
  total_weekend : float;
  sports_weekday : float;
  sports_weekend : float;
  socializing_weekday : float;
  socializing_weekend : float;
  tv_weekday : float;
  tv_weekend : float;
  reading_weekday : float;
  reading_weekend : float;
  relaxing_weekday : float;
  relaxing_weekend : float;
  gaming_weekday : float;
  gaming_weekend : float;
  other_weekday : float;
  other_weekend : float
}.

(** The demographic labels looked for in a line of Table 11B. *)
Definition keywords_11b : list string :=
  [ "Men"; "Women"; "Total, 15 years and over";
    "to 19 years"; "to 24 years"; "to 34 years";
    "to 44 years"; "to 54 years"; "to 64 years" ].

Definition has_keyword_11b (line : string) : bool :=
  existsb (λ keyword, Str.contains keyword line) keywords_11b.

(** [s.replace('.', '')] *)
Fixpoint remove_dots (s : string) : string :=
  match s with
  | EmptyString => EmptyString
  | String c s' => if Ascii.eqb c "." then remove_dots s' else String c (remove_dots s')
  end.

(** A row of Table 11B as a row of the CSV file. *)
Definition day_type_dict (r : day_type_row) : gmap string pyval :=
  list_to_map
    [ ("demographic", PStr (demographic_11b r));
      ("total_weekday", PFloat (total_weekday r));
      ("total_weekend", PFloat (total_weekend r));
      ("sports_weekday", PFloat (sports_weekday r));
      ("sports_weekend", PFloat (sports_weekend r));
      ("socializing_weekday", PFloat (socializing_weekday r));
      ("socializing_weekend", PFloat (socializing_weekend r));
      ("tv_weekday", PFloat (tv_weekday r));
      ("tv_weekend", PFloat (tv_weekend r));
      ("reading_weekday", PFloat (reading_weekday r));
      ("reading_weekend", PFloat (reading_weekend r));
      ("relaxing_weekday", PFloat (relaxing_weekday r));
      ("relaxing_weekend", PFloat (relaxing_weekend r));
      ("gaming_weekday", PFloat (gaming_weekday r));
      ("gaming_weekend", PFloat (gaming_weekend r));
      ("other_weekday", PFloat (other_weekday r));
      ("other_weekend", PFloat (other_weekend r)) ].

(** The sixteen figures of a row, in the order of the columns. *)
Definition figures_11b (r : day_type_row) : list float :=
  [ total_weekday r; total_weekend r; sports_weekday r; sports_weekend r;
    socializing_weekday r; socializing_weekend r; tv_weekday r; tv_weekend r;
    reading_weekday r; reading_weekend r; relaxing_weekday r; relaxing_weekend r;
    gaming_weekday r; gaming_weekend r; other_weekday r; other_weekend r ].

Section WithRuntime.
Context `{Runtime} {disk : FileSystem}.

(** [float(numbers[i])] *)
Definition number (numbers : list string) (i : nat) : result float :=
  s ← list_getitem numbers i; Builtins.float_of_str s.

(** What one line of the page adds to [data_rows] of Table 11B. *)
Definition rows_of_line_11b (line : string) : result (list day_type_row) :=
  if has_keyword_11b line then
    let numbers := findall decimal line in
    if negb (bool_decide (numbers = [])) && (2 <=? length numbers)%nat then
      number0 ← list_getitem numbers 0;
      before ← Builtins.split_head number0 line;
      let demographic := remove_dots (Str.strip before) in
      if (16 <=? length numbers)%nat then
        total_weekday ← number numbers 0;
        total_weekend ← number numbers 1;
        sports_weekday ← number numbers 2;
        sports_weekend ← number numbers 3;
        socializing_weekday ← number numbers 4;
        socializing_weekend ← number numbers 5;
        tv_weekday ← number numbers 6;
        tv_weekend ← number numbers 7;
        reading_weekday ← number numbers 8;
        reading_weekend ← number numbers 9;
        relaxing_weekday ← number numbers 10;
        relaxing_weekend ← number numbers 11;
        gaming_weekday ← number numbers 12;
        gaming_weekend ← number numbers 13;
        other_weekday ← number numbers 14;
        other_weekend ← number numbers 15;
        Ok [ {| demographic_11b := demographic;
                total_weekday := total_weekday; total_weekend := total_weekend;
                sports_weekday := sports_weekday; sports_weekend := sports_weekend;
                socializing_weekday := socializing_weekday;
                socializing_weekend := socializing_weekend;
                tv_weekday := tv_weekday; tv_weekend := tv_weekend;
                reading_weekday := reading_weekday; reading_weekend := reading_weekend;
                relaxing_weekday := relaxing_weekday;
                relaxing_weekend := relaxing_weekend;
                gaming_weekday := gaming_weekday; gaming_weekend := gaming_weekend;
                other_weekday := other_weekday; other_weekend := other_weekend |} ]
      else Ok []
    else Ok []
  else Ok [].

Definition table_11b_of_text (text : string) : result (list day_type_row) :=
  collect rows_of_line_11b (Str.split_lines text).

Definition extract_table_11b_data (doc : Fitz.document) (page_num : Z)
    : result (list day_type_row) :=
  text ← Fitz.getitem doc (page_num - 1);
  table_11b_of_text text.

(** The last lines that [main] prints. *)
Definition files_created : list event :=
  [ EPrint (String Str.newline "✓ Extraction complete! Files created:");
    EPrint "  • data/key_statistics.csv - Overall statistics";
    EPrint "  • data/leisure_by_demographics.csv - Raw demographic data";
    EPrint "  • data/leisure_analysis.csv - Enhanced analysis with percentages";
    EPrint "  • data/leisure_by_day_type.csv - Weekday vs weekend data" ].

(** [main], from the first extraction on (lines 193 to 209): the three
    extractions open the same file, with the default page numbers 23 and
    24 for the tables, and the files are written after lines 189 to 191
    have made the directory [data]. *)
Definition main (doc : Fitz.document) : Py unit :=
  print "Extracting key statistics from ATUS 2024...";;
  key_stats ← lift (ExtractFinal.extract_key_statistics doc);
  print "Extracting demographic breakdowns (Table 11A)...";;
  table_11a_df ← lift (ExtractFinal.extract_table_11a_data doc 23);
  print "Extracting weekday/weekend breakdowns (Table 11B)...";;
  table_11b_df ← lift (extract_table_11b_data doc 24);
  print "Processing and saving data...";;
  (ExtractFinal.process_and_save_data (disk := Path.mkdir "data" disk)
     key_stats table_11a_df (day_type_dict <$> table_11b_df)).2;;
  print (String Str.newline "✓ Extraction complete! Files created:");;
  print "  • data/key_statistics.csv - Overall statistics";;
  print "  • data/leisure_by_demographics.csv - Raw demographic data";;
  print "  • data/leisure_analysis.csv - Enhanced analysis with percentages";;
  print "  • data/leisure_by_day_type.csv - Weekday vs weekend data".

End WithRuntime.

(** The hour fields of a dictionary are floats, as those that
    [extract_key_statistics] stores are. *)
Definition float_hours (key_stats : gmap string pyval) : Prop :=
  ∀ k v, k = "tv_hours" ∨ k = "total_leisure_hours" →
         key_stats !! k = Some v → ∃ f, v = PFloat f.

End ExtractFinalMain.
(** A report of 24 pages: the summary on page 2, Table 11A on page 23
    and a line of Table 11B on page 24. *)
Module SampleReport.

Definition day_types : string :=
  "Men ...... 5.10 6.50 0.40 0.50 0.60 1.10 2.80 3.30 "
  +:+ "0.20 0.30 0.40 0.50 0.60 0.80 0.10 0.20" +:+ Sample.nl
  +:+ "Women .... 4.40 5.70" +:+ Sample.nl.

Definition full : Fitz.document :=
  [ "AMERICAN TIME USE SURVEY"; Sample.summary ] ++ replicate 20 ""
  ++ [ Sample.table; day_types ].

(** A page 2 on which the number of minutes has one digit more than
    [int] accepts. *)
Definition oversized_page : string :=
  Str.repeat "1" 4301
  +:+ " minutes playing games and using a computer for leisure".

End SampleReport.

(** A disk with the directory [data], and a disk without it. *)
Module SampleDisk.

Definition with_data : FileSystem := {| is_dir := λ d, String.eqb d "data" |}.

Definition bare : FileSystem := {| is_dir := λ _, false |}.

End SampleDisk.

(** ** [PDF Method/scrape_atus.py]: [save_data] and the script *)

Module ScrapeAtusMain.
Import ScrapeAtus.

(** A row of the table as a row of the CSV file. *)
Definition row_dict (r : time_row) : gmap string pyval :=
  {[ "category" := PStr (category r);
     "hours" := PInt (hours r);
     "minutes" := PInt (minutes r);
     "total_minutes" := PInt (total_minutes r) ]}.

Definition save_data {disk : FileSystem} (df : list time_row)
    (output_path : string) : Py unit :=
  to_csv output_path (row_dict <$> df);;
  print ("Data saved to " +:+ output_path).

Section WithRuntime.
Context `{Runtime} {disk : FileSystem}.

(** The script from the test of [pdf_path.exists()] on (lines 66 to 75),
    after line 64 has made the directory of [output_path].  [pdf_path]
    and [output_path] are the two paths as text, and [pdf] is the
    document at [pdf_path] if that file exists. *)
Definition script (pdf_path output_path : string) (pdf : option Fitz.document)
    : Py unit :=
  match pdf with
  | Some doc =>
      df ← lift (extract_time_use_data doc);
      if negb (bool_decide (df = [])) then
        save_data (disk := Path.mkdir (Path.parent output_path) disk)
          df output_path;;
        print (String Str.newline "Extracted Time Use Data:");;
        emit (EPrintFrame (row_dict <$> take 10 df))
      else print "No time use data found in the PDF"
  | None =>
      print ("PDF not found at " +:+ pdf_path
             +:+ ". Please place the American Time Use Survey PDF in the source folder.")
  end.

End WithRuntime.

End ScrapeAtusMain.

(** ** [API Method/scripts/atus_api_client.py]: the script *)

Module ApiClientMain.
Import ApiClient.

Definition API_KEY : string := "3b988529f9a746d5a0003b2e6506c237".

Definition test_series : list string := [ "CUUR0000SA0" ].

Definition atus_test_series : list string :=
  [ "TUU10101AA01000000"; "TUU10301AA01000000"; "TUU10801AA01000000" ].

(** The columns that every row of the table has. *)
Definition fixed_columns : gset string :=
  {[ "series_id"; "series_title"; "survey_name"; "survey_abbreviation"; "year";
     "period"; "period_name"; "value"; "latest"; "footnotes" ]}.

Section WithRuntime.
Context `{Runtime} `{Network} {disk : FileSystem}.

(** Test 1 (lines 158 to 169) *)
Definition test_1 (client : client) : Py unit :=
  print "=== Test 1: Getting latest data for CPI series ===";;
  latest_data ← get_latest_series client test_series;
  if Builtins.truthy latest_data then
    status ← lift (Builtins.get latest_data "status" PNone);
    print ("Status: " +:+ py_str status);;
    response_time ← lift (Builtins.get latest_data "responseTime" PNone);
    print ("Response time: " +:+ py_str response_time +:+ "ms");;
    df ← parse_response_to_dataframe latest_data;
    match df with
    | Some df =>
        print (String Str.newline "Latest data:");;
        emit (EPrintFrame df)
    | None => mret tt
    end
  else mret tt.

(** Test 2 (lines 172 to 191) *)
Definition test_2 (client : client) : Py unit :=
  print (String Str.newline (String Str.newline
           "=== Test 2: Getting latest ATUS data ==="));;
  atus_latest ← get_latest_series client atus_test_series;
  if Builtins.truthy atus_latest then
    status ← lift (Builtins.get atus_latest "status" PNone);
    print ("Status: " +:+ py_str status);;
    df ← parse_response_to_dataframe atus_latest;
    match df with
    | Some df =>
        print (String Str.newline "ATUS latest data:");;
        emit (EPrintFrame df);;
        to_csv "atus_latest_data.csv" df;;
        print (String Str.newline "Data saved to atus_latest_data.csv")
    | None => mret tt
    end
  else mret tt.

(** The [__main__] block. *)
Definition script : Py unit :=
  let client := init API_KEY in
  test_1 client;;
  test_2 client.

End WithRuntime.

End ApiClientMain.

(** Two networks: one on which every request fails, and one that answers
    every request with the sample answer. *)
Module SampleNetwork.

Definition offline : Network :=
  {| http_get := λ _, Raise (RequestException "connection refused");
     http_post := λ _ _ _, Raise (RequestException "connection refused") |}.

Definition online : Network :=
  {| http_get := λ _, Ok SampleResponse.answer;
     http_post := λ _ _ _, Ok SampleResponse.answer |}.

(** The table that the flattener returns for the sample answer. *)
Definition table : list (gmap string pyval) :=
  match (ApiClient.parse_response_to_dataframe (H := Sample.runtime)
           SampleResponse.answer).2 with
  | Ok (Some rows) => rows
  | _ => []
  end.

End SampleNetwork.

(** ** Observations without a value *)

Module MissingValue.

(** The value of the item is the marker ["-"]. *)
Definition missing (item : pyval) : bool :=
  match Builtins.getitem item "value" with
  | Ok raw => Builtins.eq_str raw "-"
  | Raise _ => false
  end.

End MissingValue.

(** * Properties *)

(** ** The regular-expression matcher *)

Module RegexFacts.
Import Regex.

(** The matcher only finds what the pattern describes. *)

Lemma app_cons c (w s : string) : String c w +:+ s = String c (w +:+ s).
Proof. reflexivity. Qed.

Lemma app_length (w s : string) :
  String.length (w +:+ s) = (String.length w + String.length s)%nat.
Proof.
  induction w as [|c w IH]; [done|]. rewrite app_cons; simpl. by rewrite IH.
Qed.

Lemma app_assoc (u v w : string) : (u +:+ v) +:+ w = u +:+ v +:+ w.
Proof.
  induction u as [|c u IH]; [done|]. by rewrite !app_cons, IH.
Qed.

Lemma app_nil_r (w : string) : w +:+ EmptyString = w.
Proof.
  induction w as [|c w IH]; [done|]. by rewrite app_cons, IH.
Qed.

Lemma strip_prefix_app l s s' : Str.strip_prefix l s = Some s' → s = l +:+ s'.
Proof.
  revert s; induction l as [|a l IH]; intros s Hs; simpl in *.
  - by injection Hs.
  - destruct s as [|b s]; [done|].
    destruct (Ascii.eqb_spec a b) as [->|]; [|done].
    by rewrite (IH _ Hs).
Qed.

Lemma take_app w s : Str.take (String.length w) (w +:+ s) = w.
Proof. induction w as [|c w IH]; simpl; [by destruct s | by rewrite IH]. Qed.

Lemma consumed_app w s : consumed (w +:+ s) s = w.
Proof.
  unfold consumed. rewrite app_length.
  replace (String.length w + String.length s - String.length s)%nat
    with (String.length w) by lia.
  apply take_app.
Qed.

Lemma more_sound {A} p s (k : string → option A) a :
  more p s k = Some a →
  ∃ w s', s = w +:+ s' ∧ Str.all p w = true ∧ k s' = Some a.
Proof.
  induction s as [|c s IH]; simpl; intros Hm.
  - by exists EmptyString, EmptyString.
  - destruct (p c) eqn:Hc; [|by exists EmptyString, (String c s)].
    destruct (more p s k) as [a'|] eqn:Hmore.
    + destruct (IH Hm) as (w & s' & -> & Hw & Hk).
      exists (String c w), s'. simpl. by rewrite Hc, Hw.
    + by exists EmptyString, (String c s).
Qed.

Lemma rmatch_sound {A} r s g (k : string → gmap nat string → option A) a :
  rmatch r s g k = Some a →
  ∃ w s' g', s = w +:+ s' ∧ matches r w ∧ captured r g g' ∧ k s' g' = Some a.
Proof.
  revert A s g k a.
  induction r as [l|p|p|r1 IH1 r2 IH2|n r1 IH1|]; intros A s g k a Hm; simpl in Hm.
  - destruct (Str.strip_prefix l s) as [s'|] eqn:Hl; [|done].
    exists l, s', g. split; [by apply strip_prefix_app|].
    split; [constructor|]. split; [by intros n|done].
  - destruct s as [|c s]; [done|]. destruct (p c) eqn:Hc; [|done].
    exists (String c EmptyString), s, g.
    split; [done|]. split; [by constructor|]. split; [by intros n|done].
  - destruct s as [|c s]; [done|]. destruct (p c) eqn:Hc; [|done].
    destruct (more_sound _ _ _ _ Hm) as (w & s' & -> & Hw & Hk).
    exists (String c w), s', g.
    split; [done|]. split; [by constructor|]. split; [by intros n|done].
  - destruct (IH1 _ _ _ _ _ Hm) as (w1 & s1 & g1 & -> & Hw1 & Hg1 & Hm2).
    destruct (IH2 _ _ _ _ _ Hm2) as (w2 & s2 & g2 & -> & Hw2 & Hg2 & Hk).
    exists (w1 +:+ w2), s2, g2.
    split; [by rewrite app_assoc|]. split; [by constructor|].
    split; [|done].
    intros n. specialize (Hg1 n). specialize (Hg2 n). simpl.
    destruct (group_pattern r2 n); [done|].
    rewrite Hg2. by destruct (group_pattern r1 n).
  - destruct (IH1 _ _ _ _ _ Hm) as (w & s' & g' & -> & Hw & Hg & Hk).
    rewrite consumed_app in Hk.
    exists w, s', (<[n := w]> g').
    split; [done|]. split; [by constructor|]. split; [|done].
    intros m. specialize (Hg m). simpl. case_bool_decide as Hnm.
    + subst m. exists w. by rewrite lookup_insert_eq.
    + by rewrite lookup_insert_ne.
  - destruct (at_end s); [|done].
    exists EmptyString, s, g.
    split; [done|]. split; [constructor|]. split; [by intros n|done].
Qed.

Lemma rmatch_here_sound r s s' g :
  rmatch r s ∅ (λ s' g, Some (s', g)) = Some (s', g) →
  s = consumed s s' +:+ s' ∧ matches r (consumed s s') ∧ captured r ∅ g.
Proof.
  intros Hm.
  destruct (rmatch_sound _ _ _ _ _ Hm) as (w & s1 & g1 & -> & Hw & Hg & [= <- <-]).
  by rewrite consumed_app.
Qed.

Lemma search_sound r s m :
  search r s = Some m →
  s = m_before m +:+ m_text m +:+ m_after m
  ∧ matches r (m_text m) ∧ captured r ∅ (m_groups m).
Proof.
  revert m; induction s as [|c s IH]; intros m; simpl.
  - destruct (rmatch r _ _ _) as [[s' g]|] eqn:Hm; [|done].
    intros [= <-]; simpl. by apply rmatch_here_sound.
  - destruct (rmatch r _ _ _) as [[s' g]|] eqn:Hm.
    + intros [= <-]; simpl. by apply rmatch_here_sound.
    + destruct (search r s) as [m'|]; [|done].
      intros [= <-]; simpl.
      destruct (IH m' eq_refl) as (Hs & Hw & Hg). by rewrite Hs at 1.
Qed.

(** Every group of the pattern is set by a successful search. *)
Lemma search_group r s m n r' :
  search r s = Some m → group_pattern r n = Some r' →
  ∃ w, group m n = Some w ∧ matches r' w.
Proof.
  intros Hs Hn. destruct (search_sound _ _ _ Hs) as (_ & _ & Hg).
  specialize (Hg n). by rewrite Hn in Hg.
Qed.

Lemma findall_upto_sound fuel r s : Forall (matches r) (findall_upto fuel r s).
Proof.
  revert s; induction fuel as [|fuel IH]; intros s; simpl; [constructor|].
  destruct (search r s) as [m|] eqn:Hm; [|constructor].
  constructor; [by apply (search_sound _ _ _ Hm)|].
  destruct (_ && _); [constructor | apply IH].
Qed.

Lemma findall_sound r s : Forall (matches r) (findall r s).
Proof. apply findall_upto_sound. Qed.

(** What the words of [\d+] and [\d+\.\d+] are. *)
Lemma matches_plus_inv p w :
  matches (Plus p) w → ∃ c w', w = String c w' ∧ p c = true ∧ Str.all p w' = true.
Proof. inversion 1 as [| |? c w' Hc Hw| | |]; subst. by exists c, w'. Qed.

Lemma matches_cat_inv r1 r2 w :
  matches (r1 ⋅ r2) w → ∃ w1 w2, w = w1 +:+ w2 ∧ matches r1 w1 ∧ matches r2 w2.
Proof. inversion 1 as [| | |? ? w1 w2 H1 H2| |]; subst. by exists w1, w2. Qed.

Lemma matches_lit_inv l w : matches (Lit l) w → w = l.
Proof. by inversion 1. Qed.

Lemma matches_digits w : matches (Plus digit) w → Str.digit_string w = true.
Proof.
  intros (c & w' & -> & Hc & Hw)%matches_plus_inv.
  unfold Str.digit_string, digit in *; simpl. by rewrite Hc, Hw.
Qed.

Lemma span_digits_all w s :
  Str.all Str.is_digit w = true →
  (∀ c s', s = String c s' → Str.is_digit c = false) →
  Str.span_digits (w +:+ s) = (w, s).
Proof.
  intros Hw Hs. induction w as [|c w IH].
  - change (EmptyString +:+ s) with s.
    destruct s as [|c s]; [done|]. simpl. by rewrite (Hs c s).
  - rewrite app_cons. simpl in *.
    apply andb_prop in Hw as [-> Hw]. by rewrite (IH Hw).
Qed.

Lemma matches_decimal w : matches decimal w → Str.decimal_literal w = true.
Proof.
  intros (w1 & w23 & -> & H1 & (w2 & w3 & -> & H2 & H3)%matches_cat_inv)%matches_cat_inv.
  apply matches_lit_inv in H2 as ->.
  apply matches_plus_inv in H1 as (c1 & w1' & -> & Hc1 & Hw1).
  apply matches_plus_inv in H3 as (c3 & w3' & -> & Hc3 & Hw3).
  unfold digit in *. unfold Str.decimal_literal.
  rewrite (span_digits_all (String c1 w1') ("." +:+ String c3 w3')).
  - change ("." +:+ String c3 w3') with (String "." (String c3 w3')).
    simpl. rewrite Hc3.
    by rewrite <- (app_nil_r w3'), span_digits_all.
  - simpl. by rewrite Hc1, Hw1.
  - by intros c' s' [= <- <-].
Qed.

(** The fuel of [findall] and [remove_all] is enough. *)

Lemma search_after_length r s m :
  search r s = Some m →
  (String.length (m_after m) ≤ String.length s)%nat
  ∧ (Str.is_empty (m_text m) = false →
     (String.length (m_after m) < String.length s)%nat).
Proof.
  intros (Hs & _ & _)%search_sound.
  assert (String.length s
          = (String.length (m_before m) + String.length (m_text m)
             + String.length (m_after m))%nat) as Hlen.
  { rewrite Hs at 1. rewrite !app_length. lia. }
  split; [lia|]. destruct (m_text m); [done|]. simpl in Hlen. lia.
Qed.

Lemma resume_length r s m :
  search r s = Some m →
  Str.is_empty (m_after m) && Str.is_empty (m_text m) = false →
  (String.length (resume m).2 < String.length s)%nat.
Proof.
  intros [Hle Hlt]%search_after_length Hgo. unfold resume.
  destruct (Str.is_empty (m_text m)); [|by apply Hlt].
  destruct (m_after m); simpl in *; [done|lia].
Qed.

Lemma findall_upto_enough r n1 n2 s :
  (String.length s < n1)%nat → (String.length s < n2)%nat →
  findall_upto n1 r s = findall_upto n2 r s.
Proof.
  revert n2 s; induction n1 as [|n1 IH]; intros [|n2] s H1 H2; try lia. simpl.
  destruct (search r s) as [m|] eqn:Hm; [|done]. f_equal.
  destruct (_ && _) eqn:Hgo; [done|].
  pose proof (resume_length _ _ _ Hm Hgo). apply IH; lia.
Qed.

Lemma remove_upto_enough r n1 n2 s :
  (String.length s < n1)%nat → (String.length s < n2)%nat →
  remove_upto n1 r s = remove_upto n2 r s.
Proof.
  revert n2 s; induction n1 as [|n1 IH]; intros [|n2] s H1 H2; try lia. simpl.
  destruct (search r s) as [m|] eqn:Hm; [|done]. do 2 f_equal.
  destruct (Str.is_empty (m_after m)) eqn:Hafter; [done|].
  assert (String.length (resume m).2 < String.length s)%nat.
  { destruct (search_after_length _ _ _ Hm) as [Hle Hlt]. unfold resume.
    destruct (Str.is_empty (m_text m)); [|by apply Hlt].
    destruct (m_after m); simpl in *; [done|lia]. }
  apply IH; lia.
Qed.

(** [findall] and [remove_all] are the functions for every larger fuel. *)
Lemma findall_fuel r s n :
  (String.length s < n)%nat → findall_upto n r s = findall r s.
Proof. intros Hn. apply findall_upto_enough; [done|lia]. Qed.

Lemma remove_all_fuel r s n :
  (String.length s < n)%nat → remove_upto n r s = remove_all r s.
Proof. intros Hn. apply remove_upto_enough; [done|lia]. Qed.

End RegexFacts.

(** ** Conversions of matched groups *)

Section GroupFacts.
Context `{Runtime}.
Import Regex RegexFacts.

Lemma float_of_decimal_str w :
  matches decimal w → Builtins.float_of_str w = Ok (Builtins.float_of_decimal w).
Proof.
  intros Hw%matches_decimal. unfold Builtins.float_of_str. by rewrite Hw.
Qed.

Lemma int_of_digits_str w :
  matches (Plus digit) w →
  Builtins.int_of_str w
  = if Builtins.exceeds_limit w then Raise ValueError else Ok (Str.digits_value w).
Proof.
  intros Hw%matches_digits. unfold Builtins.int_of_str. by rewrite Hw.
Qed.

Lemma float_of_group_decimal r s m n :
  search r s = Some m → group_pattern r n = Some decimal →
  ∃ w, group m n = Some w ∧ matches decimal w
       ∧ float_of_group m n = Ok (Builtins.float_of_decimal w).
Proof.
  intros Hs Hn. destruct (search_group _ _ _ _ _ Hs Hn) as (w & Hg & Hw).
  exists w. split; [done|]. split; [done|].
  unfold float_of_group. rewrite Hg. by apply float_of_decimal_str.
Qed.

Lemma int_of_group_digits r s m n :
  search r s = Some m → group_pattern r n = Some (Plus digit) →
  ∃ w, group m n = Some w ∧ matches (Plus digit) w
       ∧ int_of_group m n
         = if Builtins.exceeds_limit w then Raise ValueError
           else Ok (Str.digits_value w).
Proof.
  intros Hs Hn. destruct (search_group _ _ _ _ _ Hs Hn) as (w & Hg & Hw).
  exists w. split; [done|]. split; [done|].
  unfold int_of_group. rewrite Hg. by apply int_of_digits_str.
Qed.

Lemma matches_decimal_nonempty w : matches decimal w → Str.is_empty w = false.
Proof.
  intros (w1 & w2 & -> & (c & w' & -> & _)%matches_plus_inv & _)%matches_cat_inv.
  done.
Qed.

End GroupFacts.

(** ** Pages of a document *)

Lemma getitem_page (doc : Fitz.document) (i : nat) text :
  doc !! i = Some text → Fitz.getitem doc (Z.of_nat i) = Ok text.
Proof.
  intros Hi. pose proof (lookup_lt_Some _ _ _ Hi) as Hlt. unfold Fitz.getitem.
  replace (Z.of_nat i <? Z.of_nat (length doc)) with true by (symmetry; apply Z.ltb_lt; lia).
  replace (0 <? Z.of_nat (length doc)) with true by (symmetry; apply Z.ltb_lt; lia).
  simpl. rewrite Z.mod_small by lia. by rewrite Nat2Z.id, Hi.
Qed.

(** ** [extract_atus_final.py]: the key statistics *)

Section KeyStatisticsFacts.
Context `{Runtime}.
Import Regex RegexFacts ExtractFinal KeyStatistics.

Lemma found_float r n text m :
  search r text = Some m → group_pattern r n = Some decimal →
  ∃ w, found r n as_float text = Some (as_float w)
       ∧ float_of_group m n = Ok (Builtins.float_of_decimal w).
Proof.
  intros Hs Hn.
  destruct (float_of_group_decimal _ _ _ _ Hs Hn) as (w & Hg & _ & Hf).
  exists w. split; [|done]. unfold found. rewrite Hs; simpl. by rewrite Hg.
Qed.

Lemma found_int r n text m :
  search r text = Some m → group_pattern r n = Some (Plus digit) →
  ∃ w, found r n as_int text = Some (as_int w)
       ∧ oversized r n text = Builtins.exceeds_limit w
       ∧ int_of_group m n
         = if Builtins.exceeds_limit w then Raise ValueError
           else Ok (Str.digits_value w).
Proof.
  intros Hs Hn.
  destruct (int_of_group_digits _ _ _ _ Hs Hn) as (w & Hg & _ & Hf).
  exists w. unfold found, oversized. rewrite Hs; simpl. by rewrite Hg.
Qed.

Lemma found_none r n conv text : search r text = None → found r n conv text = None.
Proof. intros Hs. unfold found. by rewrite Hs. Qed.

Lemma oversized_none r n text : search r text = None → oversized r n text = false.
Proof. intros Hs. unfold oversized. by rewrite Hs. Qed.

(** One step of the extractor on a pattern whose group holds minutes. *)
Lemma minutes_step r text (key_stats : gmap string pyval) k :
  group_pattern r 1 = Some (Plus digit) →
  match search r text with
  | Some m => v ← int_of_group m 1; Ok (<[k := PInt v]> key_stats)
  | None => Ok key_stats
  end
  = if oversized r 1 text then Raise ValueError
    else Ok (set_if k (found r 1 as_int text) key_stats).
Proof.
  intros Hn. destruct (search r text) as [m|] eqn:Hs.
  - destruct (found_int _ 1%nat _ _ Hs Hn) as (w & -> & -> & ->).
    by destruct (Builtins.exceeds_limit w).
  - by rewrite (found_none _ _ _ _ Hs), (oversized_none _ _ _ Hs).
Qed.

(** One step of the extractor on a pattern whose group holds hours. *)
Lemma hours_step r n text (key_stats : gmap string pyval) k :
  group_pattern r n = Some decimal →
  match search r text with
  | Some m => v ← float_of_group m n; Ok (<[k := PFloat v]> key_stats)
  | None => Ok key_stats
  end
  = Ok (set_if k (found r n as_float text) key_stats).
Proof.
  intros Hn. destruct (search r text) as [m|] eqn:Hs.
  - by destruct (found_float _ n _ _ Hs Hn) as (w & -> & ->).
  - by rewrite (found_none _ _ _ _ Hs).
Qed.

(** A pattern whose group [n] is mandatory is found exactly when a
    value is stored for it. *)
Lemma found_is_Some r n r' conv text :
  group_pattern r n = Some r' →
  is_Some (found r n conv text) ↔ is_Some (search r text).
Proof.
  intros Hn. unfold found. destruct (search r text) as [m|] eqn:Hs; simpl.
  - destruct (search_group _ _ _ _ _ Hs Hn) as (w & -> & _). simpl.
    split; eauto.
  - split; by intros [? ?].
Qed.

(** The extractor raises only for a number of minutes that is too long
    for [int]; otherwise its dictionary is the expected one. *)
Lemma key_statistics_of_text_eq text :
  key_statistics_of_text text
  = if oversized gaming_pattern 1 text || oversized social_pattern 1 text
    then Raise ValueError else Ok (expected text).
Proof.
  unfold key_statistics_of_text, expected.
  rewrite (hours_step tv_pattern 1 text ∅ "tv_hours" eq_refl). simpl.
  rewrite (hours_step leisure_pattern 1 text _ "total_leisure_hours" eq_refl). simpl.
  rewrite (minutes_step gaming_pattern text _ "gaming_minutes" eq_refl).
  destruct (oversized gaming_pattern 1 text); [done|]. simpl.
  rewrite (minutes_step social_pattern text _ "socializing_minutes" eq_refl).
  destruct (oversized social_pattern 1 text); [done|]. simpl.
  destruct (search gender_pattern text) as [m|] eqn:Hs.
  - destruct (found_float _ 1%nat _ _ Hs eq_refl) as (w1 & -> & ->).
    by destruct (found_float _ 2%nat _ _ Hs eq_refl) as (w2 & -> & ->).
  - by rewrite (found_none _ 1%nat _ _ Hs), (found_none _ 2%nat _ _ Hs).
Qed.

Lemma extract_key_statistics_eq (doc : Fitz.document) text :
  doc !! 1%nat = Some text →
  extract_key_statistics doc
  = if oversized gaming_pattern 1 text || oversized social_pattern 1 text
    then Raise ValueError else Ok (expected text).
Proof.
  intros Hp. unfold extract_key_statistics.
  pose proof (getitem_page doc 1 text Hp) as Hg. change (Z.of_nat 1) with 1 in Hg.
  rewrite Hg. simpl. apply key_statistics_of_text_eq.
Qed.

Lemma lookup_set_if k o (m : gmap string pyval) k' :
  set_if k o m !! k' = if bool_decide (k = k') then from_option Some (m !! k') o else m !! k'.
Proof.
  unfold set_if. destruct o as [v|]; case_bool_decide; subst; simpl;
    by rewrite ?lookup_insert_eq, ?lookup_insert_ne.
Qed.

(** What is stored under each name. *)
Lemma lookup_expected text k :
  expected text !! k =
    if bool_decide (k = "tv_hours") then found tv_pattern 1 as_float text
    else if bool_decide (k = "total_leisure_hours") then found leisure_pattern 1 as_float text
    else if bool_decide (k = "gaming_minutes") then found gaming_pattern 1 as_int text
    else if bool_decide (k = "socializing_minutes") then found social_pattern 1 as_int text
    else if bool_decide (k = "men_leisure_hours") then found gender_pattern 1 as_float text
    else if bool_decide (k = "women_leisure_hours") then found gender_pattern 2 as_float text
    else None.
Proof.
  unfold expected. rewrite !lookup_set_if, lookup_empty.
  repeat (case_bool_decide; subst; simpl; try done);
    by repeat match goal with |- context [from_option _ _ ?o] => destruct o; simpl end.
Qed.

(** A name is in the dictionary exactly when its pattern is found. *)
Lemma expected_is_Some text k :
  is_Some (expected text !! k)
  ↔ ∃ r, pattern_of k = Some r ∧ is_Some (search r text).
Proof.
  rewrite lookup_expected. unfold pattern_of.
  repeat case_bool_decide;
    try (erewrite found_is_Some by reflexivity; split;
          [ by eauto | by intros (r & [= <-] & ?) ]).
  split; [by intros [? ?] | by intros (r & ? & _)].
Qed.

Lemma expected_float text k v :
  k ∈ hour_keys → expected text !! k = Some v → ∃ f, v = PFloat f.
Proof.
  unfold hour_keys. rewrite !elem_of_union, !elem_of_singleton, lookup_expected.
  intros Hk Hv.
  repeat (case_bool_decide; [ | ]); try done;
    unfold found, as_float in Hv;
    repeat match type of Hv with
           | context [search ?r ?t] => destruct (search r t); simpl in Hv
           | context [group ?m ?n] => destruct (group m n); simpl in Hv
           end; simplify_eq; eauto; naive_solver.
Qed.

Lemma expected_int text k v :
  k ∈ minute_keys → expected text !! k = Some v → ∃ z, v = PInt z.
Proof.
  unfold minute_keys. rewrite !elem_of_union, !elem_of_singleton, lookup_expected.
  intros Hk Hv.
  repeat (case_bool_decide; [ | ]); try done;
    unfold found, as_int in Hv;
    repeat match type of Hv with
           | context [search ?r ?t] => destruct (search r t); simpl in Hv
           | context [group ?m ?n] => destruct (group m n); simpl in Hv
           end; simplify_eq; eauto; naive_solver.
Qed.

Lemma expected_dom text : dom (expected text) ⊆ known_keys.
Proof.
  intros k [r [Hr _]]%elem_of_dom%expected_is_Some.
  unfold pattern_of in Hr. unfold known_keys.
  repeat (case_bool_decide; [subst; set_solver| ]). done.
Qed.

End KeyStatisticsFacts.

(** ** [extract_atus_final.py]: the rows of Table 11A *)

Section Table11aFacts.
Context `{Runtime}.
Import Regex RegexFacts ExtractFinal KeyStatistics.

Lemma cell_ok numbers i :
  Forall (matches decimal) numbers → ∃ f, cell numbers i = Ok f.
Proof.
  intros Hn. unfold cell. destruct (numbers !! i) as [s|] eqn:Hi; [|by eauto].
  rewrite (float_of_decimal_str s); [by eauto|].
  eapply Forall_lookup_1; eauto.
Qed.

(** A line yields one row if it is not blank and qualifies, and no row
    otherwise; it never raises. *)
Lemma rows_of_line_cases line :
  (¬ (Str.is_empty (Str.strip line) = false ∧ has_keyword line = true
      ∧ (7 ≤ length (findall decimal line))%nat)
   ∧ rows_of_line line = Ok [])
  ∨ (Str.is_empty (Str.strip line) = false ∧ has_keyword line = true
     ∧ (7 ≤ length (findall decimal line))%nat
     ∧ ∃ row, rows_of_line line = Ok [row]).
Proof.
  unfold rows_of_line.
  destruct (Str.is_empty (Str.strip line)); [left; split; [by intros [? ?]|done]|].
  destruct (has_keyword line); [|left; split; [by intros (? & ? & ?)|done]].
  pose proof (findall_sound decimal line) as Hall.
  destruct (findall decimal line) as [|number0 numbers] eqn:Hnum;
    [left; split; [simpl; intros (_ & _ & ?); lia|done]|].
  rewrite bool_decide_eq_false_2 by done. simpl negb. rewrite andb_true_l.
  destruct (7 <=? length (number0 :: numbers))%nat eqn:Hlen.
  2: { left. apply Nat.leb_gt in Hlen. split; [intros (_ & _ & ?); lia|done]. }
  apply Nat.leb_le in Hlen. right. do 3 (split; [done|]).
  pose proof (Forall_inv Hall) as H0.
  unfold list_getitem, Builtins.split_head. simpl.
  rewrite (matches_decimal_nonempty _ H0). simpl.
  rewrite (float_of_decimal_str _ H0). simpl.
  destruct (cell_ok (number0 :: numbers) 1 Hall) as [f1 ->].
  destruct (cell_ok (number0 :: numbers) 2 Hall) as [f2 ->].
  destruct (cell_ok (number0 :: numbers) 3 Hall) as [f3 ->].
  destruct (cell_ok (number0 :: numbers) 4 Hall) as [f4 ->].
  destruct (cell_ok (number0 :: numbers) 5 Hall) as [f5 ->].
  destruct (cell_ok (number0 :: numbers) 6 Hall) as [f6 ->].
  destruct (cell_ok (number0 :: numbers) 7 Hall) as [f7 ->].
  simpl. eauto.
Qed.

(** The loop over the lines: the rows are those of the lines that are
    not blank and qualify, one for one and in order. *)
Lemma collect_rows_of_lines lines :
  ∃ rows,
    collect rows_of_line lines = Ok rows
    ∧ Forall2 (λ line row, rows_of_line line = Ok [row])
        (filter (λ line, Str.is_empty (Str.strip line) = false
                         ∧ has_keyword line = true
                         ∧ (7 ≤ length (findall decimal line))%nat) lines)
        rows.
Proof.
  induction lines as [|line lines (rows & Hrows & Hrow)]; simpl.
  - exists []. by split; [|constructor].
  - rewrite Hrows.
    destruct (rows_of_line_cases line) as [[Hnot Hl]|(Hb & Hk & Hn & row & Hl)];
      rewrite Hl; simpl.
    + exists rows. split; [done|]. by rewrite filter_cons_False.
    + exists (row :: rows). split; [done|]. rewrite filter_cons_True by done.
      by constructor.
Qed.

End Table11aFacts.

(** ** Claims about [extract_atus_final.py] *)

Section ExtractFinalClaims.
Context `{Runtime} {disk : FileSystem}.
Import Regex RegexFacts ExtractFinal KeyStatistics.

(** C4. The PDF extractor fails silently.  Whatever the text of page 2,
    a name is in the dictionary that [extract_key_statistics] returns only
    if the regular expression of that name was found in the text, and a
    pattern that is not found leaves no entry and raises nothing: a text
    in which nothing is found gives the empty dictionary, and the only
    exception there can be is the [ValueError] of [int] for a pattern of
    minutes that was found with a number beyond the interpreter's limit
    on the length of integer strings.  Whatever the text of the table
    page, [extract_table_11a_data] returns its rows and raises nothing;
    the rows come, one for one and in order, from the lines that contain
    a demographic keyword and at least 7 decimal numbers (and are not
    blank), so that any other line adds no row. *)
Theorem extractor_fails_silently (doc : Fitz.document) (page_num : Z)
    (summary table : string) :
  doc !! 1%nat = Some summary →
  1 ≤ page_num →
  doc !! Z.to_nat (page_num - 1) = Some table →
  (∀ key_stats,
      extract_key_statistics doc = Ok key_stats →
      (∀ k, is_Some (key_stats !! k) →
            ∃ r, pattern_of k = Some r ∧ is_Some (search r summary))
      ∧ (∀ k r, pattern_of k = Some r → search r summary = None →
                key_stats !! k = None))
  ∧ ((∀ k r, pattern_of k = Some r → search r summary = None) →
     extract_key_statistics doc = Ok ∅)
  ∧ (∀ e, extract_key_statistics doc = Raise e →
          e = ValueError
          ∧ ∃ k r, k ∈ minute_keys ∧ pattern_of k = Some r
                   ∧ oversized r 1 summary = true)
  ∧ (∃ rows,
      extract_table_11a_data doc page_num = Ok rows
      ∧ Forall2 (λ line row, rows_of_line line = Ok [row])
          (filter (λ line, Str.is_empty (Str.strip line) = false
                           ∧ has_keyword line = true
                           ∧ (7 ≤ length (findall decimal line))%nat)
             (Str.split_lines table))
          rows).
Proof.
  intros Hsummary Hpage Htable.
  assert (∀ k r, pattern_of k = Some r → search r summary = None →
                 expected summary !! k = None) as Hnone.
  { intros k r Hk Hr. apply eq_None_not_Some.
    intros (r' & Hk' & Hs)%expected_is_Some.
    rewrite Hk in Hk'. injection Hk' as <-. rewrite Hr in Hs. by destruct Hs. }
  rewrite (extract_key_statistics_eq doc summary Hsummary).
  split; [|split; [|split]].
  - intros key_stats Hstats.
    destruct (_ || _); [done|]. injection Hstats as <-.
    split; [by intros k ?%expected_is_Some | done].
  - intros Hall.
    rewrite (oversized_none _ _ _ (Hall "gaming_minutes" _ eq_refl)).
    rewrite (oversized_none _ _ _ (Hall "socializing_minutes" _ eq_refl)).
    simpl. f_equal. apply map_eq. intros k. rewrite lookup_empty.
    apply eq_None_not_Some. intros (r & Hk & Hs)%expected_is_Some.
    rewrite (Hall k r Hk) in Hs. by destruct Hs.
  - intros e He.
    destruct (oversized gaming_pattern 1 summary) eqn:Hg;
      [|destruct (oversized social_pattern 1 summary) eqn:Hs]; simpl in He;
      [| |done]; injection He as <-; (split; [done|]).
    + exists "gaming_minutes", gaming_pattern.
      split; [unfold minute_keys; set_solver|done].
    + exists "socializing_minutes", social_pattern.
      split; [unfold minute_keys; set_solver|done].
  - destruct (collect_rows_of_lines (Str.split_lines table)) as (rows & Hrows & Hrest).
    exists rows. split; [|done].
    unfold extract_table_11a_data, table_11a_of_text.
    pose proof (getitem_page doc _ table Htable) as Hg.
    rewrite Z2Nat.id in Hg by lia. by rewrite Hg.
Qed.

(** C6. Whatever the text of page 2, the names in the dictionary that
    [extract_key_statistics] returns are among [tv_hours],
    [total_leisure_hours], [gaming_minutes], [socializing_minutes],
    [men_leisure_hours] and [women_leisure_hours]; the values stored in
    hours are floats and the values stored in minutes are ints.  The
    dictionary is returned unless a number of minutes is too long for
    [int]. *)
Theorem key_statistics_names_and_types (doc : Fitz.document) (text : string) :
  doc !! 1%nat = Some text →
  (∀ key_stats,
      extract_key_statistics doc = Ok key_stats →
      dom key_stats ⊆ known_keys
      ∧ (∀ k v, k ∈ hour_keys → key_stats !! k = Some v → ∃ f, v = PFloat f)
      ∧ (∀ k v, k ∈ minute_keys → key_stats !! k = Some v → ∃ z, v = PInt z))
  ∧ (oversized gaming_pattern 1 text = false →
     oversized social_pattern 1 text = false →
     ∃ key_stats, extract_key_statistics doc = Ok key_stats).
Proof.
  intros Htext. rewrite (extract_key_statistics_eq doc text Htext). split.
  - intros key_stats Hstats. destruct (_ || _); [done|]. injection Hstats as <-.
    split; [apply expected_dom|].
    split; [apply expected_float | apply expected_int].
  - intros -> ->. by eauto.
Qed.

(** The three ways [add_minutes] can go. *)
Lemma add_minutes_cases hours minutes (key_stats : gmap string pyval) :
  (key_stats !! hours = None
   ∧ add_minutes hours minutes key_stats = (key_stats, Ok tt))
  ∨ (∃ v m, key_stats !! hours = Some v ∧ Builtins.mul_int v 60 = Ok m
            ∧ add_minutes hours minutes key_stats = (<[minutes := m]> key_stats, Ok tt))
  ∨ (∃ v e, key_stats !! hours = Some v ∧ Builtins.mul_int v 60 = Raise e
            ∧ add_minutes hours minutes key_stats = (key_stats, Raise e)).
Proof.
  unfold add_minutes. simpl. destruct (key_stats !! hours) as [v|] eqn:Hv.
  - rewrite bool_decide_eq_true_2 by eauto. simpl.
    destruct (Builtins.mul_int v 60) as [m|e] eqn:Hm.
    + right; left. by exists v, m.
    + right; right. by exists v, e.
  - rewrite bool_decide_eq_false_2 by (by intros [? ?]). by left.
Qed.



End ExtractFinalClaims.

(** The two theorems on the sample report: page 2 is the summary, page 3
    the table. *)
Lemma extractor_fails_silently_sample :
  (∀ key_stats,
      ExtractFinal.extract_key_statistics (H := Sample.runtime) Sample.report
      = Ok key_stats →
      (∀ k, is_Some (key_stats !! k) →
            ∃ r, KeyStatistics.pattern_of k = Some r
                 ∧ is_Some (Regex.search r Sample.summary))
      ∧ (∀ k r, KeyStatistics.pattern_of k = Some r →
                Regex.search r Sample.summary = None → key_stats !! k = None))
  ∧ ((∀ k r, KeyStatistics.pattern_of k = Some r →
             Regex.search r Sample.summary = None) →
     ExtractFinal.extract_key_statistics (H := Sample.runtime) Sample.report = Ok ∅)
  ∧ (∀ e, ExtractFinal.extract_key_statistics (H := Sample.runtime) Sample.report
          = Raise e →
          e = ValueError
          ∧ ∃ k r, k ∈ KeyStatistics.minute_keys ∧ KeyStatistics.pattern_of k = Some r
                   ∧ KeyStatistics.oversized (H := Sample.runtime) r 1 Sample.summary
                     = true)
  ∧ (∃ rows,
      ExtractFinal.extract_table_11a_data (H := Sample.runtime) Sample.report 3 = Ok rows
      ∧ Forall2 (λ line row,
                 ExtractFinal.rows_of_line (H := Sample.runtime) line = Ok [row])
          (filter (λ line, Str.is_empty (Str.strip line) = false
                           ∧ ExtractFinal.has_keyword line = true
                           ∧ (7 ≤ length (Regex.findall Regex.decimal line))%nat)
             (Str.split_lines Sample.table))
          rows).
Proof.
  apply (extractor_fails_silently (H := Sample.runtime) Sample.report 3
           Sample.summary Sample.table).
  - reflexivity.
  - lia.
  - reflexivity.
Defined.

Lemma key_statistics_names_and_types_sample :
  (∀ key_stats,
      ExtractFinal.extract_key_statistics (H := Sample.runtime) Sample.report
      = Ok key_stats →
      dom key_stats ⊆ KeyStatistics.known_keys
      ∧ (∀ k v, k ∈ KeyStatistics.hour_keys → key_stats !! k = Some v →
                ∃ f, v = PFloat f)
      ∧ (∀ k v, k ∈ KeyStatistics.minute_keys → key_stats !! k = Some v →
                ∃ z, v = PInt z))
  ∧ (KeyStatistics.oversized (H := Sample.runtime) ExtractFinal.gaming_pattern 1
       Sample.summary = false →
     KeyStatistics.oversized (H := Sample.runtime) ExtractFinal.social_pattern 1
       Sample.summary = false →
     ∃ key_stats,
       ExtractFinal.extract_key_statistics (H := Sample.runtime) Sample.report
       = Ok key_stats).
Proof.
  apply (key_statistics_names_and_types (H := Sample.runtime) Sample.report Sample.summary).
  reflexivity.
Defined.

(** What the extractor finds in the sample report. *)
Example sample_key_statistics :
  ExtractFinal.extract_key_statistics (H := Sample.runtime) Sample.report
  = Ok (<["gaming_minutes" := PInt 34]>
        (<["total_leisure_hours" := PFloat 5.1]>
        (<["tv_hours" := PFloat 2.6]> ∅))).
Proof. vm_compute. reflexivity. Qed.

Example sample_table_11a :
  ExtractFinal.demographic
    <$> default [] (match ExtractFinal.extract_table_11a_data (H := Sample.runtime)
                            Sample.report 3 with
                    | Ok rows => Some rows
                    | Raise _ => None
                    end)
  = ["Men ............"].
Proof. vm_compute. reflexivity. Qed.

(** The extractor on a page 2 with a number of minutes of 4301 digits:
    no dictionary is returned. *)
Lemma extractor_raises_on_oversized_minutes :
  ExtractFinal.extract_key_statistics (H := Sample.runtime)
    [ "AMERICAN TIME USE SURVEY"; SampleReport.oversized_page ]
  = Raise ValueError.
Proof. vm_compute. reflexivity. Qed.


(** [process_and_save_data] on the dictionary of the sample report. *)
Example sample_minutes :
  (ExtractFinal.process_and_save_data (H := Sample.runtime)
     (disk := SampleDisk.with_data)
     (<["total_leisure_hours" := PFloat 5.1]> (<["tv_hours" := PFloat 2.6]> ∅)) [] []).1
  = <["total_leisure_minutes" := PFloat 306]>
    (<["tv_minutes" := PFloat 156]>
    (<["total_leisure_hours" := PFloat 5.1]> (<["tv_hours" := PFloat 2.6]> ∅))).
Proof. vm_compute. reflexivity. Qed.

(** ** [scrape_atus.py] *)

Section ScrapeAtusFacts.
Context `{Runtime}.
Import Regex RegexFacts ScrapeAtus.

Lemma Forall_sublist_of {A} (P : A → Prop) (l1 l2 : list A) :
  l1 `sublist_of` l2 → Forall P l2 → Forall P l1.
Proof.
  rewrite !Forall_forall. intros Hsub Hall x Hx. eapply Hall, elem_of_sublist; eauto.
Qed.

Lemma exceeds_limit_enabled w :
  Builtins.exceeds_limit w = true → int_max_str_digits ≠ 0%nat.
Proof.
  unfold Builtins.exceeds_limit. intros [Hpos%Nat.ltb_lt _]%andb_prop. lia.
Qed.

(** A round of the loop appends consistent rows, or raises the
    [ValueError] of [int] for a number beyond the limit. *)
Lemma rows_of_line_ok line :
  match rows_of_line line with
  | Ok rows => Forall consistent rows
  | Raise e => e = ValueError ∧ int_max_str_digits ≠ 0%nat
  end.
Proof.
  unfold rows_of_line.
  destruct (Str.is_empty (Str.strip line)); [by constructor|].
  destruct (search time_pattern (Str.strip line)) as [m|] eqn:Hs; [|by constructor].
  destruct (int_of_group_digits _ _ _ 1%nat Hs eq_refl) as (w1 & _ & _ & ->).
  destruct (Builtins.exceeds_limit w1) eqn:H1; simpl;
    [by split; [|eapply exceeds_limit_enabled]|].
  destruct (int_of_group_digits _ _ _ 2%nat Hs eq_refl) as (w2 & _ & _ & ->).
  destruct (Builtins.exceeds_limit w2) eqn:H2; simpl;
    [by split; [|eapply exceeds_limit_enabled]|].
  destruct (negb _); by repeat constructor.
Qed.

Lemma collect_rows_ok lines :
  match collect rows_of_line lines with
  | Ok data => Forall consistent data
  | Raise e => e = ValueError ∧ int_max_str_digits ≠ 0%nat
  end.
Proof.
  induction lines as [|line lines IH]; simpl; [by constructor|].
  pose proof (rows_of_line_ok line) as Hline.
  destruct (rows_of_line line) as [rows|e]; simpl; [|done].
  destruct (collect rows_of_line lines) as [data|e]; simpl; [|done].
  by apply Forall_app.
Qed.

Lemma positive_rows_positive df : Forall (λ r, 0 < total_minutes r) (positive_rows df).
Proof. unfold positive_rows. apply Forall_forall. by intros r [? _]%list_elem_of_filter. Qed.

Lemma positive_rows_Forall (P : time_row → Prop) df :
  Forall P df → Forall P (positive_rows df).
Proof.
  unfold positive_rows. rewrite !Forall_forall.
  intros Hall r [_ Hr]%list_elem_of_filter. by apply Hall.
Qed.

Lemma drop_duplicates_from_sublist seen df :
  sublist (drop_duplicates_from seen df) df.
Proof.
  revert seen; induction df as [|r df IH]; intros seen; simpl; [constructor|].
  case_bool_decide; by constructor.
Qed.

Lemma drop_duplicates_from_fresh seen df :
  Forall (λ r, category r ∉ seen) (drop_duplicates_from seen df).
Proof.
  revert seen; induction df as [|r df IH]; intros seen; simpl; [constructor|].
  case_bool_decide; [done|]. constructor; [done|].
  eapply Forall_impl; [apply IH|]. simpl. set_solver.
Qed.

Lemma drop_duplicates_from_NoDup seen df :
  NoDup (category <$> drop_duplicates_from seen df).
Proof.
  revert seen; induction df as [|r df IH]; intros seen; simpl; [constructor|].
  case_bool_decide; [done|]. rewrite fmap_cons. constructor; [|done].
  intros (r' & Hc & Hr')%list_elem_of_fmap.
  pose proof (drop_duplicates_from_fresh ({[category r]} ∪ seen) df) as Hf.
  rewrite Forall_forall in Hf. specialize (Hf _ Hr'). set_solver.
Qed.

Lemma insert_desc_perm r df : insert_desc r df ≡ₚ r :: df.
Proof.
  induction df as [|r' df IH]; simpl; [done|].
  destruct (_ <? _); [done|]. by rewrite IH, Permutation_swap.
Qed.

Lemma sort_values_desc_perm df : sort_values_desc df ≡ₚ df.
Proof.
  induction df as [|r df IH]; simpl; [done|]. by rewrite insert_desc_perm, IH.
Qed.

Lemma insert_desc_sorted r df :
  StronglySorted desc df → StronglySorted desc (insert_desc r df).
Proof.
  induction 1 as [|r' df Hs IH Hall]; simpl; [by repeat constructor|].
  destruct (total_minutes r' <? total_minutes r) eqn:Hlt.
  - apply Z.ltb_lt in Hlt. constructor; [by constructor|].
    constructor; [unfold desc; lia|].
    eapply Forall_impl; [exact Hall|]. unfold desc. simpl. lia.
  - apply Z.ltb_ge in Hlt. constructor; [done|].
    rewrite insert_desc_perm. by constructor.
Qed.

Lemma sort_values_desc_sorted df : StronglySorted desc (sort_values_desc df).
Proof.
  induction df as [|r df IH]; simpl; [constructor|]. by apply insert_desc_sorted.
Qed.

(** The rows that [drop_duplicates] keeps: of each category the first. *)
Lemma elem_of_drop_duplicates_from seen df r :
  r ∈ drop_duplicates_from seen df
  ↔ ∃ i : nat, df !! i = Some r ∧ (category r ∉ seen)
               ∧ ∀ (j : nat) r', (j < i)%nat → df !! j = Some r' →
                                 category r' ≠ category r.
Proof.
  revert seen; induction df as [|r0 df IH]; intros seen; simpl.
  { split; [by intros ?%elem_of_nil|by intros (i & ? & _)]. }
  case_bool_decide as Hseen.
  - rewrite IH. split.
    + intros (i & Hi & Hr & Hfirst). exists (S i). split; [done|]. split; [done|].
      intros [|j] r' Hj Hr'; simpl in Hr'; [|apply (Hfirst j); [lia|done]].
      injection Hr' as <-. by intros Heq; rewrite Heq in Hseen.
    + intros ([|i] & Hi & Hr & Hfirst); simpl in Hi.
      { injection Hi as <-. done. }
      exists i. split; [done|]. split; [done|].
      intros j r' Hj Hr'. apply (Hfirst (S j)); [lia|done].
  - rewrite elem_of_cons, IH. split.
    + intros [->|(i & Hi & Hr & Hfirst)].
      { exists 0%nat. split; [done|]. split; [done|]. intros j r' Hj. lia. }
      exists (S i). split; [done|]. split; [set_solver|].
      intros [|j] r' Hj Hr'; simpl in Hr'; [|apply (Hfirst j); [lia|done]].
      injection Hr' as <-. set_solver.
    + intros ([|i] & Hi & Hr & Hfirst); simpl in Hi.
      { injection Hi as <-. by left. }
      right. exists i. split; [done|]. split.
      * pose proof (Hfirst 0%nat r0 ltac:(lia) eq_refl). set_solver.
      * intros j r' Hj Hr'. apply (Hfirst (S j)); [lia|done].
Qed.

(** The table is what the loop collected, cleaned if it is not empty. *)
Lemma extract_time_use_data_Ok (doc : Fitz.document) df :
  extract_time_use_data doc = Ok df →
  ∃ data,
    collect rows_of_line
      (Str.split_lines (foldl (λ all_text page, all_text +:+ page) "" doc)) = Ok data
    ∧ df ≡ₚ drop_duplicates (positive_rows data).
Proof.
  unfold extract_time_use_data.
  destruct (collect rows_of_line _) as [data|e]; simpl; [|done].
  intros Hdf. exists data. split; [done|].
  case_bool_decide as Hempty; simpl in Hdf; injection Hdf as <-.
  - by subst data.
  - apply sort_values_desc_perm.
Qed.

(** C8. Whatever the pages of the PDF, in the table that
    [extract_time_use_data] returns every row has [total_minutes] greater
    than 0 and equal to [hours * 60 + minutes], no two rows have the same
    category, and the rows are in descending order of [total_minutes].
    Of the rows of one category the first is the one kept: a row is in the
    table exactly when it is a row that the lines gave with a positive
    total and no row before it with a positive total has its category.
    The table is returned unless [int] refuses a number for its length:
    the only exception is that [ValueError], and there is none when the
    interpreter has no limit on the length of integer strings. *)
Theorem extract_time_use_data_postconditions (doc : Fitz.document) :
  (∀ df,
      extract_time_use_data doc = Ok df →
      Forall (λ r, 0 < total_minutes r) df
      ∧ Forall (λ r, total_minutes r = hours r * 60 + minutes r) df
      ∧ NoDup (category <$> df)
      ∧ StronglySorted (λ r r', total_minutes r' ≤ total_minutes r) df
      ∧ ∃ data,
          collect rows_of_line
            (Str.split_lines (foldl (λ all_text page, all_text +:+ page) "" doc))
          = Ok data
          ∧ ∀ r, r ∈ df
                 ↔ ∃ i : nat,
                     positive_rows data !! i = Some r
                     ∧ ∀ (j : nat) r', (j < i)%nat →
                         positive_rows data !! j = Some r' →
                         category r' ≠ category r)
  ∧ (∀ e, extract_time_use_data doc = Raise e →
          e = ValueError ∧ int_max_str_digits ≠ 0%nat)
  ∧ (int_max_str_digits = 0%nat → ∃ df, extract_time_use_data doc = Ok df).
Proof.
  split.
  { intros df Hdf.
    destruct (extract_time_use_data_Ok doc df Hdf) as (data' & Hdata' & Hperm).
    assert (Forall (λ r, 0 < total_minutes r) df
            ∧ Forall (λ r, total_minutes r = hours r * 60 + minutes r) df
            ∧ NoDup (category <$> df)
            ∧ StronglySorted (λ r r', total_minutes r' ≤ total_minutes r) df)
      as (Hpos & Hsum & Hdup & Hsorted).
    { revert Hdf. unfold extract_time_use_data.
      pose proof (collect_rows_ok
                    (Str.split_lines (foldl (λ all_text page, all_text +:+ page) "" doc)))
        as Hc.
      destruct (collect rows_of_line _) as [data|e]; simpl; [|done].
      intros Hdf. case_bool_decide as Hempty; simpl in Hdf; injection Hdf as <-.
      - subst data. repeat split; constructor.
      - pose proof (sort_values_desc_perm (drop_duplicates (positive_rows data))) as Hp.
        pose proof (drop_duplicates_from_sublist ∅ (positive_rows data)) as Hsub.
        split; [|split; [|split]].
        + rewrite Hp. eapply Forall_sublist_of; [exact Hsub|]. apply positive_rows_positive.
        + rewrite Hp. eapply Forall_sublist_of; [exact Hsub|].
          by apply positive_rows_Forall.
        + rewrite Hp. apply drop_duplicates_from_NoDup.
        + apply sort_values_desc_sorted. }
    do 4 (split; [done|]).
    exists data'. split; [done|]. intros r. rewrite Hperm.
    unfold drop_duplicates. rewrite elem_of_drop_duplicates_from.
    split; [by intros (i & ? & _ & ?); exists i|].
    intros (i & ? & ?). exists i. split; [done|]. split; [set_solver|done]. }
  unfold extract_time_use_data.
  pose proof (collect_rows_ok
                (Str.split_lines (foldl (λ all_text page, all_text +:+ page) "" doc)))
    as Hc.
  destruct (collect rows_of_line _) as [data|e]; simpl.
  2: { destruct Hc as [-> Hlimit]. split; [by intros ? [= <-]|done]. }
  split; [by intros e; case_bool_decide | by case_bool_decide; eauto].
Qed.

End ScrapeAtusFacts.

(** The table scraped from the sample report of times: the second
    [Sleeping] line and the line of 0 minutes are dropped. *)
Example sample_times :
  (λ r, (ScrapeAtus.category r, ScrapeAtus.total_minutes r))
    <$> default [] (match ScrapeAtus.extract_time_use_data (H := Sample.runtime)
                            Sample.times with
                    | Ok df => Some df
                    | Raise _ => None
                    end)
  = [("Sleeping", 510); ("Working", 225); ("Watching TV", 160)].
Proof. vm_compute. reflexivity. Qed.

(** A line between no-break spaces (U+00A0): [strip] removes them. *)
Example sample_no_break_space :
  (λ r, (ScrapeAtus.category r, ScrapeAtus.total_minutes r))
    <$> default [] (match ScrapeAtus.extract_time_use_data (H := Sample.runtime)
                            [ String (ascii_of_nat 160)
                                ("Sleeping 8:30" +:+ String (ascii_of_nat 160) "") ] with
                    | Ok df => Some df
                    | Raise _ => None
                    end)
  = [("Sleeping", 510)].
Proof. vm_compute. reflexivity. Qed.

(** ** Effects *)

Lemma bind_Ok {A B} (m : Py A) (f : A → Py B) t a :
  m = (t, Ok a) → m ≫= f = (t ++ (f a).1, (f a).2).
Proof. intros ->. simpl. by destruct (f a). Qed.

Lemma bind_Raise {A B} (m : Py A) (f : A → Py B) t e :
  m = (t, Raise e) → m ≫= f = (t, Raise e).
Proof. by intros ->. Qed.

Lemma split_lines_cons s : ∃ line lines, Str.split_lines s = line :: lines.
Proof.
  induction s as [|c s (line & lines & IH)]; simpl; [by eauto|].
  destruct (Ascii.eqb c Str.newline); [by eauto|]. rewrite IH. by eauto.
Qed.

(** ** [examine_pdf_structure.py] *)

Section ExaminePdfClaims.
Context `{Runtime}.
Import Regex ExaminePdf.

(** An importer's copy of the module has no [re]. *)
Lemma re_not_imported name : name ≠ "__main__" → "re" ∉ module_globals name.
Proof.
  intros Hname. unfold module_globals.
  rewrite bool_decide_eq_false_2 by done. set_solver.
Qed.

(** The loop over the lines of a page stops at its first line. *)
Lemma for_each_lines_NameError name text (body : string → Py unit) :
  name ≠ "__main__" →
  for_each (Str.split_lines text)
    (λ line, load_global (module_globals name) "re";; body line)
  = ([], Raise (NameError "re")).
Proof.
  intros Hname. destruct (split_lines_cons text) as (line & lines & ->).
  simpl. unfold load_global.
  by rewrite bool_decide_eq_false_2 by by apply re_not_imported.
Qed.

(** C10. [examine_page_with_data] evaluates the name [re], which the
    module binds only in its [__main__] block.  Called by an importer of
    the module, it raises [NameError] as soon as it reaches a page number
    that lies within the document: here [skipped] are the page numbers
    before it, all beyond the last page. *)
Theorem examine_page_with_data_NameError (name : string) (doc : Fitz.document)
    (skipped : list Z) (page_num : Z) (rest : list Z) :
  name ≠ "__main__" →
  Forall (λ q, Z.of_nat (length doc) < q) skipped →
  1 ≤ page_num ≤ Z.of_nat (length doc) →
  ∃ trace,
    examine_page_with_data (module_globals name) doc (skipped ++ page_num :: rest)
    = (trace, Raise (NameError "re")).
Proof.
  intros Hname Hskipped Hpage. unfold examine_page_with_data.
  induction Hskipped as [|q skipped Hq _ (trace & IH)].
  - destruct (doc !! Z.to_nat (page_num - 1)) as [text|] eqn:Htext.
    2: { apply lookup_ge_None in Htext. lia. }
    pose proof (getitem_page doc _ text Htext) as Hg.
    rewrite Z2Nat.id in Hg by lia.
    rewrite app_nil_l. cbn [for_each].
    replace (page_num <=? Z.of_nat (length doc)) with true
      by (symmetry; apply Z.leb_le; lia).
    rewrite Hg. unfold lift. cbn [mbind Py_bind].
    rewrite (for_each_lines_NameError name text
               (λ line, if bool_decide (is_Some (search hhmm_pattern line))
                        then print ("  > " +:+ Str.strip line) else mret tt) Hname).
    simpl. eauto.
  - rewrite <- app_comm_cons. cbn [for_each].
    replace (q <=? Z.of_nat (length doc)) with false
      by (symmetry; apply Z.leb_gt; lia).
    rewrite IH. simpl. eauto.
Qed.

End ExaminePdfClaims.

(** An importer ([__name__] is the module's name) calls the function with
    the default page numbers on the three pages of the sample report:
    pages 1 and 2 are within the document. *)
Lemma examine_page_with_data_NameError_sample :
  ∃ trace,
    ExaminePdf.examine_page_with_data (H := Sample.runtime)
      (ExaminePdf.module_globals "examine_pdf_structure") Sample.report
      ([] ++ 1 :: [2; 23; 24])
    = (trace, Raise (NameError "re")).
Proof.
  apply (examine_page_with_data_NameError (H := Sample.runtime)
           "examine_pdf_structure" Sample.report [] 1 [2; 23; 24]).
  - discriminate.
  - constructor.
  - simpl. lia.
Defined.

(** Run as a script, the module has bound [re] before the call, and the
    call returns. *)
Example examine_page_with_data_as_script :
  (ExaminePdf.examine_page_with_data (H := Sample.runtime)
     (ExaminePdf.module_globals "__main__") Sample.report
     ExaminePdf.default_page_numbers).2 = Ok tt.
Proof. vm_compute. reflexivity. Qed.

(** ** [atus_api_client.py]: the flattener *)

Section PandasFacts.
Import Pandas.

Lemma length_DataFrame records : length (DataFrame records) = length records.
Proof. apply length_fmap. Qed.

Lemma lookup_frame_row (records : list (gmap string pyval))
    (record : gmap string pyval) k :
  map_imap (λ k _, Some (convert (column records k) (record !! k)))
    (gset_to_gmap tt (columns records)) !! k
  = if bool_decide (k ∈ columns records)
    then Some (convert (column records k) (record !! k)) else None.
Proof.
  rewrite map_lookup_imap, lookup_gset_to_gmap.
  case_bool_decide; by simplify_option_eq.
Qed.

(** The cells of a row of the frame. *)
Lemma DataFrame_rows records :
  Forall2 (λ (row record : gmap string pyval),
             ∀ k, row !! k = if bool_decide (k ∈ columns records)
                             then Some (convert (column records k) (record !! k))
                             else None)
    (DataFrame records) records.
Proof.
  unfold DataFrame. apply Forall2_fmap_l, Forall_Forall2_diag, Forall_forall.
  intros record _ k. apply lookup_frame_row.
Qed.

Lemma elem_of_columns (records : list (gmap string pyval)) k :
  k ∈ columns records ↔ ∃ record, record ∈ records ∧ is_Some (record !! k).
Proof.
  unfold columns. rewrite elem_of_union_list. split.
  - intros (X & (record & -> & Hrecord)%list_elem_of_fmap & Hk).
    exists record. split; [done|]. by apply elem_of_dom.
  - intros (record & Hrecord & Hk). exists (dom record).
    split; [|by apply elem_of_dom]. apply list_elem_of_fmap. by exists record.
Qed.

(** A cell that is not a number stays as it is. *)
Lemma convert_object cells v :
  Some v ∈ cells → numeric (Some v) = false → convert cells (Some v) = v.
Proof.
  intros Hin Hv. unfold convert, float_column.
  replace (forallb numeric cells) with false; [done|].
  symmetry. apply not_true_is_false. intros Hall.
  rewrite forallb_forall in Hall. rewrite (Hall (Some v)) in Hv; [done|].
  by apply list_elem_of_In.
Qed.

(** A column of floats and [None]: the floats stay, and [None] stays
    only in a column without a float. *)
Lemma convert_value cells cell :
  cell ∈ cells →
  Forall (λ c, c = Some PNone ∨ ∃ f, c = Some (PFloat f)) cells →
  convert cells cell
  = match cell with
    | Some PNone => if forallb is_none cells then PNone else PFloat nan
    | Some v => v
    | None => PFloat nan
    end.
Proof.
  intros Hin Hall. unfold convert, float_column.
  assert (forallb numeric cells = true) as ->.
  { apply forallb_forall. intros c Hc%list_elem_of_In.
    rewrite Forall_forall in Hall. by destruct (Hall c Hc) as [->|[f ->]]. }
  rewrite Forall_forall in Hall.
  destruct (Hall cell Hin) as [->|[f ->]].
  - assert (forallb is_int cells = false) as ->.
    { apply not_true_is_false. intros Hint. rewrite forallb_forall in Hint.
      by specialize (Hint (Some PNone) ltac:(by apply list_elem_of_In)). }
    simpl. by destruct (forallb is_none cells).
  - by destruct (_ && _ && _).
Qed.

(** Every row of the frame has the columns of the frame, and comes from
    a record. *)
Lemma DataFrame_dom (records : list (gmap string pyval)) row :
  row ∈ DataFrame records →
  dom row = columns records ∧ ∃ record, record ∈ records.
Proof.
  unfold DataFrame. intros (record & -> & Hrecord)%list_elem_of_fmap.
  split; [|by exists record]. apply set_eq. intros k.
  rewrite elem_of_dom, lookup_frame_row.
  case_bool_decide; split; try done; by intros [? ?].
Qed.

End PandasFacts.

Section ApiClientFacts.
Context `{Runtime}.
Import ApiClient Response MissingValue.

Lemma add_calculations_lookup calculations (row : gmap string pyval) k :
  (∀ suffix, k ≠ "calc_" +:+ suffix) →
  add_calculations calculations row !! k = row !! k.
Proof.
  intros Hk. unfold add_calculations.
  revert row; induction calculations as [|[calc_type calc_value] calcs IH];
    intros row; simpl; [done|].
  by rewrite IH, lookup_insert_ne.
Qed.

Lemma collect_footnotes_ok notes :
  forallb footnote_ok notes = true →
  ∃ footnotes,
    collect (λ footnote, option_list <$> footnote_text footnote) notes = Ok footnotes.
Proof.
  induction notes as [|note notes IH]; simpl; [by eauto|].
  intros [Hnote Hnotes]%andb_prop. destruct (IH Hnotes) as [footnotes ->].
  unfold footnote_text, footnote_ok in *.
  destruct (Builtins.truthy note); simpl in *; [|by eauto].
  destruct note; try done. simpl. by eauto.
Qed.

Lemma row_of_item_ok series_id series_catalog item :
  item_ok item = true → is_dict series_catalog = true →
  ∃ row, row_of_item series_id series_catalog item = Ok row
         ∧ row_of row (series_id, item).
Proof.
  intros Hitem Hcat.
  destruct series_catalog as [| | | | | |catalog]; try done.
  destruct item as [| | | | | |d]; try done. simpl in Hitem.
  repeat (apply andb_prop in Hitem as [Hitem ?]).
  apply bool_decide_eq_true in Hitem as [year Hyear].
  match goal with H : bool_decide _ = true |- _ =>
    apply bool_decide_eq_true in H as [period Hperiod] end.
  destruct (d !! "value") as [raw|] eqn:Hraw; [|done].
  unfold row_of_item, row_of, value_cell. simpl.
  rewrite Hyear, Hperiod, Hraw. simpl.
  assert (∃ value, (if negb (Builtins.eq_str raw "-")
                     then Builtins.float_of raw ≫= λ f : float, Ok (PFloat f)
                     else Ok PNone) = Ok value
                    ∧ value = (if Builtins.eq_str raw "-" then PNone
                               else match Builtins.float_of raw with
                                    | Ok f => PFloat f
                                    | Raise _ => PNone
                                    end)) as (value & -> & <-).
  { destruct (Builtins.eq_str raw "-"); simpl in *; [by eauto|].
    destruct (Builtins.float_of raw); [by eauto|done]. }
  simpl.
  assert (∃ notes, Builtins.iter (default (PList []) (d !! "footnotes")) = Ok notes
                   ∧ forallb footnote_ok notes = true) as (notes & -> & Hnotes).
  { destruct (d !! "footnotes") as [[]|]; try done; simpl; by eauto. }
  simpl. destruct (collect_footnotes_ok _ Hnotes) as [footnotes ->]. simpl.
  destruct (d !! "calculations") as [[]|] eqn:Hcalc; try done.
  - rewrite bool_decide_eq_true_2 by eauto. simpl.
    eexists; split; [done|].
    rewrite !add_calculations_lookup by (intros suffix; discriminate).
    split; by simplify_map_eq.
  - rewrite bool_decide_eq_false_2 by (by intros [? ?]).
    eexists; split; [done|]. split; by simplify_map_eq.
Qed.

Lemma rows_of_items_ok series_id series_catalog items :
  forallb item_ok items = true → is_dict series_catalog = true →
  ∃ rows,
    collect (λ item, row ← row_of_item series_id series_catalog item; Ok [row]) items
    = Ok rows
    ∧ Forall2 row_of rows ((λ item, (series_id, item)) <$> items).
Proof.
  intros Hitems Hcat. induction items as [|item items IH]; simpl in *.
  - exists []. by split; [|constructor].
  - apply andb_prop in Hitems as [Hitem Hitems].
    destruct (IH Hitems) as (rows & -> & Hrows).
    destruct (row_of_item_ok series_id _ _ Hitem Hcat) as (row & -> & Hrow). simpl.
    exists (row :: rows). split; [done|]. by constructor.
Qed.

Lemma rows_of_series_ok series :
  series_ok series = true →
  ∃ rows, rows_of_series series = Ok rows
          ∧ Forall2 row_of rows
              ((λ item, (series_id_of series, item)) <$> data_of series).
Proof.
  intros Hseries. destruct series as [| | | | | |d]; try done. simpl in Hseries.
  repeat (apply andb_prop in Hseries as [Hseries ?]).
  apply bool_decide_eq_true in Hseries as [series_id Hid].
  destruct (d !! "data") as [[| | | | |items|]|] eqn:Hdata; try done.
  unfold rows_of_series. simpl. rewrite Hid, Hdata. simpl.
  apply rows_of_items_ok; [done|]. by destruct (d !! "catalog") as [[]|].
Qed.

Lemma rows_of_all_series_ok all_series :
  forallb series_ok all_series = true →
  ∃ rows, collect rows_of_series all_series = Ok rows
          ∧ Forall2 row_of rows
              (series ← all_series;
               (λ item, (series_id_of series, item)) <$> data_of series).
Proof.
  induction all_series as [|series all_series IH]; simpl.
  - exists []. by split; [|constructor].
  - intros [Hseries Hall]%andb_prop.
    destruct (IH Hall) as (rows' & -> & Hrows').
    destruct (rows_of_series_ok _ Hseries) as (rows & -> & Hrows). simpl.
    exists (rows ++ rows'). split; [done|]. by apply Forall2_app.
Qed.

(** A well-formed successful answer is flattened without a message and
    without an exception, into one row per observation; the frame is made
    of these rows. *)
Lemma parse_response_ok json_data :
  response_ok json_data = true →
  ∃ all_data,
    parse_response_to_dataframe json_data
    = ([], Ok (Some (Pandas.DataFrame all_data)))
    ∧ Forall2 row_of all_data (observations json_data).
Proof.
  intros Hok. destruct json_data as [| | | | | |d]; try done. simpl in Hok.
  apply andb_prop in Hok as [Hstatus Hresults].
  destruct (d !! "status") as [status|] eqn:Hs; [|done].
  destruct (d !! "Results") as [[| | | | | |results]|] eqn:Hr; try done.
  destruct (results !! "series") as [[| | | | |all_series|]|] eqn:Hall; try done.
  destruct (rows_of_all_series_ok _ Hresults) as (rows & Hrows & Hall2).
  exists rows. split.
  - unfold parse_response_to_dataframe. simpl.
    assert (bool_decide (d = ∅) = false) as ->.
    { apply bool_decide_eq_false_2. intros ->. by rewrite lookup_empty in Hs. }
    simpl. rewrite Hs; simpl. rewrite Hstatus; simpl. rewrite Hr; simpl.
    rewrite Hall; simpl. by rewrite Hrows.
  - unfold observations, series_of. by rewrite Hr, Hall.
Qed.

Lemma response_ok_items json_data :
  response_ok json_data = true →
  Forall (λ observation, item_ok observation.2 = true) (observations json_data).
Proof.
  intros Hok. destruct json_data as [| | | | | |d]; try done. simpl in Hok.
  apply andb_prop in Hok as [_ Hresults]. unfold observations, series_of.
  destruct (d !! "Results") as [[| | | | | |results]|]; try done.
  destruct (results !! "series") as [[| | | | |all_series|]|]; try done.
  induction all_series as [|series all_series IH]; simpl in *; [constructor|].
  apply andb_prop in Hresults as [Hseries Hall].
  apply Forall_app. split; [|by apply IH].
  destruct series as [| | | | | |sd]; try done. simpl in *.
  repeat (apply andb_prop in Hseries as [Hseries ?]).
  destruct (sd !! "data") as [[| | | | |items|]|]; try done.
  apply Forall_fmap, Forall_forall. intros item Hitem. simpl.
  match goal with Hf : forallb item_ok items = true |- _ =>
    rewrite forallb_forall in Hf; apply Hf end.
  by apply list_elem_of_In.
Qed.

Lemma observations_length json_data :
  length (observations json_data)
  = sum_list ((λ series, length (data_of series)) <$> series_of json_data).
Proof.
  unfold observations.
  induction (series_of json_data) as [|series all_series IH]; [done|].
  by rewrite bind_cons, fmap_cons, length_app, length_fmap, IH.
Qed.

Lemma observations_series_ids json_data :
  (λ observation : pyval * pyval, Some observation.1) <$> observations json_data
  = (series ← series_of json_data;
     replicate (length (data_of series)) (Some (series_id_of series))).
Proof.
  unfold observations.
  induction (series_of json_data) as [|series all_series IH]; [done|].
  rewrite !bind_cons, fmap_app, IH. f_equal.
  induction (data_of series) as [|item items IHi]; [done|].
  rewrite !fmap_cons. simpl. by f_equal.
Qed.

Lemma Forall2_with_Forall {A B} (R Q : A → B → Prop) (P : B → Prop) l k :
  Forall2 R l k → Forall P k → (∀ x y, R x y → P y → Q x y) → Forall2 Q l k.
Proof.
  intros HR HP Himpl. induction HR as [|x y l k Hxy _ IH]; [constructor|].
  apply Forall_cons in HP as [Hy HP]. constructor; [by apply Himpl | by apply IH].
Qed.

(** The value of a well-formed item is [None] for the marker and a float
    otherwise. *)
Lemma value_cell_ok item :
  item_ok item = true →
  value_cell item = PNone ∧ missing item = true
  ∨ ∃ f, value_cell item = PFloat f ∧ missing item = false.
Proof.
  intros Hitem. destruct item as [| | | | | |d]; try done. simpl in Hitem.
  repeat (apply andb_prop in Hitem as [Hitem ?]).
  unfold value_cell, missing. simpl.
  destruct (d !! "value") as [raw|]; [|done].
  destruct (Builtins.eq_str raw "-"); [by left|].
  simpl in *. destruct (Builtins.float_of raw) as [f|]; [|done]. right. by eauto.
Qed.

(** The columns [series_id] and [value] of the rows before the frame is
    made. *)
Lemma row_of_columns all_data (obs : list (pyval * pyval)) :
  Forall2 row_of all_data obs →
  Pandas.column all_data "series_id" = (λ o, Some o.1) <$> obs
  ∧ Pandas.column all_data "value" = (λ o, Some (value_cell o.2)) <$> obs.
Proof.
  unfold Pandas.column.
  induction 1 as [|row o all_data obs [Hid Hvalue] _ [IH1 IH2]]; [done|].
  rewrite !fmap_cons, IH1, IH2, Hid, Hvalue. done.
Qed.

(** In the column [value] of well-formed observations every cell is
    [None] exactly when every observation has the marker. *)
Lemma value_column_cells (obs : list (pyval * pyval)) :
  Forall (λ o, item_ok o.2 = true) obs →
  Forall (λ c, c = Some PNone ∨ ∃ f, c = Some (PFloat f))
    ((λ o, Some (value_cell o.2)) <$> obs)
  ∧ forallb Pandas.is_none ((λ o, Some (value_cell o.2)) <$> obs)
    = forallb missing obs.*2.
Proof.
  induction 1 as [|o obs Hitem _ [IH1 IH2]]; [by split|].
  rewrite !fmap_cons. simpl. rewrite IH2.
  destruct (value_cell_ok _ Hitem) as [[-> ->]|(f & -> & ->)].
  - split; [|done]. constructor; [by left|done].
  - split; [|done]. constructor; [by eauto|done].
Qed.

(** A well-formed answer and its frame: the identifiers of the series,
    as the frame holds them, and the values, where the [None] of the
    marker stays [None] only if no observation has a number. *)
Lemma parse_response_frame json_data :
  response_ok json_data = true →
  ∃ all_data,
    parse_response_to_dataframe json_data
    = ([], Ok (Some (Pandas.DataFrame all_data)))
    ∧ Forall2 row_of all_data (observations json_data)
    ∧ Forall2
        (λ (row : gmap string pyval) (observation : pyval * pyval),
           row !! "series_id"
           = Some (Pandas.convert ((λ o, Some o.1) <$> observations json_data)
                     (Some observation.1))
           ∧ row !! "value"
             = Some (if missing observation.2
                     then if forallb missing (observations json_data).*2
                          then PNone else PFloat nan
                     else value_cell observation.2))
        (Pandas.DataFrame all_data) (observations json_data).
Proof.
  intros Hok. destruct (parse_response_ok _ Hok) as (all_data & Hparse & Hrows).
  exists all_data. split; [done|]. split; [done|].
  pose proof (response_ok_items _ Hok) as Hitems.
  destruct (row_of_columns _ _ Hrows) as [Hids Hvalues].
  destruct (value_column_cells _ Hitems) as [Hcells Hnone].
  apply Forall2_same_length_lookup.
  split; [by rewrite length_DataFrame, (Forall2_length _ _ _ Hrows)|].
  intros i row o Hrow Ho. unfold Pandas.DataFrame in Hrow.
  rewrite list_lookup_fmap in Hrow.
  destruct (all_data !! i) as [record|] eqn:Hrecord; [|done].
  injection Hrow as <-.
  destruct (Forall2_lookup_lr _ _ _ _ _ _ Hrows Hrecord Ho) as [Hid Hvalue].
  assert (∀ k, is_Some (record !! k) → bool_decide (k ∈ Pandas.columns all_data) = true)
    as Hcol.
  { intros k Hk. apply bool_decide_eq_true_2, elem_of_columns. exists record.
    split; [by eapply list_elem_of_lookup_2|done]. }
  rewrite !lookup_frame_row, !Hcol, Hid, Hvalue, Hids, Hvalues
    by (by rewrite ?Hid, ?Hvalue).
  split; [done|]. f_equal.
  rewrite (convert_value _ (Some (value_cell o.2))); [| |done].
  - rewrite Hnone. rewrite Forall_forall in Hitems.
    destruct (value_cell_ok o.2) as [[-> ->]|(f & -> & ->)]; [|done..].
    apply Hitems. by eapply list_elem_of_lookup_2.
  - apply list_elem_of_fmap. exists o. split; [done|]. by eapply list_elem_of_lookup_2.
Qed.

(** The rows that the loop builds, before the frame is made of them: for
    every observation whose raw value is a string, the [value] field of
    its row is [None] if and only if the string is ["-"], and is otherwise
    the float that the string converts to. *)
Lemma rows_value_marker (json_data : pyval) :
  response_ok json_data = true →
  ∃ all_data,
    parse_response_to_dataframe json_data
    = ([], Ok (Some (Pandas.DataFrame all_data)))
    ∧ Forall2
        (λ (row : gmap string pyval) (observation : pyval * pyval),
           ∀ raw, Builtins.getitem observation.2 "value" = Ok (PStr raw) →
                  (row !! "value" = Some PNone ↔ raw = "-")
                  ∧ (raw ≠ "-" →
                     ∃ f, Builtins.float_of_str raw = Ok f
                          ∧ row !! "value" = Some (PFloat f)))
        all_data (observations json_data).
Proof.
  intros Hok. destruct (parse_response_ok _ Hok) as (rows & Hparse & Hrows).
  exists rows. split; [done|].
  eapply Forall2_with_Forall; [exact Hrows | exact (response_ok_items _ Hok) |].
  clear. intros row [series_id item] [_ Hvalue] Hitem. simpl.
  intros raw Hraw. simpl in *.
  unfold value_cell in Hvalue. rewrite Hraw in Hvalue.
  destruct item as [| | | | | |d]; try done. simpl in Hitem, Hraw.
  destruct (d !! "value") as [raw'|] eqn:Hd; [|done].
  assert (raw' = PStr raw) as -> by congruence.
  repeat (apply andb_prop in Hitem as [Hitem ?]).
  simpl in *. destruct (String.eqb_spec raw "-") as [Heq|Hne].
  - rewrite Hvalue. split; [done|]. by intros [].
  - match goal with Hf : false || is_Ok _ = true |- _ => simpl in Hf end.
    destruct (Builtins.float_of_str raw) as [f|]; [|done].
    split; [|by eauto]. rewrite Hvalue. split; [done|by intros ->].
Qed.

(** The frame of a well-formed answer: for every observation whose raw
    value is a string other than ["-"], the [value] of its row is the
    float of the string; for the marker ["-"] it is [None] when every
    observation of the answer has the marker, and NaN as soon as one
    observation has a number. *)
Lemma frame_value_marker (json_data : pyval) :
  response_ok json_data = true →
  ∃ rows,
    parse_response_to_dataframe json_data = ([], Ok (Some rows))
    ∧ Forall2
        (λ (row : gmap string pyval) (observation : pyval * pyval),
           ∀ raw, Builtins.getitem observation.2 "value" = Ok (PStr raw) →
                  (raw = "-" →
                   row !! "value"
                   = Some (if forallb missing (observations json_data).*2
                           then PNone else PFloat nan))
                  ∧ (raw ≠ "-" →
                     ∃ f, Builtins.float_of_str raw = Ok f
                          ∧ row !! "value" = Some (PFloat f)))
        rows (observations json_data).
Proof.
  intros Hok.
  destruct (parse_response_frame _ Hok) as (all_data & Hparse & _ & Hframe).
  eexists. split; [done|].
  eapply Forall2_with_Forall; [exact Hframe | exact (response_ok_items _ Hok) |].
  intros row [series_id item] [_ Hvalue] Hitem raw Hraw. simpl in *.
  unfold missing, value_cell in Hvalue. rewrite Hraw in Hvalue. simpl in Hvalue.
  destruct item as [| | | | | |d]; try done. simpl in Hitem, Hraw.
  destruct (d !! "value") as [raw'|] eqn:Hd; [|done].
  assert (raw' = PStr raw) as -> by congruence.
  repeat (apply andb_prop in Hitem as [Hitem ?]).
  simpl in *. destruct (String.eqb_spec raw "-") as [Heq|Hne].
  - done.
  - match goal with Hf : false || is_Ok _ = true |- _ => simpl in Hf end.
    destruct (Builtins.float_of_str raw) as [f|]; [|done].
    split; [done|by eauto].
Qed.

(** C3. For every well-formed successful answer,
    [parse_response_to_dataframe] returns one row per (series, data item)
    pair: the number of rows is the sum, over the series of
    [Results.series], of the length of the data list of the series, and the
    [series_id] fields of the rows are, in order, the [seriesID] of each
    series repeated once per item of its data, as the frame holds it:
    itself when the identifiers are strings, as those of the API are. *)
Theorem one_row_per_observation (json_data : pyval) :
  response_ok json_data = true →
  ∃ rows,
    parse_response_to_dataframe json_data = ([], Ok (Some rows))
    ∧ length rows
      = sum_list ((λ series, length (data_of series)) <$> series_of json_data)
    ∧ (λ row : gmap string pyval, row !! "series_id") <$> rows
      = (series ← series_of json_data;
         replicate (length (data_of series))
           (Some (Pandas.convert
                    ((λ o, Some o.1) <$> observations json_data)
                    (Some (series_id_of series)))))
    ∧ (Forall (λ series, ∃ s, series_id_of series = PStr s) (series_of json_data) →
       (λ row : gmap string pyval, row !! "series_id") <$> rows
       = (series ← series_of json_data;
          replicate (length (data_of series)) (Some (series_id_of series)))).
Proof.
  intros Hok.
  destruct (parse_response_frame _ Hok) as (all_data & Hparse & Hrows & Hframe).
  eexists. split; [done|]. split.
  { by rewrite length_DataFrame, (Forall2_length _ _ _ Hrows), observations_length. }
  assert ((λ row : gmap string pyval, row !! "series_id") <$> Pandas.DataFrame all_data
          = (λ o : pyval * pyval,
               Some (Pandas.convert ((λ o, Some o.1) <$> observations json_data)
                       (Some o.1))) <$> observations json_data) as Hids.
  { clear Hparse Hrows.
    generalize dependent ((λ o : pyval * pyval, Some o.1) <$> observations json_data).
    intros cells Hframe.
    induction Hframe as [|row o rows obs [Hid _] _ IH]; [done|].
    rewrite !fmap_cons. by f_equal. }
  split.
  - rewrite Hids. generalize ((λ o : pyval * pyval, Some o.1) <$> observations json_data).
    intros cells. unfold observations.
    induction (series_of json_data) as [|series all_series IH]; [done|].
    rewrite !bind_cons, fmap_app, IH. f_equal.
    induction (data_of series) as [|item items IHi]; [done|].
    rewrite !fmap_cons. simpl. by f_equal.
  - intros Hstrings. rewrite Hids, <- observations_series_ids.
    apply Forall_fmap_ext, Forall_forall. intros o Ho. f_equal.
    assert (∃ s, o.1 = PStr s) as [s Hs].
    { unfold observations in Ho.
      apply list_elem_of_bind in Ho as (series & Ho & Hseries).
      apply list_elem_of_fmap in Ho as (item & -> & _). simpl.
      rewrite Forall_forall in Hstrings. by apply Hstrings. }
    apply convert_object; [|by rewrite Hs].
    apply list_elem_of_fmap. by exists o.
Qed.

End ApiClientFacts.

(** ** [atus_api_client.py]: the requests *)

Section ApiClientClaims.
Context `{Runtime} `{Network}.
Import ApiClient Response.

(** The [try] block turns a [RequestException] into a message and [None]. *)
Lemma guarded_RequestException label request e :
  guarded label request (Raise (RequestException e))
  = ([request; EPrint (label +:+ e)], Ok PNone).
Proof. reflexivity. Qed.

(** The error paths of the two fetching methods: when the request raises
    a [RequestException], a message is printed and [None] is returned. *)
Lemma get_latest_series_RequestException self series0 e :
  http_get (base_url self +:+ "/timeseries/data/" +:+ series0
            +:+ "?latest=true&registrationkey=" +:+ api_key self)
  = Raise (RequestException e) →
  ∃ request,
    get_latest_series self [series0]
    = ([request; EPrint ("Error fetching latest data: " +:+ e)], Ok PNone).
Proof. intros Hget. unfold get_latest_series. simpl. rewrite Hget. by eauto. Qed.

Lemma get_series_data_RequestException self series_ids start_year end_year
    catalog calculations annualaverage aspects e :
  (∀ data, http_post (base_url self +:+ "/timeseries/data/") data (headers self)
           = Raise (RequestException e)) →
  ∃ request,
    get_series_data self series_ids start_year end_year
      catalog calculations annualaverage aspects
    = ([request; EPrint ("Error fetching series data: " +:+ e)], Ok PNone).
Proof. intros Hpost. unfold get_series_data. rewrite Hpost. by eauto. Qed.

(** The error path of the flattener on a dictionary: an empty answer, or
    one whose status is not [REQUEST_SUCCEEDED], gives a message and [None]. *)
Lemma parse_response_invalid_dict (d : gmap string pyval) :
  d = ∅ ∨ d !! "status" ≠ Some (PStr "REQUEST_SUCCEEDED") →
  parse_response_to_dataframe (PDict d)
  = ([EPrint ("Invalid response: "
              +:+ py_str (default (PStr "Unknown error") (d !! "message")))],
     Ok None).
Proof.
  intros Hd. unfold parse_response_to_dataframe. simpl.
  case_bool_decide as Hempty; simpl; [done|].
  destruct Hd as [->|Hstatus]; [done|].
  destruct (d !! "status") as [[| | | |status| |]|]; simpl; try done.
  destruct (String.eqb_spec status "REQUEST_SUCCEEDED") as [->|]; by simpl.
Qed.

(** C1. The claim fails on the falsy input [None], the value that the two
    fetching methods return on an error: the guard sends it to the error
    branch, and there the message is built with [json_data.get], which
    [None] does not have.  [parse_response_to_dataframe(None)] prints
    nothing and raises [AttributeError] instead of returning [None]. *)
Theorem parse_response_None_raises :
  parse_response_to_dataframe PNone = ([], Raise AttributeError).
Proof. reflexivity. Qed.

(** C2. [get_latest_series] dispatches on the length of [series_ids].
    For a list of exactly one identifier its only request is a GET of
    [base_url + '/timeseries/data/' + series_ids[0]] with the query
    [latest=true] (and the registration key); for a list of any other
    length its only request is a POST to [base_url + '/timeseries/data/']
    whose body is the JSON text of a payload with [seriesid], [latest]
    set to [True] and [registrationkey]. *)
Theorem get_latest_series_dispatch (self : client) (series_ids : list string) :
  ∃ request rest outcome,
    get_latest_series self series_ids = (request :: rest, outcome)
    ∧ Forall (λ e, is_request e = false) rest
    ∧ (∀ series0, series_ids = [series0] →
         request = EGet (base_url self +:+ "/timeseries/data/" +:+ series0
                         +:+ "?latest=true&registrationkey=" +:+ api_key self))
    ∧ (length series_ids ≠ 1%nat →
         request = EPost (base_url self +:+ "/timeseries/data/")
                     (json_dumps (PDict {[ "seriesid" := PList (PStr <$> series_ids);
                                           "latest" := PBool true;
                                           "registrationkey" := PStr (api_key self) ]}))
                     (headers self)).
Proof.
  assert (∀ label request answer,
            ∃ rest outcome, guarded label request answer = (request :: rest, outcome)
                            ∧ Forall (λ e, is_request e = false) rest) as Hguarded.
  { intros label request [json|[]]; simpl; eexists _, _; split; try done;
      repeat constructor. }
  unfold get_latest_series. case_bool_decide as Hlen.
  - destruct series_ids as [|series0 [|]]; try done. simpl.
    edestruct Hguarded as (rest & outcome & -> & Hrest).
    eexists _, rest, outcome. split; [done|]. split; [done|].
    split; [by intros ? [= <-]|done].
  - edestruct Hguarded as (rest & outcome & -> & Hrest).
    eexists _, rest, outcome. split; [done|]. split; [done|].
    split; [|done]. by intros ? ->.
Qed.

End ApiClientClaims.

(** ** [fetch_atus_api.py] *)

Section FetchApiClaims.
Context `{Runtime} `{Network} {disk : FileSystem}.
Import FetchApi Response.

(** [fetch_atus_data] writes no file. *)
Lemma fetch_atus_data_trace series_ids start_year end_year :
  Forall (λ e, match e with EPrint _ | EPost _ _ _ => True | _ => False end)
    (fetch_atus_data series_ids start_year end_year).1.
Proof.
  unfold fetch_atus_data. simpl.
  destruct (http_post _ _ _) as [json_data|[]]; simpl; repeat constructor.
  destruct (Builtins.getitem json_data "status") as [status|]; simpl;
    [|by repeat constructor].
  destruct (Builtins.eq_str status "REQUEST_SUCCEEDED"); simpl;
    [by repeat constructor|].
  destruct (Builtins.get json_data "message" _); simpl; by repeat constructor.
Qed.

(** C5. Callers skip the downstream work when a fetch fails.
    [parse_atus_response] returns [None], silently, for [None] and for
    every input in which ['Results' in json_data] is false, such as a
    dictionary without the key [Results].  The script parses and writes
    the CSV file only if [fetch_atus_data] returned something other than
    [None]: when the fetch of the ATUS series returns [None], all the
    script does after it is print the failure message, and when the test
    fetch returns [None] all it does after it is print that the connection
    test failed; a CSV file in the trace of the script means that both
    fetches returned a value. *)
Theorem callers_skip_after_failed_fetch :
  (∀ json_data,
     json_data = PNone ∨ Builtins.contains_key "Results" json_data = Ok false →
     parse_atus_response json_data = ([], Ok None))
  ∧ (∀ d : gmap string pyval,
       d !! "Results" = None → parse_atus_response (PDict d) = ([], Ok None))
  ∧ use_atus_data PNone
    = ([EPrint (String Str.newline "Failed to fetch ATUS data")], Ok tt)
  ∧ (∀ t1 v1 t2,
       fetch_atus_data test_series "2023" "2024" = (t1, Ok v1) →
       Builtins.truthy v1 = true →
       fetch_atus_data atus_series_ids "2023" "2024" = (t2, Ok PNone) →
       script
       = (EPrint "Testing BLS API connection..." :: t1
          ++ EPrint (String Str.newline
                       "API connection successful! Now trying ATUS series...") :: t2
          ++ [EPrint (String Str.newline "Failed to fetch ATUS data")],
          Ok tt))
  ∧ (∀ t1,
       fetch_atus_data test_series "2023" "2024" = (t1, Ok PNone) →
       script
       = (EPrint "Testing BLS API connection..." :: t1
          ++ [EPrint (String Str.newline "API connection test failed")],
          Ok tt))
  ∧ (∀ path rows,
       EToCsv path rows ∈ script.1 →
       ∃ t1 v1 t2 v2,
         fetch_atus_data test_series "2023" "2024" = (t1, Ok v1) ∧ v1 ≠ PNone
         ∧ fetch_atus_data atus_series_ids "2023" "2024" = (t2, Ok v2) ∧ v2 ≠ PNone).
Proof.
  assert (∀ json_data,
            json_data = PNone ∨ Builtins.contains_key "Results" json_data = Ok false →
            parse_atus_response json_data = ([], Ok None)) as Hparse.
  { intros json_data [->|Hkey]; [done|]. unfold parse_atus_response.
    destruct (Builtins.truthy json_data); simpl; [|done]. by rewrite Hkey. }
  split; [done|]. split; [|split; [|split; [|split]]].
  - intros d Hd. apply Hparse. right. simpl.
    rewrite bool_decide_eq_false_2; [done|]. rewrite Hd. by intros [? ?].
  - reflexivity.
  - intros t1 v1 t2 H1 Hv1 H2. unfold script.
    rewrite H1. simpl. rewrite Hv1, H2. simpl. by rewrite <- ?app_assoc.
  - intros t1 H1. unfold script. by rewrite H1.
  - intros path rows Hcsv. unfold script in Hcsv.
    pose proof (fetch_atus_data_trace test_series "2023" "2024") as Ht1.
    pose proof (fetch_atus_data_trace atus_series_ids "2023" "2024") as Ht2.
    rewrite Forall_forall in Ht1, Ht2.
    destruct (fetch_atus_data test_series "2023" "2024") as [t1 [v1|x1]] eqn:H1;
      simpl in Hcsv, Ht1.
    2: { apply elem_of_cons in Hcsv as [?|Hcsv]; [done|]. by apply Ht1 in Hcsv. }
    destruct (Builtins.truthy v1) eqn:Hv1; simpl in Hcsv.
    2: { apply elem_of_cons in Hcsv as [?|Hcsv]; [done|].
         apply elem_of_app in Hcsv as [Hcsv|Hcsv]; [by apply Ht1 in Hcsv|].
         by apply list_elem_of_singleton in Hcsv. }
    destruct (fetch_atus_data atus_series_ids "2023" "2024") as [t2 [v2|x2]] eqn:H2;
      simpl in Hcsv, Ht2.
    2: { apply elem_of_cons in Hcsv as [?|Hcsv]; [done|].
         apply elem_of_app in Hcsv as [Hcsv|Hcsv]; [by apply Ht1 in Hcsv|].
         apply elem_of_cons in Hcsv as [?|Hcsv]; [done|]. by apply Ht2 in Hcsv. }
    exists t1, v1, t2, v2. split; [done|]. split; [by intros ->|]. split; [done|].
    intros ->. simpl in Hcsv.
    apply elem_of_cons in Hcsv as [?|Hcsv]; [done|].
    apply elem_of_app in Hcsv as [Hcsv|Hcsv]; [by apply Ht1 in Hcsv|].
    apply elem_of_cons in Hcsv as [?|Hcsv]; [done|].
    apply elem_of_app in Hcsv as [Hcsv|Hcsv]; [by apply Ht2 in Hcsv|].
    by apply list_elem_of_singleton in Hcsv.
Qed.

End FetchApiClaims.

(** The sample answer is well formed; its three observations give three
    rows, with the identifiers of their series. *)
Lemma one_row_per_observation_sample :
  ∃ rows,
    ApiClient.parse_response_to_dataframe (H := Sample.runtime) SampleResponse.answer
    = ([], Ok (Some rows))
    ∧ length rows = 3%nat
    ∧ (λ row : gmap string pyval, row !! "series_id") <$> rows
      = [ Some (PStr "TUU10101AA01000000"); Some (PStr "TUU10101AA01000000");
          Some (PStr "TUU10301AA01000000") ].
Proof.
  destruct (one_row_per_observation (H := Sample.runtime) SampleResponse.answer)
    as (rows & Hparse & Hlength & _ & Hids); [vm_compute; reflexivity|].
  exists rows. split; [exact Hparse|]. split; [exact Hlength|].
  apply Hids. repeat constructor; eexists; reflexivity.
Defined.

(** C9. [parse_response_to_dataframe] does not raise on the marker ["-"],
    and the row that its loop builds for such an observation has the
    [value] [None]; but the function returns [pd.DataFrame(all_data)], and
    in the frame the column [value] holds floats as soon as one
    observation has a number, so that the [None] of the marker is NaN
    there.  On the sample answer, whose observations have the raw values
    ["5.07"], ["-"] and ["2.60"], nothing is printed or raised and the rows
    of the returned frame have the values 5.07, NaN and 2.6: the [value]
    of the row of the marker is not [None]. *)
Theorem missing_value_is_NaN_in_frame :
  (λ observation : pyval * pyval, Builtins.getitem observation.2 "value")
    <$> Response.observations SampleResponse.answer
  = [Ok (PStr "5.07"); Ok (PStr "-"); Ok (PStr "2.60")]
  ∧ match ApiClient.parse_response_to_dataframe (H := Sample.runtime)
            SampleResponse.answer with
    | ([], Ok (Some rows)) =>
        (λ row : gmap string pyval, row !! "value") <$> rows
        = [Some (PFloat 5.07); Some (PFloat nan); Some (PFloat 2.6)]
    | _ => False
    end.
Proof. split; vm_compute; reflexivity. Qed.

Example sample_answer_rows :
  (λ row : gmap string pyval, (row !! "series_id", row !! "value"))
    <$> default [] (default None (match (ApiClient.parse_response_to_dataframe
                                          (H := Sample.runtime) SampleResponse.answer).2 with
                                  | Ok df => Some df
                                  | Raise _ => None
                                  end))
  = [ (Some (PStr "TUU10101AA01000000"), Some (PFloat 5.07));
      (Some (PStr "TUU10101AA01000000"), Some (PFloat nan));
      (Some (PStr "TUU10301AA01000000"), Some (PFloat 2.6)) ].
Proof. vm_compute. reflexivity. Qed.

(** An answer in which no observation has a number keeps [None]. *)
Example all_missing_answer_rows :
  match ApiClient.parse_response_to_dataframe (H := Sample.runtime)
          (PDict {[ "status" := PStr "REQUEST_SUCCEEDED";
                    "Results" := PDict {[ "series" := PList [
                      PDict {[ "seriesID" := PStr "TUU10101AA01000000";
                               "data" := PList [
                                 PDict {[ "year" := PStr "2023";
                                          "period" := PStr "A01";
                                          "value" := PStr "-" ]} ] ]} ] ]} ]}) with
  | ([], Ok (Some rows)) =>
      (λ row : gmap string pyval, row !! "value") <$> rows = [Some PNone]
  | _ => False
  end.
Proof. vm_compute. reflexivity. Qed.

(** An answer whose status reports a failure, and the empty answer, give
    the message and [None]; [None] itself is not handled. *)
Example failed_answer :
  ApiClient.parse_response_to_dataframe (H := Sample.runtime)
    (PDict {[ "status" := PStr "REQUEST_NOT_PROCESSED";
              "message" := PStr "daily threshold reached" ]})
  = ([EPrint "Invalid response: daily threshold reached"], Ok None).
Proof. vm_compute. reflexivity. Qed.

Example empty_answer :
  ApiClient.parse_response_to_dataframe (H := Sample.runtime) (PDict ∅)
  = ([EPrint "Invalid response: Unknown error"], Ok None).
Proof. vm_compute. reflexivity. Qed.

(** The sibling parser of [fetch_atus_api.py] does return [None] for [None]. *)
Example sibling_handles_None :
  FetchApi.parse_atus_response (H := Sample.runtime) PNone = ([], Ok None).
Proof. reflexivity. Qed.

(** ** [extract_atus_final.py]: Table 11B and [main] *)

Section ExtractFinalMainFacts.
Context `{Runtime} {disk : FileSystem}.
Import Regex RegexFacts ExtractFinal KeyStatistics ExtractFinalMain.

Lemma remove_dots_no_dot s : Str.contains "." (remove_dots s) = false.
Proof.
  induction s as [|c s IH]; [done|]. cbn [remove_dots].
  destruct (Ascii.eqb_spec c ".") as [->|Hc]; [done|].
  cbn [Str.contains Str.strip_prefix].
  destruct (Ascii.eqb_spec "." c) as [<-|_]; [done|]. exact IH.
Qed.

Lemma number_ok numbers i :
  Forall (matches decimal) numbers → (i < length numbers)%nat →
  ∃ f, number numbers i = Ok f.
Proof.
  intros Hall Hi. unfold number, list_getitem.
  destruct (lookup_lt_is_Some_2 numbers i Hi) as [s Hs]. rewrite Hs. simpl.
  rewrite (float_of_decimal_str s); [by eauto|]. eapply Forall_lookup_1; eauto.
Qed.

(** A line of Table 11B yields one row if it has a keyword and at least
    16 decimal numbers, and no row otherwise; it never raises.  The label
    of the row is what precedes the first number, stripped and without its
    dots, and the figures of the row are the first 16 numbers. *)
Lemma rows_of_line_11b_cases line :
  (¬ (has_keyword_11b line = true ∧ (16 ≤ length (findall decimal line))%nat)
   ∧ rows_of_line_11b line = Ok [])
  ∨ (has_keyword_11b line = true ∧ (16 ≤ length (findall decimal line))%nat
     ∧ ∃ row number0,
         rows_of_line_11b line = Ok [row]
         ∧ head (findall decimal line) = Some number0
         ∧ demographic_11b row = remove_dots (Str.strip (Str.before_first number0 line))
         ∧ Forall2 (λ s f, Builtins.float_of_str s = Ok f)
             (take 16 (findall decimal line)) (figures_11b row)).
Proof.
  unfold rows_of_line_11b.
  destruct (has_keyword_11b line); [|left; split; [by intros [? ?]|done]].
  pose proof (findall_sound decimal line) as Hall.
  destruct (findall decimal line) as [|number0 numbers] eqn:Hnum;
    [left; split; [simpl; intros [_ ?]; lia|done]|].
  rewrite bool_decide_eq_false_2 by done. simpl negb. rewrite andb_true_l.
  destruct (2 <=? length (number0 :: numbers))%nat eqn:Hlen2.
  2: { left. apply Nat.leb_gt in Hlen2. split; [intros [_ ?]; lia|done]. }
  pose proof (Forall_inv Hall) as H0.
  change (list_getitem (number0 :: numbers) 0) with (Ok number0).
  cbn [mbind result_bind]. unfold Builtins.split_head.
  rewrite (matches_decimal_nonempty _ H0). cbn [mbind result_bind].
  destruct (16 <=? length (number0 :: numbers))%nat eqn:Hlen.
  2: { left. apply Nat.leb_gt in Hlen. split; [intros [_ ?]; lia|done]. }
  apply Nat.leb_le in Hlen. right. split; [done|]. split; [done|].
  clear Hlen2 Hnum H0.
  do 15 (destruct numbers as [|? numbers]; [simpl in Hlen; lia|]).
  repeat match goal with
         | Hall : Forall _ (?s :: _) |- _ =>
             let Hs := fresh "Hs" in
             apply Forall_cons in Hall as [Hs%float_of_decimal_str Hall]
         end.
  unfold number, list_getitem. cbn [lookup list_lookup mbind result_bind option_bind].
  repeat match goal with
         | Hs : Builtins.float_of_str _ = Ok _ |- _ =>
             rewrite Hs; cbn [mbind result_bind]; revert Hs
         end.
  intros. eexists _, number0. split; [reflexivity|]. split; [reflexivity|].
  split; [reflexivity|]. cbn [take figures_11b].
  repeat (constructor; [assumption|]). constructor.
Qed.

Lemma collect_rows_of_lines_11b lines :
  ∃ rows,
    collect rows_of_line_11b lines = Ok rows
    ∧ Forall2 (λ line row,
                 ∃ number0,
                   head (findall decimal line) = Some number0
                   ∧ demographic_11b row
                     = remove_dots (Str.strip (Str.before_first number0 line))
                   ∧ Forall2 (λ s f, Builtins.float_of_str s = Ok f)
                       (take 16 (findall decimal line)) (figures_11b row))
        (filter (λ line, has_keyword_11b line = true
                         ∧ (16 ≤ length (findall decimal line))%nat) lines)
        rows.
Proof.
  induction lines as [|line lines (rows & Hrows & Hrow)]; simpl.
  - exists []. by split; [|constructor].
  - rewrite Hrows.
    destruct (rows_of_line_11b_cases line)
      as [[Hnot Hl]|(Hk & Hn & row & number0 & Hl & Hrest)]; rewrite Hl; simpl.
    + exists rows. split; [done|]. by rewrite filter_cons_False.
    + exists (row :: rows). split; [done|]. rewrite filter_cons_True by done.
      constructor; [by exists number0|done].
Qed.

(** X1. Whatever the text of the page, [extract_table_11b_data] returns
    its rows and raises nothing.  There is one row for every line that
    contains a demographic keyword and at least 16 decimal numbers, in the
    order of the lines, and none for any other line, so that a line with
    fewer numbers adds no row.  The label of a row is what precedes the
    first occurrence of the first number of its line, stripped and without
    its dots, so that no label contains a dot; its sixteen figures are the
    floats of the first 16 numbers of the line. *)
Theorem table_11b_rows (doc : Fitz.document) (page_num : Z) (text : string) :
  1 ≤ page_num →
  doc !! Z.to_nat (page_num - 1) = Some text →
  ∃ rows,
    extract_table_11b_data doc page_num = Ok rows
    ∧ Forall2 (λ line row,
                 ∃ number0,
                   head (findall decimal line) = Some number0
                   ∧ demographic_11b row
                     = remove_dots (Str.strip (Str.before_first number0 line))
                   ∧ Forall2 (λ s f, Builtins.float_of_str s = Ok f)
                       (take 16 (findall decimal line)) (figures_11b row))
        (filter (λ line, has_keyword_11b line = true
                         ∧ (16 ≤ length (findall decimal line))%nat)
           (Str.split_lines text))
        rows
    ∧ Forall (λ row, Str.contains "." (demographic_11b row) = false) rows.
Proof.
  intros Hpage Htext.
  destruct (collect_rows_of_lines_11b (Str.split_lines text)) as (rows & Hrows & Hrest).
  exists rows. split; [|split; [done|]].
  - unfold extract_table_11b_data, table_11b_of_text.
    pose proof (getitem_page doc _ text Htext) as Hg.
    rewrite Z2Nat.id in Hg by lia. by rewrite Hg.
  - clear Hrows. induction Hrest as [|line row lines rows (number0 & _ & Hlabel & _) _ IH];
      constructor; [rewrite Hlabel; apply remove_dots_no_dot|done].
Qed.

Lemma getitem_raises (doc : Fitz.document) i e :
  Fitz.getitem doc i = Raise e → e = IndexError.
Proof.
  unfold Fitz.getitem. destruct (_ && _); [|by intros [= <-]].
  destruct (doc !! _); [done|by intros [= <-]].
Qed.

Lemma getitem_beyond (doc : Fitz.document) i :
  Z.of_nat (length doc) ≤ i → Fitz.getitem doc i = Raise IndexError.
Proof.
  intros Hi. unfold Fitz.getitem.
  by replace (i <? Z.of_nat (length doc)) with false by (symmetry; apply Z.ltb_ge; lia).
Qed.

Lemma extract_key_statistics_raises (doc : Fitz.document) e :
  extract_key_statistics doc = Raise e → e = IndexError ∨ e = ValueError.
Proof.
  unfold extract_key_statistics.
  destruct (Fitz.getitem doc 1) as [text|e'] eqn:Hg; simpl.
  - rewrite key_statistics_of_text_eq. destruct (_ || _); [|done].
    intros [= <-]. by right.
  - intros [= <-]. left. by eapply getitem_raises.
Qed.

Lemma extract_table_11a_data_raises (doc : Fitz.document) page_num e :
  extract_table_11a_data doc page_num = Raise e → e = IndexError.
Proof.
  unfold extract_table_11a_data, table_11a_of_text.
  destruct (Fitz.getitem doc (page_num - 1)) as [text|e'] eqn:Hg; simpl.
  - by destruct (collect_rows_of_lines (Str.split_lines text)) as (? & -> & _).
  - intros [= <-]. by eapply getitem_raises.
Qed.

Lemma csv_paths_app t t' : csv_paths (t ++ t') = csv_paths t ++ csv_paths t'.
Proof. apply omap_app. Qed.

Lemma for_each_print {A} (l : list A) (line : A → string) :
  for_each l (λ x, print (line x)) = ((λ x, EPrint (line x)) <$> l, Ok tt).
Proof.
  induction l as [|x l IH]; [done|]. cbn [for_each]. rewrite IH. reflexivity.
Qed.

Lemma csv_paths_prints {A} (l : list A) (line : A → string) :
  csv_paths ((λ x, EPrint (line x)) <$> l) = [].
Proof. induction l as [|x l IH]; [done|]. by rewrite fmap_cons. Qed.

Lemma to_csv_in (dir path : string) (rows : list (gmap string pyval)) :
  Path.parent path = dir → dir ≠ "." →
  to_csv path rows = if is_dir dir then emit (EToCsv path rows) else raise OSError.
Proof.
  intros Hparent Hdir. unfold to_csv. rewrite Hparent.
  by destruct (String.eqb_spec dir ".").
Qed.

Lemma is_dir_mkdir dir : @is_dir (Path.mkdir dir disk) dir = true.
Proof. simpl. by rewrite String.eqb_refl. Qed.

(** In the directory [data], [save_and_report] writes the key statistics
    first, then the tables that have rows, and returns. *)
Lemma save_and_report_files key_stats table_11a_df table_11b_df :
  is_dir "data" = true →
  ∃ t,
    save_and_report key_stats table_11a_df table_11b_df
    = (EToCsv "data/key_statistics.csv" [key_stats] :: t, Ok tt)
    ∧ csv_paths t
      = (if bool_decide (table_11a_df = []) then []
         else ["data/leisure_by_demographics.csv"; "data/leisure_analysis.csv"])
        ++ (if bool_decide (table_11b_df = []) then []
            else ["data/leisure_by_day_type.csv"]).
Proof.
  intros Hdir. unfold save_and_report. rewrite for_each_print.
  rewrite !(to_csv_in "data") by done. rewrite Hdir.
  pose proof (λ l, csv_paths_prints (A := leisure_row) l) as Hprints.
  do 2 case_bool_decide; simpl; eexists; (split; [reflexivity|]);
    unfold csv_paths in *; simpl; rewrite ?omap_app, ?Hprints; try done.
Qed.

(** Without the directory [data] the first write raises [OSError]. *)
Lemma save_and_report_no_directory key_stats table_11a_df table_11b_df :
  is_dir "data" = false →
  save_and_report key_stats table_11a_df table_11b_df = ([], Raise OSError).
Proof.
  intros Hdir. unfold save_and_report.
  rewrite !(to_csv_in "data") by done. by rewrite Hdir.
Qed.

(** How [process_and_save_data] ends: it has raised [TypeError] at once,
    when the product by 60 of an hour field does not exist, or it has gone
    on to the files and the report. *)
Lemma process_and_save_data_cases (key_stats : gmap string pyval)
    (table_11a_df : list leisure_row) (table_11b_df : list (gmap string pyval)) :
  ((∃ k v, (k = "tv_hours" ∨ k = "total_leisure_hours")
           ∧ key_stats !! k = Some v ∧ Builtins.mul_int v 60 = Raise TypeError)
   ∧ ∃ after,
       process_and_save_data key_stats table_11a_df table_11b_df
       = (after, ([], Raise TypeError)))
  ∨ (¬ (∃ k v, (k = "tv_hours" ∨ k = "total_leisure_hours")
               ∧ key_stats !! k = Some v ∧ Builtins.mul_int v 60 = Raise TypeError)
     ∧ ∃ after,
         process_and_save_data key_stats table_11a_df table_11b_df
         = (after, save_and_report after table_11a_df table_11b_df)).
Proof.
  assert (∀ v e, Builtins.mul_int v 60 = Raise e → e = TypeError) as Hmul.
  { intros [] e; simpl; congruence. }
  unfold process_and_save_data.
  destruct (add_minutes_cases "tv_hours" "tv_minutes" key_stats)
    as [(Hv1 & ->)|[(v1 & m1 & Hv1 & Hm1 & ->)|(v1 & e1 & Hv1 & Hm1 & ->)]].
  3: { left. pose proof (Hmul _ _ Hm1) as ->. split; [|by eexists].
       exists "tv_hours", v1. split; [by left|done]. }
  all: match goal with
       | |- context [add_minutes "total_leisure_hours" _ ?ks] =>
           destruct (add_minutes_cases "total_leisure_hours" "total_leisure_minutes" ks)
             as [(Hv2 & ->)|[(v2 & m2 & Hv2 & Hm2 & ->)|(v2 & e2 & Hv2 & Hm2 & ->)]]
       end;
    rewrite ?lookup_insert_ne in Hv2 by done.
  3, 6: left; pose proof (Hmul _ _ Hm2) as ->; (split; [|by eexists]);
    exists "total_leisure_hours", v2; (split; [by right|done]).
  all: right; (split; [|by eexists]);
    intros (k & v & [-> | ->] & Hv & Hm); congruence.
Qed.

Lemma process_float_hours key_stats table_11a_df table_11b_df :
  float_hours key_stats →
  is_dir "data" = true →
  ∃ after t,
    process_and_save_data key_stats table_11a_df table_11b_df
    = (after, (EToCsv "data/key_statistics.csv" [after] :: t, Ok tt)).
Proof.
  intros Hfloat Hdir.
  destruct (process_and_save_data_cases key_stats table_11a_df table_11b_df)
    as [[(k & v & Hk & Hv & Hm) _]|[_ (after & ->)]].
  - destruct (Hfloat k v Hk Hv) as [f ->]. discriminate Hm.
  - destruct (save_and_report_files after table_11a_df table_11b_df Hdir)
      as (t & -> & _). by exists after, t.
Qed.

(** X2. When the product by 60 of an hour field does not exist,
    [process_and_save_data] raises [TypeError] and has written and printed
    nothing.  Otherwise, if the directory [data] does not exist the first
    write raises [OSError] and nothing has been written or printed; and if
    it exists the call returns, having written [data/key_statistics.csv]
    first, with the updated dictionary as its only row, then the two files
    of Table 11A if that table has rows and the file of Table 11B if that
    one has. *)
Theorem process_and_save_data_files (key_stats : gmap string pyval)
    (table_11a_df : list leisure_row) (table_11b_df : list (gmap string pyval)) :
  let after := (process_and_save_data key_stats table_11a_df table_11b_df).1 in
  let trace := (process_and_save_data key_stats table_11a_df table_11b_df).2.1 in
  let outcome := (process_and_save_data key_stats table_11a_df table_11b_df).2.2 in
  let no_product :=
    ∃ k v, (k = "tv_hours" ∨ k = "total_leisure_hours")
           ∧ key_stats !! k = Some v ∧ Builtins.mul_int v 60 = Raise TypeError in
  (no_product ∨ is_dir "data" = false ↔ trace = [])
  ∧ (no_product ↔ outcome = Raise TypeError)
  ∧ (¬ no_product ∧ is_dir "data" = false ↔ outcome = Raise OSError)
  ∧ (¬ no_product ∧ is_dir "data" = true ↔ outcome = Ok tt)
  ∧ (outcome = Ok tt →
     ∃ t, trace = EToCsv "data/key_statistics.csv" [after] :: t
          ∧ csv_paths t
            = (if bool_decide (table_11a_df = []) then []
               else ["data/leisure_by_demographics.csv"; "data/leisure_analysis.csv"])
              ++ (if bool_decide (table_11b_df = []) then []
                  else ["data/leisure_by_day_type.csv"])).
Proof.
  destruct (process_and_save_data_cases key_stats table_11a_df table_11b_df)
    as [[Hbad (after & ->)]|[Hgood (after & ->)]]; cbn [fst snd].
  { repeat split; try done; try tauto; try (by intros [? ?]); by eauto. }
  destruct (is_dir "data") eqn:Hdir.
  - destruct (save_and_report_files after table_11a_df table_11b_df Hdir)
      as (t & -> & Ht). cbn [fst snd].
    repeat split; try done; try tauto; try (by intros [? ?]);
      try (by intros [?|?]); by eauto.
  - rewrite (save_and_report_no_directory after table_11a_df table_11b_df Hdir).
    cbn [fst snd].
    repeat split; try done; try tauto; try (by intros [? ?]); by eauto.
Qed.

(** X3. Running [process_and_save_data] on a dictionary it has already
    processed leaves the dictionary as it is, whatever the tables and
    however the calls end. *)
Theorem process_and_save_data_idempotent (key_stats : gmap string pyval)
    (table_11a_df table_11a_df' : list leisure_row)
    (table_11b_df table_11b_df' : list (gmap string pyval)) :
  let after := (process_and_save_data key_stats table_11a_df table_11b_df).1 in
  (process_and_save_data after table_11a_df' table_11b_df').1 = after.
Proof.
  assert (∀ hours minutes (ks : gmap string pyval) (v m : pyval),
            hours ≠ minutes → ks !! hours = Some v → Builtins.mul_int v 60 = Ok m →
            add_minutes hours minutes (<[minutes := m]> ks)
            = (<[minutes := m]> ks, Ok tt)) as Hagain.
  { intros hours minutes ks v m Hne Hv Hm. unfold add_minutes.
    rewrite lookup_insert_ne by done. rewrite bool_decide_eq_true_2 by eauto.
    simpl. rewrite lookup_insert_ne by done. rewrite Hv. simpl. rewrite Hm.
    by rewrite insert_insert_eq. }
  assert (∀ hours minutes (ks : gmap string pyval) (v : pyval) e,
            ks !! hours = Some v → Builtins.mul_int v 60 = Raise e →
            add_minutes hours minutes ks = (ks, Raise e)) as Hraise.
  { intros hours minutes ks v e Hv Hm. unfold add_minutes.
    rewrite bool_decide_eq_true_2 by eauto. simpl. by rewrite Hv; simpl; rewrite Hm. }
  assert (∀ hours minutes (ks : gmap string pyval),
            ks !! hours = None → add_minutes hours minutes ks = (ks, Ok tt)) as Hnone.
  { intros hours minutes ks Hv. unfold add_minutes.
    by rewrite bool_decide_eq_false_2 by (rewrite Hv; by intros [? ?]). }
  unfold process_and_save_data.
  destruct (add_minutes_cases "tv_hours" "tv_minutes" key_stats)
    as [(Hv1 & ->)|[(v1 & m1 & Hv1 & Hm1 & ->)|(v1 & e1 & Hv1 & Hm1 & ->)]].
  3: { cbn [fst]. by rewrite (Hraise _ _ _ _ _ Hv1 Hm1). }
  all: match goal with
       | |- context [add_minutes "total_leisure_hours" _ ?ks] =>
           destruct (add_minutes_cases "total_leisure_hours" "total_leisure_minutes" ks)
             as [(Hv2 & ->)|[(v2 & m2 & Hv2 & Hm2 & ->)|(v2 & e2 & Hv2 & Hm2 & ->)]]
       end; cbn [fst].
  - by rewrite (Hnone _ _ _ Hv1), (Hnone _ _ _ Hv2).
  - rewrite (Hnone "tv_hours" "tv_minutes" (<["total_leisure_minutes" := m2]> key_stats))
      by (rewrite lookup_insert_ne by done; exact Hv1).
    by rewrite (Hagain "total_leisure_hours" "total_leisure_minutes" _ _ _ ltac:(done) Hv2 Hm2).
  - by rewrite (Hnone _ _ _ Hv1), (Hraise _ _ _ _ _ Hv2 Hm2).
  - rewrite (Hagain "tv_hours" "tv_minutes" _ _ _ ltac:(done) Hv1 Hm1).
    by rewrite (Hnone _ _ _ Hv2).
  - rewrite lookup_insert_ne in Hv2 by done.
    rewrite (insert_insert_ne key_stats "total_leisure_minutes" "tv_minutes") by done.
    rewrite (Hagain "tv_hours" "tv_minutes" _ v1 m1)
      by (done || by rewrite lookup_insert_ne).
    rewrite (insert_insert_ne _ "tv_minutes" "total_leisure_minutes") by done.
    by rewrite (Hagain "total_leisure_hours" "total_leisure_minutes" _ v2 m2)
      by (done || by rewrite lookup_insert_ne).
  - rewrite (Hagain "tv_hours" "tv_minutes" _ _ _ ltac:(done) Hv1 Hm1).
    by rewrite (Hraise _ _ _ _ _ Hv2 Hm2).
Qed.

(** X4. When Table 11A has rows and the directory [data] exists, as it
    does when [main] makes the call, the rows written to
    [data/leisure_analysis.csv] are those written to
    [data/leisure_by_demographics.csv], one for one and in order, each with
    its columns unchanged and the three columns of percentages added. *)
Theorem analysis_extends_demographics (key_stats : gmap string pyval)
    (table_11a_df : list leisure_row) (table_11b_df : list (gmap string pyval)) :
  table_11a_df ≠ [] →
  is_dir "data" = true →
  ∃ raw enhanced,
    EToCsv "data/leisure_by_demographics.csv" raw
      ∈ (save_and_report key_stats table_11a_df table_11b_df).1
    ∧ EToCsv "data/leisure_analysis.csv" enhanced
        ∈ (save_and_report key_stats table_11a_df table_11b_df).1
    ∧ Forall2 (λ r e : gmap string pyval,
                 r ⊆ e
                 ∧ dom e = dom r ∪ {[ "gaming_pct_of_leisure"; "tv_pct_of_leisure";
                                       "socializing_pct_of_leisure" ]})
        raw enhanced.
Proof.
  intros Hrows Hdir.
  exists (row_dict <$> table_11a_df), (analysis_dict <$> table_11a_df).
  assert (∃ t, (save_and_report key_stats table_11a_df table_11b_df).1
               = EToCsv "data/key_statistics.csv" [key_stats]
                 :: EToCsv "data/leisure_by_demographics.csv" (row_dict <$> table_11a_df)
                 :: EToCsv "data/leisure_analysis.csv" (analysis_dict <$> table_11a_df)
                 :: t) as [t ->].
  { unfold save_and_report. rewrite for_each_print.
    rewrite !(to_csv_in "data") by done. rewrite Hdir.
    rewrite !(bool_decide_eq_false_2 (table_11a_df = [])) by done.
    case_bool_decide; simpl; by eexists. }
  split; [|split].
  - apply elem_of_cons. right. apply elem_of_cons. by left.
  - do 2 (apply elem_of_cons; right). apply elem_of_cons. by left.
  - apply Forall2_fmap, Forall_Forall2_diag, Forall_forall. intros r _.
    unfold analysis_dict. split.
    + etrans; [|apply insert_subseteq; by simplify_map_eq].
      etrans; [|apply insert_subseteq; by simplify_map_eq].
      apply insert_subseteq. by simplify_map_eq.
    + rewrite !dom_insert_L. set_solver.
Qed.

End ExtractFinalMainFacts.

(** [main] makes the directory [data] before it extracts and writes. *)

Section ExtractFinalMainScript.
Context `{Runtime} {disk : FileSystem}.
Import Regex RegexFacts ExtractFinal KeyStatistics ExtractFinalMain.

(** The last lines of [main]. *)
Lemma main_eq (doc : Fitz.document) :
  main doc
  = match extract_key_statistics doc with
    | Raise e => ([EPrint "Extracting key statistics from ATUS 2024..."], Raise e)
    | Ok key_stats =>
        match extract_table_11a_data doc 23 with
        | Raise e =>
            ([EPrint "Extracting key statistics from ATUS 2024...";
              EPrint "Extracting demographic breakdowns (Table 11A)..."], Raise e)
        | Ok table_11a_df =>
            match extract_table_11b_data doc 24 with
            | Raise e =>
                ([EPrint "Extracting key statistics from ATUS 2024...";
                  EPrint "Extracting demographic breakdowns (Table 11A)...";
                  EPrint "Extracting weekday/weekend breakdowns (Table 11B)..."],
                 Raise e)
            | Ok table_11b_df =>
                match (process_and_save_data (disk := Path.mkdir "data" disk)
                         key_stats table_11a_df
                         (day_type_dict <$> table_11b_df)).2 with
                | (t, Raise e) =>
                    ([EPrint "Extracting key statistics from ATUS 2024...";
                      EPrint "Extracting demographic breakdowns (Table 11A)...";
                      EPrint "Extracting weekday/weekend breakdowns (Table 11B)...";
                      EPrint "Processing and saving data..."] ++ t, Raise e)
                | (t, Ok _) =>
                    ([EPrint "Extracting key statistics from ATUS 2024...";
                      EPrint "Extracting demographic breakdowns (Table 11A)...";
                      EPrint "Extracting weekday/weekend breakdowns (Table 11B)...";
                      EPrint "Processing and saving data..."] ++ t ++ files_created,
                     Ok tt)
                end
            end
        end
    end.
Proof.
  unfold main, files_created, print, emit, lift. cbn [mbind Py_bind].
  destruct (extract_key_statistics doc) as [key_stats|e]; [|done].
  destruct (extract_table_11a_data doc 23) as [table_11a_df|e]; [|done].
  destruct (extract_table_11b_data doc 24) as [table_11b_df|e]; [|done].
  destruct (process_and_save_data _ _ _).2 as [t [[]|e]]; reflexivity.
Qed.

Lemma extract_table_11b_data_page (doc : Fitz.document) page_num :
  1 ≤ page_num < Z.of_nat (length doc) + 1 →
  ∃ rows, extract_table_11b_data doc page_num = Ok rows.
Proof.
  intros Hp.
  destruct (lookup_lt_is_Some_2 doc (Z.to_nat (page_num - 1)) ltac:(lia)) as [text Ht].
  pose proof (getitem_page doc _ text Ht) as Hg. rewrite Z2Nat.id in Hg by lia.
  unfold extract_table_11b_data, table_11b_of_text. rewrite Hg. simpl.
  destruct (collect_rows_of_lines_11b (Str.split_lines text)) as (rows & -> & _).
  by exists rows.
Qed.

Lemma extract_table_11a_data_page (doc : Fitz.document) page_num :
  1 ≤ page_num < Z.of_nat (length doc) + 1 →
  ∃ rows, extract_table_11a_data doc page_num = Ok rows.
Proof.
  intros Hp.
  destruct (lookup_lt_is_Some_2 doc (Z.to_nat (page_num - 1)) ltac:(lia)) as [text Ht].
  pose proof (getitem_page doc _ text Ht) as Hg. rewrite Z2Nat.id in Hg by lia.
  unfold extract_table_11a_data, table_11a_of_text. rewrite Hg. simpl.
  destruct (collect_rows_of_lines (Str.split_lines text)) as (rows & -> & _).
  by exists rows.
Qed.

Lemma expected_float_hours text : float_hours (expected text).
Proof.
  intros k v Hk Hv. apply (expected_float text k v); [|done].
  unfold hour_keys. destruct Hk as [-> | ->]; set_solver.
Qed.

(** X5. On a document of fewer than 24 pages [main] ends with an
    exception, [IndexError] or the [ValueError] of the key statistics, and
    has written no file. *)
Theorem main_short_document (doc : Fitz.document) :
  (length doc < 24)%nat →
  ∃ e, (main doc).2 = Raise e
       ∧ (e = IndexError ∨ e = ValueError)
       ∧ csv_paths (main doc).1 = [].
Proof.
  intros Hlen. rewrite main_eq.
  destruct (extract_key_statistics doc) as [key_stats|e] eqn:Hk.
  2: { exists e. split; [done|]. split; [|done]. by eapply extract_key_statistics_raises. }
  destruct (extract_table_11a_data doc 23) as [table_11a_df|e] eqn:Ha.
  2: { exists e. split; [done|]. split; [|done]. left.
       by eapply extract_table_11a_data_raises. }
  unfold extract_table_11b_data.
  rewrite (getitem_beyond doc (24 - 1)) by lia. simpl.
  exists IndexError. by eauto.
Qed.

(** X6. [main] returns exactly when the document has at least 24 pages
    and neither number of minutes on its page 2 is too long for [int]. *)
Theorem main_returns_iff (doc : Fitz.document) :
  (main doc).2 = Ok tt
  ↔ (24 ≤ length doc)%nat
    ∧ ∀ text, doc !! 1%nat = Some text →
              oversized gaming_pattern 1 text || oversized social_pattern 1 text = false.
Proof.
  split.
  - intros Hret.
    rewrite main_eq in Hret. split.
    + destruct (extract_key_statistics doc); [|done].
      destruct (extract_table_11a_data doc 23); [|done].
      destruct (decide (length doc < 24)%nat) as [Hlen|Hlen]; [|lia].
      unfold extract_table_11b_data in Hret.
      by rewrite (getitem_beyond doc (24 - 1)) in Hret by lia.
    + intros text Ht. rewrite (extract_key_statistics_eq doc text Ht) in Hret.
      by destruct (_ || _).
  - intros [Hlen Hsize].
    destruct (lookup_lt_is_Some_2 doc 1 ltac:(lia)) as [text Ht].
    rewrite main_eq, (extract_key_statistics_eq doc text Ht), (Hsize text Ht).
    destruct (extract_table_11a_data_page doc 23 ltac:(lia)) as [rows_a ->].
    destruct (extract_table_11b_data_page doc 24 ltac:(lia)) as [rows_b ->].
    destruct (process_float_hours (disk := Path.mkdir "data" disk)
                (expected text) rows_a (day_type_dict <$> rows_b)
                (expected_float_hours text) (is_dir_mkdir (disk := disk) "data"))
      as (after & t & ->).
    reflexivity.
Qed.

(** X7. When [main] returns it has written [data/key_statistics.csv],
    the two files of Table 11A only if page 23 gave rows and the file of
    Table 11B only if page 24 gave rows; its last lines announce all four
    files whichever were written. *)
Theorem main_files_created (doc : Fitz.document) :
  (main doc).2 = Ok tt →
  ∃ table_11a_df table_11b_df t,
    extract_table_11a_data doc 23 = Ok table_11a_df
    ∧ extract_table_11b_data doc 24 = Ok table_11b_df
    ∧ (main doc).1 = t ++ files_created
    ∧ csv_paths t
      = ["data/key_statistics.csv"]
        ++ (if bool_decide (table_11a_df = []) then []
            else ["data/leisure_by_demographics.csv"; "data/leisure_analysis.csv"])
        ++ (if bool_decide (table_11b_df = []) then []
            else ["data/leisure_by_day_type.csv"]).
Proof.
  rewrite main_eq.
  destruct (extract_key_statistics doc) as [key_stats|e]; [|done].
  destruct (extract_table_11a_data doc 23) as [table_11a_df|e]; [|done].
  destruct (extract_table_11b_data doc 24) as [table_11b_df|e]; [|done].
  destruct (process_and_save_data_cases (disk := Path.mkdir "data" disk)
              key_stats table_11a_df (day_type_dict <$> table_11b_df))
    as [[_ (after & ->)]|[_ (after & ->)]]; [done|].
  destruct (save_and_report_files (disk := Path.mkdir "data" disk)
              after table_11a_df (day_type_dict <$> table_11b_df)
              (is_dir_mkdir (disk := disk) "data"))
    as (t & -> & Hpaths).
  cbn [snd fst]. intros _. exists table_11a_df, table_11b_df.
  exists ([EPrint "Extracting key statistics from ATUS 2024...";
           EPrint "Extracting demographic breakdowns (Table 11A)...";
           EPrint "Extracting weekday/weekend breakdowns (Table 11B)...";
           EPrint "Processing and saving data..."]
          ++ EToCsv "data/key_statistics.csv" [after] :: t).
  split; [reflexivity|]. split; [reflexivity|].
  split; [by rewrite <- List.app_assoc|].
  rewrite csv_paths_app.
  change (csv_paths (EToCsv "data/key_statistics.csv" [after] :: t))
    with ("data/key_statistics.csv" :: csv_paths t).
  rewrite Hpaths. cbn [app]. f_equal. f_equal.
  by destruct table_11b_df.
Qed.

End ExtractFinalMainScript.

(** The theorems on the report of 24 pages, on a disk without the
    directory [data]. *)
Lemma table_11b_rows_sample :
  ∃ rows,
    ExtractFinalMain.extract_table_11b_data (H := Sample.runtime) SampleReport.full 24
    = Ok rows
    ∧ Forall2 (λ line row,
                 ∃ number0,
                   head (Regex.findall Regex.decimal line) = Some number0
                   ∧ ExtractFinalMain.demographic_11b row
                     = ExtractFinalMain.remove_dots
                         (Str.strip (Str.before_first number0 line))
                   ∧ Forall2 (λ s f, Builtins.float_of_str (H := Sample.runtime) s = Ok f)
                       (take 16 (Regex.findall Regex.decimal line))
                       (ExtractFinalMain.figures_11b row))
        (filter (λ line, ExtractFinalMain.has_keyword_11b line = true
                         ∧ (16 ≤ length (Regex.findall Regex.decimal line))%nat)
           (Str.split_lines SampleReport.day_types))
        rows
    ∧ Forall (λ row, Str.contains "." (ExtractFinalMain.demographic_11b row) = false) rows.
Proof.
  apply (table_11b_rows (H := Sample.runtime) SampleReport.full 24 SampleReport.day_types);
    [lia|reflexivity].
Defined.

(** The line of the sample page gives one row. *)
Example sample_day_types :
  (λ row, (ExtractFinalMain.demographic_11b row, ExtractFinalMain.figures_11b row))
    <$> default [] (match ExtractFinalMain.extract_table_11b_data (H := Sample.runtime)
                            SampleReport.full 24 with
                    | Ok rows => Some rows
                    | Raise _ => None
                    end)
  = [ ("Men ", [5.1; 6.5; 0.4; 0.5; 0.6; 1.1; 2.8; 3.3;
                0.2; 0.3; 0.4; 0.5; 0.6; 0.8; 0.1; 0.2]%float) ].
Proof. vm_compute. reflexivity. Qed.

Lemma main_files_created_sample :
  ∃ table_11a_df table_11b_df t,
    ExtractFinal.extract_table_11a_data (H := Sample.runtime) SampleReport.full 23
    = Ok table_11a_df
    ∧ ExtractFinalMain.extract_table_11b_data (H := Sample.runtime) SampleReport.full 24
      = Ok table_11b_df
    ∧ (ExtractFinalMain.main (H := Sample.runtime) (disk := SampleDisk.bare)
         SampleReport.full).1
      = t ++ ExtractFinalMain.files_created
    ∧ csv_paths t
      = ["data/key_statistics.csv"]
        ++ (if bool_decide (table_11a_df = []) then []
            else ["data/leisure_by_demographics.csv"; "data/leisure_analysis.csv"])
        ++ (if bool_decide (table_11b_df = []) then []
            else ["data/leisure_by_day_type.csv"]).
Proof.
  apply (main_files_created (H := Sample.runtime) (disk := SampleDisk.bare)
           SampleReport.full).
  vm_compute. reflexivity.
Defined.

Lemma main_short_document_sample :
  ∃ e, (ExtractFinalMain.main (H := Sample.runtime) (disk := SampleDisk.bare)
          Sample.report).2 = Raise e
       ∧ (e = IndexError ∨ e = ValueError)
       ∧ csv_paths
           (ExtractFinalMain.main (H := Sample.runtime) (disk := SampleDisk.bare)
              Sample.report).1 = [].
Proof.
  apply (main_short_document (H := Sample.runtime) (disk := SampleDisk.bare) Sample.report).
  simpl. lia.
Defined.

(** The script on the sample report of 24 pages writes the four files. *)
Example main_on_sample_report :
  csv_paths
    (ExtractFinalMain.main (H := Sample.runtime) (disk := SampleDisk.bare)
       SampleReport.full).1
  = [ "data/key_statistics.csv"; "data/leisure_by_demographics.csv";
      "data/leisure_analysis.csv"; "data/leisure_by_day_type.csv" ].
Proof. vm_compute. reflexivity. Qed.

(** Called without the directory [data], [process_and_save_data] fails
    at its first write. *)
Example process_and_save_data_no_directory :
  (ExtractFinal.process_and_save_data (H := Sample.runtime) (disk := SampleDisk.bare)
     {[ "tv_hours" := PFloat 2.5 ]} [] []).2
  = ([], Raise OSError).
Proof. vm_compute. reflexivity. Qed.

Lemma analysis_extends_demographics_sample :
  ∃ raw enhanced,
    EToCsv "data/leisure_by_demographics.csv" raw
      ∈ (ExtractFinal.save_and_report (H := Sample.runtime) (disk := SampleDisk.with_data) ∅
           [ {| ExtractFinal.demographic := "Men";
                ExtractFinal.total_leisure := 5.5%float;
                ExtractFinal.sports := 0.25%float;
                ExtractFinal.socializing := 0.5%float;
                ExtractFinal.tv := 2.75%float;
                ExtractFinal.reading := 0.25%float;
                ExtractFinal.relaxing := 0.5%float;
                ExtractFinal.gaming := 0.75%float;
                ExtractFinal.other := 0.5%float |} ] []).1
    ∧ EToCsv "data/leisure_analysis.csv" enhanced
        ∈ (ExtractFinal.save_and_report (H := Sample.runtime) (disk := SampleDisk.with_data) ∅
             [ {| ExtractFinal.demographic := "Men";
                  ExtractFinal.total_leisure := 5.5%float;
                  ExtractFinal.sports := 0.25%float;
                  ExtractFinal.socializing := 0.5%float;
                  ExtractFinal.tv := 2.75%float;
                  ExtractFinal.reading := 0.25%float;
                  ExtractFinal.relaxing := 0.5%float;
                  ExtractFinal.gaming := 0.75%float;
                  ExtractFinal.other := 0.5%float |} ] []).1
    ∧ Forall2 (λ r e : gmap string pyval,
                 r ⊆ e
                 ∧ dom e = dom r ∪ {[ "gaming_pct_of_leisure"; "tv_pct_of_leisure";
                                       "socializing_pct_of_leisure" ]})
        raw enhanced.
Proof.
  apply (analysis_extends_demographics (H := Sample.runtime) (disk := SampleDisk.with_data));
    [discriminate|reflexivity].
Defined.

(** ** [scrape_atus.py]: the rows of the table, and the script *)

Section ScrapeAtusMainFacts.
Context `{Runtime} {disk : FileSystem}.
Import Regex RegexFacts ScrapeAtus ScrapeAtusMain.

Lemma digits_value_from_nonneg acc s :
  0 ≤ acc → Str.all Str.is_digit s = true → 0 ≤ Str.digits_value_from acc s.
Proof.
  revert acc; induction s as [|c s IH]; intros acc Hacc Hs; simpl in *; [done|].
  apply andb_prop in Hs as [Hc Hs]. apply IH; [|done].
  unfold Str.is_digit in Hc. apply andb_prop in Hc as [Hc _]. apply Nat.leb_le in Hc.
  unfold Str.digit_value. lia.
Qed.

Lemma rstrip_rstrip s : Str.rstrip (Str.rstrip s) = Str.rstrip s.
Proof.
  induction s as [|c s IH]; simpl; [done|].
  destruct (Str.is_space c) eqn:Hc; simpl.
  - destruct (Str.rstrip s) as [|c' r] eqn:Hr; simpl; [done|].
    simpl in IH. rewrite Hc. simpl. rewrite IH. by destruct (_ && _).
  - rewrite Hc, IH. done.
Qed.

Lemma lstrip_head s :
  Str.lstrip s = "" ∨ ∃ c s', Str.lstrip s = String c s' ∧ Str.is_space c = false.
Proof.
  induction s as [|c s IH]; simpl; [by left|].
  destruct (Str.is_space c) eqn:Hc; [done|]. right. by exists c, s.
Qed.

Lemma strip_strip s : Str.strip (Str.strip s) = Str.strip s.
Proof.
  unfold Str.strip. destruct (lstrip_head s) as [->|(c & s' & -> & Hc)]; [done|].
  cbn [Str.lstrip Str.rstrip]. rewrite Hc. cbn [andb Str.lstrip]. rewrite Hc.
  cbn [Str.rstrip]. rewrite Hc. cbn [andb]. by rewrite rstrip_rstrip.
Qed.

(** A row that a line yields has a category that is not empty and has no
    space at either end, and its hours and minutes are not negative. *)
Lemma rows_of_line_shape line :
  match rows_of_line line with
  | Ok rows =>
      Forall (λ r, category r ≠ "" ∧ Str.strip (category r) = category r
                   ∧ 0 ≤ hours r ∧ 0 ≤ minutes r) rows
  | Raise _ => True
  end.
Proof.
  unfold rows_of_line.
  destruct (Str.is_empty (Str.strip line)); [by constructor|].
  destruct (search time_pattern (Str.strip line)) as [m|] eqn:Hs; [|by constructor].
  destruct (int_of_group_digits _ _ _ 1%nat Hs eq_refl) as (w1 & _ & Hw1 & ->).
  destruct (Builtins.exceeds_limit w1); [done|]. simpl.
  destruct (int_of_group_digits _ _ _ 2%nat Hs eq_refl) as (w2 & _ & Hw2 & ->).
  destruct (Builtins.exceeds_limit w2); [done|]. simpl.
  destruct (Str.is_empty (Str.strip _)) eqn:Hc; simpl; [by constructor|].
  constructor; [|constructor]. simpl.
  apply matches_digits in Hw1, Hw2. unfold Str.digit_string in Hw1, Hw2.
  apply andb_prop in Hw1 as [_ Hw1]. apply andb_prop in Hw2 as [_ Hw2].
  split; [by intros Heq; rewrite Heq in Hc|]. split; [by apply strip_strip|].
  split; by apply digits_value_from_nonneg.
Qed.

Lemma collect_rows_shape lines :
  match collect rows_of_line lines with
  | Ok data =>
      Forall (λ r, category r ≠ "" ∧ Str.strip (category r) = category r
                   ∧ 0 ≤ hours r ∧ 0 ≤ minutes r) data
  | Raise _ => True
  end.
Proof.
  induction lines as [|line lines IH]; simpl; [by constructor|].
  pose proof (rows_of_line_shape line) as Hline.
  destruct (rows_of_line line) as [rows|e]; simpl; [|done].
  destruct (collect rows_of_line lines) as [data|e]; simpl; [|done].
  by apply Forall_app.
Qed.

(** X8. In the table that [extract_time_use_data] returns, every
    category is a text that is not empty and has no space at either end,
    and no number of hours or of minutes is negative. *)
Theorem extract_time_use_data_rows (doc : Fitz.document) (df : list time_row) :
  extract_time_use_data doc = Ok df →
  Forall (λ r, category r ≠ "" ∧ Str.strip (category r) = category r
               ∧ 0 ≤ hours r ∧ 0 ≤ minutes r) df.
Proof.
  intros (data & Hdata & Hdf)%extract_time_use_data_Ok.
  pose proof (collect_rows_shape
                (Str.split_lines (foldl (λ all_text page, all_text +:+ page) "" doc)))
    as Hshape.
  rewrite Hdata in Hshape. rewrite Hdf.
  eapply Forall_sublist_of; [apply drop_duplicates_from_sublist|].
  by apply positive_rows_Forall.
Qed.

(** X9. Of the rows that the lines of the document give, in order, the
    table keeps exactly those with a positive total that are the first of
    their category among the rows with a positive total. *)
Theorem extract_time_use_data_keeps_first (doc : Fitz.document) (df : list time_row) :
  extract_time_use_data doc = Ok df →
  ∃ data,
    collect rows_of_line
      (Str.split_lines (foldl (λ all_text page, all_text +:+ page) "" doc)) = Ok data
    ∧ ∀ r, r ∈ df
           ↔ ∃ i : nat,
               positive_rows data !! i = Some r
               ∧ ∀ (j : nat) r', (j < i)%nat → positive_rows data !! j = Some r' →
                                 category r' ≠ category r.
Proof.
  intros (data & Hdata & Hdf)%extract_time_use_data_Ok.
  exists data. split; [done|]. intros r. rewrite Hdf.
  unfold drop_duplicates. rewrite elem_of_drop_duplicates_from.
  split; [by intros (i & ? & _ & ?); exists i|].
  intros (i & ? & ?). exists i. split; [done|]. split; [set_solver|done].
Qed.

(** X10. The table is empty exactly when no line of the document gives
    a row with a positive total. *)
Theorem extract_time_use_data_empty_iff (doc : Fitz.document) :
  extract_time_use_data doc = Ok []
  ↔ ∃ data,
      collect rows_of_line
        (Str.split_lines (foldl (λ all_text page, all_text +:+ page) "" doc)) = Ok data
      ∧ Forall (λ r, total_minutes r ≤ 0) data.
Proof.
  split.
  - intros (data & Hdata & Hdf)%extract_time_use_data_Ok.
    exists data. split; [done|].
    apply Permutation_nil_l in Hdf. unfold drop_duplicates in Hdf.
    apply Forall_forall. intros r Hr.
    destruct (decide (0 < total_minutes r)) as [Hpos|]; [|lia].
    assert (r ∈ positive_rows data) as Hin by by apply list_elem_of_filter.
    destruct (positive_rows data) as [|r0 rest]; [by apply elem_of_nil in Hin|].
    simpl in Hdf. by rewrite bool_decide_eq_false_2 in Hdf by set_solver.
  - intros (data & Hdata & Hall). unfold extract_time_use_data. rewrite Hdata. simpl.
    case_bool_decide as Hempty; simpl; [by subst|].
    replace (positive_rows data) with (@nil time_row); [done|].
    symmetry. unfold positive_rows. clear -Hall.
    induction Hall as [|r data Hr _ IH]; [done|]. rewrite filter_cons.
    destruct (decide (0 < total_minutes r)); [lia|done].
Qed.

Lemma csv_paths_cons e (t : list event) :
  csv_paths (e :: t)
  = match e with EToCsv path _ => path :: csv_paths t | _ => csv_paths t end.
Proof. by destruct e. Qed.

(** After the directory of [output_path] is made, the write succeeds. *)
Lemma save_data_mkdir df output_path :
  save_data (disk := Path.mkdir (Path.parent output_path) disk) df output_path
  = ([EToCsv output_path (row_dict <$> df); EPrint ("Data saved to " +:+ output_path)],
     Ok tt).
Proof.
  unfold save_data, to_csv. simpl. by rewrite String.eqb_refl, orb_true_r.
Qed.

(** X11. The script writes at most one file, the one at [output_path],
    and never an empty one: the file holds the rows of the table, each
    with a positive total.  Without the PDF it prints one line and ends. *)
Theorem scrape_script_writes_rows (pdf_path output_path : string)
    (pdf : option Fitz.document) :
  let run := script pdf_path output_path pdf in
  (csv_paths run.1 = [] ∨ csv_paths run.1 = [output_path])
  ∧ (∀ path rows,
       EToCsv path rows ∈ run.1 →
       rows ≠ []
       ∧ ∃ doc df, pdf = Some doc ∧ extract_time_use_data doc = Ok df
                   ∧ rows = row_dict <$> df
                   ∧ Forall (λ r, 0 < total_minutes r) df)
  ∧ (pdf = None → ∃ line, run = ([EPrint line], Ok tt)).
Proof.
  assert (∀ doc,
            script pdf_path output_path (Some doc)
            = match extract_time_use_data doc with
              | Raise e => ([], Raise e)
              | Ok df =>
                  if bool_decide (df = [])
                  then ([EPrint "No time use data found in the PDF"], Ok tt)
                  else ([EToCsv output_path (row_dict <$> df);
                         EPrint ("Data saved to " +:+ output_path);
                         EPrint (String Str.newline "Extracted Time Use Data:");
                         EPrintFrame (row_dict <$> take 10 df)], Ok tt)
              end) as Hscript.
  { intros doc. unfold script.
    destruct (extract_time_use_data doc) as [df|e]; [|done].
    cbn [lift mbind Py_bind app]. case_bool_decide; [done|].
    cbn [negb]. by rewrite save_data_mkdir. }
  destruct pdf as [doc|]; [rewrite Hscript; clear Hscript|unfold script]; simpl.
  2: { split; [by left|]. split; [|by eauto].
       intros path rows Hin. apply list_elem_of_singleton in Hin. done. }
  split; [|split; [|done]].
  - destruct (extract_time_use_data doc) as [df|e]; simpl; [|by left].
    case_bool_decide; simpl; by eauto.
  - intros path rows.
    destruct (extract_time_use_data doc) as [df|e] eqn:Hdf; simpl;
      [|by intros ?%elem_of_nil].
    case_bool_decide as Hempty; simpl.
    { intros Hin. apply list_elem_of_singleton in Hin. done. }
    rewrite !elem_of_cons, elem_of_nil.
    intros [[= -> ->]|[?|[?|[?|[]]]]]; try done.
    split; [by destruct df|]. exists doc, df. split; [done|]. split; [done|].
    split; [done|].
    apply extract_time_use_data_Ok in Hdf as (data & _ & ->).
    eapply Forall_sublist_of; [apply drop_duplicates_from_sublist|].
    apply positive_rows_positive.
Qed.

End ScrapeAtusMainFacts.

(** The theorems on the sample report of times. *)
Lemma extract_time_use_data_rows_sample :
  ∃ df,
    ScrapeAtus.extract_time_use_data (H := Sample.runtime) Sample.times = Ok df
    ∧ Forall (λ r, ScrapeAtus.category r ≠ ""
                   ∧ Str.strip (ScrapeAtus.category r) = ScrapeAtus.category r
                   ∧ 0 ≤ ScrapeAtus.hours r ∧ 0 ≤ ScrapeAtus.minutes r) df.
Proof.
  eexists. split; [vm_compute; reflexivity|].
  apply (extract_time_use_data_rows (H := Sample.runtime) Sample.times).
  vm_compute. reflexivity.
Defined.

Lemma extract_time_use_data_keeps_first_sample :
  ∃ df,
    ScrapeAtus.extract_time_use_data (H := Sample.runtime) Sample.times = Ok df
    ∧ ∃ data,
        collect (ScrapeAtus.rows_of_line (H := Sample.runtime))
          (Str.split_lines
             (foldl (λ all_text page, all_text +:+ page) "" Sample.times)) = Ok data
        ∧ ∀ r, r ∈ df
               ↔ ∃ i : nat,
                   ScrapeAtus.positive_rows data !! i = Some r
                   ∧ ∀ (j : nat) r', (j < i)%nat →
                       ScrapeAtus.positive_rows data !! j = Some r' →
                       ScrapeAtus.category r' ≠ ScrapeAtus.category r.
Proof.
  eexists. split; [vm_compute; reflexivity|].
  apply (extract_time_use_data_keeps_first (H := Sample.runtime) Sample.times).
  vm_compute. reflexivity.
Defined.

(** ** [examine_pdf_structure.py]: pages beyond the document, and the script *)

Section ExaminePdfFacts.
Context `{Runtime}.
Import Regex ExaminePdf.

(** A loop whose rounds only print only prints, and ends. *)
Lemma for_each_prints {A} (l : list A) (body : A → Py unit) :
  (∀ x, ∃ t, body x = (t, Ok tt) ∧ Forall (λ e, ∃ line, e = EPrint line) t) →
  ∃ t, for_each l body = (t, Ok tt) ∧ Forall (λ e, ∃ line, e = EPrint line) t.
Proof.
  intros Hbody. induction l as [|x l (t' & IH & Ht')]; simpl; [by exists []|].
  destruct (Hbody x) as (t & -> & Ht). rewrite IH. simpl.
  exists (t ++ t'). split; [done|]. by apply Forall_app.
Qed.

(** The report of one page number when [re] is bound: nothing for a
    number beyond the document, a report of prints otherwise. *)
Lemma examine_page_round (globals : gset string) (doc : Fitz.document) page_num :
  "re" ∈ globals → 1 ≤ page_num →
  ∃ t,
    examine_page_with_data globals doc [page_num] = (t, Ok tt)
    ∧ Forall (λ e, ∃ line, e = EPrint line) t
    ∧ (t = [] ↔ Z.of_nat (length doc) < page_num).
Proof.
  intros Hre Hpage. unfold examine_page_with_data. cbn [for_each].
  destruct (page_num <=? Z.of_nat (length doc)) eqn:Hle.
  2: { apply Z.leb_gt in Hle. exists []. by repeat split. }
  apply Z.leb_le in Hle.
  destruct (doc !! Z.to_nat (page_num - 1)) as [text|] eqn:Htext.
  2: { apply lookup_ge_None in Htext. lia. }
  pose proof (getitem_page doc _ text Htext) as Hg. rewrite Z2Nat.id in Hg by lia.
  rewrite Hg. unfold lift. cbn [mbind Py_bind].
  edestruct (for_each_prints (Str.split_lines text)
               (λ line, load_global globals "re";;
                        if bool_decide (is_Some (search hhmm_pattern line))
                        then print ("  > " +:+ Str.strip line) else mret tt))
    as (t1 & -> & Ht1).
  { intros line. unfold load_global. rewrite (bool_decide_eq_true_2 ("re" ∈ globals) Hre).
    case_bool_decide; simpl; eexists; (split; [done|]); repeat constructor; by eauto. }
  edestruct (for_each_prints (Str.split_lines text)
               (λ line, if existsb (λ word, Str.contains word (Str.lower line)) words
                        then print ("  > " +:+ Str.strip line) else mret tt))
    as (t2 & -> & Ht2).
  { intros line. destruct (existsb _ _); simpl; eexists; (split; [done|]);
      repeat constructor; by eauto. }
  simpl. eexists. split; [done|]. split.
  - repeat first [ assumption | apply Forall_nil_2
                   | apply Forall_cons_2; [by eauto|] | apply Forall_app_2 ].
  - split; [done|lia].
Qed.

Lemma for_each_cons_one {A} (x : A) (l : list A) (body : A → Py unit) :
  for_each (x :: l) body = (for_each [x] body;; for_each l body).
Proof.
  cbn [for_each]. destruct (body x) as [t [[]|e]]; cbn [mbind Py_bind mret Py_ret].
  - rewrite List.app_nil_r. reflexivity.
  - reflexivity.
Qed.

Lemma examine_page_with_data_cons (globals : gset string) (doc : Fitz.document)
    page_num page_numbers :
  examine_page_with_data globals doc (page_num :: page_numbers)
  = (examine_page_with_data globals doc [page_num];;
     examine_page_with_data globals doc page_numbers).
Proof. unfold examine_page_with_data. apply for_each_cons_one. Qed.

(** X12. Page numbers beyond the last page are skipped in silence: with
    no other page number the call prints nothing and returns, even in a
    module that has not bound [re]. *)
Theorem examine_page_with_data_skips (globals : gset string) (doc : Fitz.document)
    (page_numbers : list Z) :
  Forall (λ q, Z.of_nat (length doc) < q) page_numbers →
  examine_page_with_data globals doc page_numbers = ([], Ok tt).
Proof.
  intros Hall. unfold examine_page_with_data.
  induction Hall as [|q page_numbers Hq _ IH]; [done|]. cbn [for_each].
  replace (q <=? Z.of_nat (length doc)) with false by (symmetry; apply Z.leb_gt; lia).
  by rewrite IH.
Qed.

(** X13. Where [re] is bound, as in the script, the call returns for
    every list of page numbers from 1 on; all it does is print, and it
    prints nothing exactly when every page number is beyond the last page. *)
Theorem examine_page_with_data_returns (globals : gset string) (doc : Fitz.document)
    (page_numbers : list Z) :
  "re" ∈ globals →
  Forall (λ q, 1 ≤ q) page_numbers →
  ∃ trace,
    examine_page_with_data globals doc page_numbers = (trace, Ok tt)
    ∧ Forall (λ e, ∃ line, e = EPrint line) trace
    ∧ (trace = [] ↔ Forall (λ q, Z.of_nat (length doc) < q) page_numbers).
Proof.
  intros Hre Hall. induction Hall as [|q page_numbers Hq _ (t' & IH & Ht' & Hempty)].
  { exists []. by repeat split. }
  rewrite examine_page_with_data_cons.
  destruct (examine_page_round globals doc q Hre Hq) as (t & -> & Ht & Hq').
  rewrite IH. simpl. exists (t ++ t'). split; [done|]. split; [by apply Forall_app|].
  rewrite Forall_cons, <- Hq', <- Hempty. split.
  - by intros [-> ->]%app_eq_nil.
  - by intros [-> ->].
Qed.

End ExaminePdfFacts.

Lemma examine_page_with_data_skips_sample :
  ExaminePdf.examine_page_with_data (H := Sample.runtime)
    (ExaminePdf.module_globals "viewer") Sample.report [23; 24]
  = ([], Ok tt).
Proof.
  apply (examine_page_with_data_skips (H := Sample.runtime)).
  repeat constructor; simpl; lia.
Defined.

Lemma examine_page_with_data_returns_sample :
  ∃ trace,
    ExaminePdf.examine_page_with_data (H := Sample.runtime)
      (ExaminePdf.module_globals "__main__") Sample.report
      ExaminePdf.default_page_numbers = (trace, Ok tt)
    ∧ Forall (λ e, ∃ line, e = EPrint line) trace
    ∧ (trace = []
       ↔ Forall (λ q, Z.of_nat (length Sample.report) < q)
           ExaminePdf.default_page_numbers).
Proof.
  apply (examine_page_with_data_returns (H := Sample.runtime)).
  - vm_compute. reflexivity.
  - repeat constructor; lia.
Defined.

(** ** [atus_api_client.py]: the requests, the columns and the script *)

Section ApiClientMainFacts.
Context `{Runtime} `{Network} {disk : FileSystem}.
Import ApiClient Response ApiClientMain.

(** What [guarded] never does, and what [None] from it means. *)
Lemma guarded_outcome label request answer :
  (∀ e, (guarded label request answer).2 ≠ Raise (RequestException e))
  ∧ ((guarded label request answer).2 = Ok PNone →
     answer = Ok PNone
     ∨ ∃ e, answer = Raise (RequestException e)
            ∧ last (guarded label request answer).1 = Some (EPrint (label +:+ e))).
Proof.
  destruct answer as [json|[]]; simpl; split; try done.
  - intros [= ->]. by left.
  - intros _. right. by eauto.
Qed.

Lemma get_latest_series_guarded (self : client) (series_ids : list string) :
  ∃ request answer,
    get_latest_series self series_ids
    = guarded "Error fetching latest data: " request answer.
Proof.
  unfold get_latest_series. case_bool_decide; [|by eauto].
  destruct series_ids as [|series0 [|]]; try done. simpl.
  match goal with
  | |- context [guarded ?l ?r ?a] => exists r, a; by destruct (guarded l r a)
  end.
Qed.

Lemma get_latest_series_one (self : client) series0 :
  get_latest_series self [series0]
  = guarded "Error fetching latest data: "
      (EGet (base_url self +:+ "/timeseries/data/" +:+ series0
             +:+ "?latest=true&registrationkey=" +:+ api_key self))
      (http_get (base_url self +:+ "/timeseries/data/" +:+ series0
                 +:+ "?latest=true&registrationkey=" +:+ api_key self)).
Proof. unfold get_latest_series. simpl. by destruct (guarded _ _ _). Qed.

(** What the [try] block makes of each answer of the network. *)
Lemma guarded_cases label request answer :
  (∀ json, answer = Ok json → guarded label request answer = ([request], Ok json))
  ∧ (∀ e, answer = Raise (RequestException e) →
          guarded label request answer = ([request; EPrint (label +:+ e)], Ok PNone))
  ∧ (∀ x, answer = Raise x → (∀ e, x ≠ RequestException e) →
          guarded label request answer = ([request], Raise x)).
Proof.
  split; [by intros json ->|]. split; [by intros e ->|].
  intros x -> Hx. destruct x; try done. exfalso. by eapply Hx.
Qed.

(** X14. What the two fetching methods make of the answer of the
    network.  [get_latest_series] sends a GET for a list of one identifier
    and a POST otherwise, [get_series_data] a POST with its own payload.
    When the request gives a decoded body the method returns that body,
    having printed nothing; when it raises a [RequestException] the
    method prints its label followed by the text of the exception and
    returns [None]; any other exception goes on to the caller with nothing
    printed.  So neither method lets a [RequestException] through. *)
Theorem fetching_catches_RequestException (self : client) (series_ids : list string)
    (start_year end_year : string) (catalog calculations annualaverage aspects : bool) :
  let latest := get_latest_series self series_ids in
  let series := get_series_data self series_ids start_year end_year
                  catalog calculations annualaverage aspects in
  let caught (label : string) (request : event) (answer : result pyval)
        (run : Py pyval) : Prop :=
    (∀ json, answer = Ok json → run = ([request], Ok json))
    ∧ (∀ e, answer = Raise (RequestException e) →
            run = ([request; EPrint (label +:+ e)], Ok PNone))
    ∧ (∀ x, answer = Raise x → (∀ e, x ≠ RequestException e) →
            run = ([request], Raise x)) in
  (∀ series0, series_ids = [series0] →
     let url := base_url self +:+ "/timeseries/data/" +:+ series0
                +:+ "?latest=true&registrationkey=" +:+ api_key self in
     caught "Error fetching latest data: " (EGet url) (http_get url) latest)
  ∧ (length series_ids ≠ 1%nat →
     let url := base_url self +:+ "/timeseries/data/" in
     let data :=
       json_dumps (PDict {[ "seriesid" := PList (PStr <$> series_ids);
                            "latest" := PBool true;
                            "registrationkey" := PStr (api_key self) ]}) in
     caught "Error fetching latest data: "
       (EPost url data (headers self)) (http_post url data (headers self)) latest)
  ∧ (let url := base_url self +:+ "/timeseries/data/" in
     let data :=
       json_dumps (PDict {[ "seriesid" := PList (PStr <$> series_ids);
                            "startyear" := PStr start_year;
                            "endyear" := PStr end_year;
                            "catalog" := PBool catalog;
                            "calculations" := PBool calculations;
                            "annualaverage" := PBool annualaverage;
                            "aspects" := PBool aspects;
                            "registrationkey" := PStr (api_key self) ]}) in
     caught "Error fetching series data: "
       (EPost url data (headers self)) (http_post url data (headers self)) series)
  ∧ (∀ e, latest.2 ≠ Raise (RequestException e))
  ∧ (∀ e, series.2 ≠ Raise (RequestException e)).
Proof.
  cbn zeta. split; [|split; [|split; [|split]]].
  - intros series0 ->. rewrite get_latest_series_one. apply guarded_cases.
  - intros Hlength. unfold get_latest_series.
    rewrite bool_decide_eq_false_2 by done. apply guarded_cases.
  - unfold get_series_data. apply guarded_cases.
  - destruct (get_latest_series_guarded self series_ids) as (request & answer & ->).
    intros e. apply guarded_outcome.
  - unfold get_series_data. intros e. apply guarded_outcome.
Qed.

(** X15. On a dictionary, [parse_response_to_dataframe] returns [None]
    after its one line of message when the dictionary is empty or its
    status is not [REQUEST_SUCCEEDED]; when the status is
    [REQUEST_SUCCEEDED] it prints nothing and never returns [None], and it
    raises [KeyError] if [Results] is missing. *)
Theorem parse_response_on_dict (d : gmap string pyval) :
  (d = ∅ ∨ d !! "status" ≠ Some (PStr "REQUEST_SUCCEEDED") →
   parse_response_to_dataframe (PDict d)
   = ([EPrint ("Invalid response: "
               +:+ py_str (default (PStr "Unknown error") (d !! "message")))],
      Ok None))
  ∧ (d !! "status" = Some (PStr "REQUEST_SUCCEEDED") →
     (parse_response_to_dataframe (PDict d)).1 = []
     ∧ (parse_response_to_dataframe (PDict d)).2 ≠ Ok None
     ∧ (d !! "Results" = None →
        (parse_response_to_dataframe (PDict d)).2 = Raise (KeyError "Results"))).
Proof.
  split.
  - intros Hd. unfold parse_response_to_dataframe. simpl.
    case_bool_decide as Hempty; simpl; [done|].
    destruct Hd as [->|Hstatus]; [done|].
    destruct (d !! "status") as [[| | | |status| |]|]; simpl; try done.
    destruct (String.eqb_spec status "REQUEST_SUCCEEDED") as [->|]; by simpl.
  - intros Hstatus. unfold parse_response_to_dataframe. simpl.
    rewrite bool_decide_eq_false_2 by (intros ->; by rewrite lookup_empty in Hstatus).
    simpl. rewrite Hstatus. simpl.
    destruct (d !! "Results") as [results|]; simpl; [|done].
    destruct (Builtins.getitem results "series" ≫= Builtins.iter) as [all_series|e];
      simpl; [|done].
    destruct (collect rows_of_series all_series); simpl; by repeat split.
Qed.

Lemma add_calculations_dom calculations (row : gmap string pyval) k :
  k ∈ dom (add_calculations calculations row) →
  k ∈ dom row ∨ ∃ calc_type, k = "calc_" +:+ calc_type.
Proof.
  unfold add_calculations.
  revert row; induction calculations as [|[calc_type calc_value] calcs IH];
    intros row; simpl; [by left|].
  intros [Hk|Hk]%IH; [|by right].
  apply dom_insert, elem_of_union in Hk as [Hk%elem_of_singleton|Hk]; [|by left].
  right. by eauto.
Qed.

Lemma add_calculations_dom_mono calculations (row : gmap string pyval) :
  dom row ⊆ dom (add_calculations calculations row).
Proof.
  unfold add_calculations.
  revert row; induction calculations as [|[calc_type calc_value] calcs IH];
    intros row; simpl; [done|].
  etrans; [|apply IH]. rewrite dom_insert. set_solver.
Qed.

(** The columns of the row of one item. *)
Lemma row_of_item_columns series_id series_catalog item row :
  row_of_item series_id series_catalog item = Ok row →
  fixed_columns ⊆ dom row
  ∧ ∀ k, k ∈ dom row → k ∈ fixed_columns ∨ ∃ calc_type, k = "calc_" +:+ calc_type.
Proof.
  unfold row_of_item. intros Hrow.
  repeat match type of Hrow with
         | (?m ≫= _) = Ok _ =>
             destruct m; cbn [mbind result_bind] in Hrow; [|discriminate Hrow]
         | (if ?b then _ else _) = Ok _ => destruct b
         end.
  all: injection Hrow as <-; unfold fixed_columns; split.
  - etrans; [|apply add_calculations_dom_mono]. rewrite !dom_insert. set_solver.
  - intros k [Hk|Hk]%add_calculations_dom; [|by right]. left.
    revert Hk. rewrite !dom_insert. set_solver.
  - rewrite !dom_insert. set_solver.
  - intros k Hk. left. revert Hk. rewrite !dom_insert. set_solver.
Qed.

Lemma collect_Forall {A B} (P : B → Prop) (body : A → result (list B)) l ys :
  (∀ x zs, body x = Ok zs → Forall P zs) → collect body l = Ok ys → Forall P ys.
Proof.
  intros Hbody. revert ys; induction l as [|x l IH]; intros ys; simpl.
  { intros [= <-]. constructor. }
  destruct (body x) as [zs|] eqn:Hx; simpl; [|done].
  destruct (collect body l) as [ys'|]; simpl; [|done].
  intros [= <-]. apply Forall_app. split; [by eapply Hbody|by apply IH].
Qed.

Lemma eq_str_true v s : Builtins.eq_str v s = true → v = PStr s.
Proof.
  destruct v; simpl; try done. by intros ->%String.eqb_eq.
Qed.

(** A table comes only from an answer whose status is [REQUEST_SUCCEEDED],
    and without a line printed; it is the frame of the rows of the series. *)
Lemma parse_response_Some json_data rows :
  (parse_response_to_dataframe json_data).2 = Ok (Some rows) →
  ∃ (d : gmap string pyval) all_series all_data,
    json_data = PDict d
    ∧ d !! "status" = Some (PStr "REQUEST_SUCCEEDED")
    ∧ collect rows_of_series all_series = Ok all_data
    ∧ rows = Pandas.DataFrame all_data
    ∧ parse_response_to_dataframe json_data = ([], Ok (Some rows)).
Proof.
  unfold parse_response_to_dataframe.
  destruct (Builtins.truthy json_data) eqn:Htruthy; simpl.
  2: { by destruct (Builtins.get json_data "message" _). }
  destruct json_data as [| | | | | |d]; try done. simpl.
  destruct (Builtins.eq_str _ _) eqn:Hstatus; simpl; [|done].
  apply eq_str_true in Hstatus.
  destruct (_ ≫= _) as [all_series|e]; simpl; [|done].
  destruct (collect rows_of_series all_series) as [rows'|e] eqn:Hrows; simpl; [|done].
  intros [= <-]. exists d, all_series, rows'. split; [done|]. split; [|done].
  destruct (d !! "status"); simpl in *; by subst.
Qed.

(** X16. Every row of the table that [parse_response_to_dataframe]
    returns has the ten columns of the script, and any other column of a
    row is named [calc_] followed by the name of a calculation. *)
Theorem parse_response_columns (json_data : pyval) (rows : list (gmap string pyval)) :
  (parse_response_to_dataframe json_data).2 = Ok (Some rows) →
  Forall (λ row : gmap string pyval,
            fixed_columns ⊆ dom row
            ∧ ∀ k, k ∈ dom row →
                   k ∈ fixed_columns ∨ ∃ calc_type, k = "calc_" +:+ calc_type) rows.
Proof.
  intros (d & all_series & all_data & _ & _ & Hrows & -> & _)%parse_response_Some.
  assert (Forall (λ row : gmap string pyval,
                    fixed_columns ⊆ dom row
                    ∧ ∀ k, k ∈ dom row →
                           k ∈ fixed_columns ∨ ∃ calc_type, k = "calc_" +:+ calc_type)
            all_data) as Hall.
  { eapply collect_Forall; [|exact Hrows].
    intros series zs. unfold rows_of_series. intros Hzs.
    repeat match type of Hzs with
           | (?m ≫= _) = Ok _ =>
               destruct m; cbn [mbind result_bind] in Hzs; [|discriminate Hzs]
           end.
    eapply collect_Forall; [|exact Hzs].
    intros item rows' Hitem. simpl in Hitem.
    destruct (row_of_item _ _ item) as [row|] eqn:Hrow; [|done].
    simpl in Hitem. injection Hitem as <-.
    constructor; [|constructor]. by eapply row_of_item_columns. }
  rewrite Forall_forall in Hall. apply Forall_forall.
  intros row [Hdom [record Hrecord]]%DataFrame_dom. rewrite Hdom. split.
  - intros k Hk. apply elem_of_columns. exists record. split; [done|].
    apply elem_of_dom. by apply (Hall record Hrecord).
  - intros k (record' & Hrecord' & Hk%elem_of_dom)%elem_of_columns.
    by apply (Hall record' Hrecord').
Qed.

Lemma parse_response_prints json_data :
  Forall (λ e, ∃ line, e = EPrint line) (parse_response_to_dataframe json_data).1.
Proof.
  unfold parse_response_to_dataframe.
  destruct (if negb (Builtins.truthy json_data) then _ else _) as [[]|]; simpl;
    [|by destruct (_ ≫= _); simpl; [destruct (collect _ _)|]; simpl|done].
  destruct (Builtins.get json_data "message" _); simpl; repeat constructor. by eauto.
Qed.

Lemma csv_paths_no_file (t : list event) :
  Forall (λ e, match e with EToCsv _ _ => False | _ => True end) t → csv_paths t = [].
Proof.
  induction 1 as [|e t He _ IH]; [done|]. rewrite csv_paths_cons. by destruct e.
Qed.

Lemma prints_no_file (t : list event) :
  Forall (λ e, ∃ line, e = EPrint line) t →
  Forall (λ e, match e with EToCsv _ _ => False | _ => True end) t.
Proof. intros Ht. eapply Forall_impl; [exact Ht|]. by intros e [line ->]. Qed.

(** Test 1 writes no file. *)
Lemma test_1_no_file (self : client) :
  Forall (λ e, match e with EToCsv _ _ => False | _ => True end) (test_1 self).1.
Proof.
  unfold test_1, test_series. rewrite get_latest_series_one.
  destruct (http_get _) as [latest_data|[]]; simpl; repeat constructor.
  destruct (Builtins.truthy latest_data); simpl; repeat constructor.
  destruct (Builtins.get latest_data "status" PNone); simpl; repeat constructor.
  destruct (Builtins.get latest_data "responseTime" PNone); simpl; repeat constructor.
  pose proof (prints_no_file _ (parse_response_prints latest_data)) as Hparse.
  destruct (parse_response_to_dataframe latest_data) as [t [[df|]|e]]; simpl in *;
    repeat first [ assumption | apply Forall_nil_2
                 | apply Forall_cons_2; [done|] | apply Forall_app_2 ].
Qed.

(** Test 2 writes its file last but one, and only a table that the
    flattener returned for the answer to its request. *)
Lemma test_2_cases (self : client) :
  Forall (λ e, match e with EToCsv _ _ => False | _ => True end) (test_2 self).1
  ∨ ∃ (d : gmap string pyval) data rows t,
      http_post (base_url self +:+ "/timeseries/data/") data (headers self)
      = Ok (PDict d)
      ∧ d !! "status" = Some (PStr "REQUEST_SUCCEEDED")
      ∧ parse_response_to_dataframe (PDict d) = ([], Ok (Some rows))
      ∧ (test_2 self).1
        = t ++ [ EToCsv "atus_latest_data.csv" rows;
                 EPrint (String Str.newline "Data saved to atus_latest_data.csv") ]
      ∧ Forall (λ e, match e with EToCsv _ _ => False | _ => True end) t.
Proof.
  unfold test_2, atus_test_series, get_latest_series.
  rewrite bool_decide_eq_false_2 by done. cbn zeta.
  match goal with
  | |- context [guarded ?l (EPost ?url ?data ?hdrs) _] =>
      destruct (http_post url data hdrs) as [atus_latest|[]] eqn:Hpost
  end; simpl; try (left; by repeat constructor).
  destruct (Builtins.truthy atus_latest); simpl; [|left; by repeat constructor].
  destruct (Builtins.get atus_latest "status" PNone); simpl;
    [|left; by repeat constructor].
  pose proof (prints_no_file _ (parse_response_prints atus_latest)) as Hprints.
  destruct (parse_response_to_dataframe atus_latest) as [t [[rows|]|e]] eqn:Hparse;
    simpl in *.
  2, 3: left; repeat first [ assumption | apply Forall_nil_2
                            | apply Forall_cons_2; [done|] | apply Forall_app_2 ].
  right.
  destruct (parse_response_Some atus_latest rows)
    as (d & _ & _ & -> & Hstatus & _ & _ & Heq).
  { by rewrite Hparse. }
  rewrite Hparse in Heq. injection Heq as ->.
  eexists d, _, rows, [_; _; _; _; _].
  split; [exact Hpost|]. split; [done|]. split; [done|].
  split; [reflexivity|]. by repeat constructor.
Qed.

Lemma test_2_head (self : client) :
  ∃ data rest,
    (test_2 self).1
    = [ EPrint (String Str.newline (String Str.newline
                  "=== Test 2: Getting latest ATUS data ==="));
        EPost (base_url self +:+ "/timeseries/data/") data (headers self) ] ++ rest.
Proof.
  unfold test_2, atus_test_series, get_latest_series.
  rewrite bool_decide_eq_false_2 by done. cbn zeta.
  match goal with
  | |- context [guarded ?l (EPost ?url ?data ?hdrs) ?a] =>
      exists data; destruct a as [atus_latest|[]]; simpl; try by eexists
  end.
  destruct (Builtins.truthy atus_latest); simpl; [|by eexists].
  destruct (Builtins.get atus_latest "status" PNone); simpl; [|by eexists].
  destruct (parse_response_to_dataframe atus_latest) as [t [[rows|]|e]]; simpl;
    by eexists.
Qed.

(** X17. The script runs Test 2 also when the request of Test 1 failed
    with a [RequestException]; the only file it can write is
    [atus_latest_data.csv], written by Test 2 with the table that the
    flattener returned for an answer with the status [REQUEST_SUCCEEDED]. *)
Theorem script_saves_succeeded_answer :
  let client := init API_KEY in
  let run := script in
  (csv_paths run.1 = [] ∨ csv_paths run.1 = ["atus_latest_data.csv"])
  ∧ (∀ path rows,
       EToCsv path rows ∈ run.1 →
       ∃ (d : gmap string pyval) data,
         http_post (base_url client +:+ "/timeseries/data/") data (headers client)
         = Ok (PDict d)
         ∧ d !! "status" = Some (PStr "REQUEST_SUCCEEDED")
         ∧ parse_response_to_dataframe (PDict d) = ([], Ok (Some rows)))
  ∧ (∀ e,
       http_get (base_url client +:+ "/timeseries/data/CUUR0000SA0"
                 +:+ "?latest=true&registrationkey=" +:+ api_key client)
       = Raise (RequestException e) →
       ∃ data rest,
         run.1
         = [ EPrint "=== Test 1: Getting latest data for CPI series ===";
             EGet (base_url client +:+ "/timeseries/data/CUUR0000SA0"
                   +:+ "?latest=true&registrationkey=" +:+ api_key client);
             EPrint ("Error fetching latest data: " +:+ e);
             EPrint (String Str.newline (String Str.newline
                       "=== Test 2: Getting latest ATUS data ==="));
             EPost (base_url client +:+ "/timeseries/data/") data (headers client) ]
           ++ rest).
Proof.
  cbn zeta. unfold script. cbn zeta.
  pose proof (test_1_no_file (init API_KEY)) as H1.
  pose proof (test_2_cases (init API_KEY)) as H2.
  split; [|split].
  - destruct (test_1 (init API_KEY)) as [t1 [[]|e]]; simpl in *.
    2: { left. by apply csv_paths_no_file. }
    destruct (test_2 (init API_KEY)) as [t2 r2]; simpl in *.
    rewrite csv_paths_app, (csv_paths_no_file t1 H1). simpl.
    destruct H2 as [H2|(d & data & rows & t & _ & _ & _ & -> & Ht)].
    + left. by apply csv_paths_no_file.
    + right. by rewrite csv_paths_app, (csv_paths_no_file t Ht).
  - intros path rows Hin.
    assert (EToCsv path rows ∈ (test_2 (init API_KEY)).1) as Hin2.
    { destruct (test_1 (init API_KEY)) as [t1 [[]|e]]; simpl in *.
      - destruct (test_2 (init API_KEY)) as [t2 r2]; simpl in *.
        apply elem_of_app in Hin as [Hin|Hin]; [|done].
        rewrite Forall_forall in H1. by apply H1 in Hin.
      - rewrite Forall_forall in H1. by apply H1 in Hin. }
    destruct H2 as [H2|(d & data & rows' & t & Hpost & Hstatus & Hparse & Heq & Ht)].
    { rewrite Forall_forall in H2. by apply H2 in Hin2. }
    rewrite Heq in Hin2. apply elem_of_app in Hin2 as [Hin2|Hin2].
    { rewrite Forall_forall in Ht. by apply Ht in Hin2. }
    apply elem_of_cons in Hin2 as [[= -> ->]|Hin2].
    + by exists d, data.
    + by apply list_elem_of_singleton in Hin2.
  - intros e Hget. unfold test_1, test_series. rewrite get_latest_series_one.
    change ("/timeseries/data/" +:+ "CUUR0000SA0" +:+ "?latest=true&registrationkey="
            +:+ api_key (init API_KEY))
      with ("/timeseries/data/CUUR0000SA0" +:+ "?latest=true&registrationkey="
            +:+ api_key (init API_KEY)).
    rewrite Hget. cbn [guarded]. simpl.
    destruct (test_2_head (init API_KEY)) as (data & rest & Hhead).
    destruct (test_2 (init API_KEY)) as [t2 r2]. simpl in Hhead. subst t2.
    by exists data, rest.
Qed.

End ApiClientMainFacts.

(** The theorem on the sample answer. *)
Lemma parse_response_columns_sample :
  Forall (λ row : gmap string pyval,
            ApiClientMain.fixed_columns ⊆ dom row
            ∧ ∀ k, k ∈ dom row →
                   k ∈ ApiClientMain.fixed_columns
                   ∨ ∃ calc_type, k = "calc_" +:+ calc_type) SampleNetwork.table.
Proof.
  apply (parse_response_columns (H := Sample.runtime) SampleResponse.answer).
  unfold SampleNetwork.table.
  assert (match (ApiClient.parse_response_to_dataframe (H := Sample.runtime)
                   SampleResponse.answer).2 with
          | Ok (Some _) => true
          | _ => false
          end = true) as Hsome by (vm_compute; reflexivity).
  by destruct (ApiClient.parse_response_to_dataframe _).2 as [[rows|]|].
Defined.

(** The script without a network sends both requests and writes nothing;
    with the sample answer to every request it writes its file. *)
Example script_offline :
  csv_paths (ApiClientMain.script (H := Sample.runtime)
               (H0 := SampleNetwork.offline) (disk := SampleDisk.bare)).1 = []
  ∧ length (filter (λ e, Response.is_request e = true)
              (ApiClientMain.script (H := Sample.runtime)
                 (H0 := SampleNetwork.offline) (disk := SampleDisk.bare)).1) = 2%nat
  ∧ (ApiClientMain.script (H := Sample.runtime) (H0 := SampleNetwork.offline)
       (disk := SampleDisk.bare)).2
    = Ok tt.
Proof. vm_compute. done. Qed.

Example script_online :
  csv_paths (ApiClientMain.script (H := Sample.runtime)
               (H0 := SampleNetwork.online) (disk := SampleDisk.bare)).1
  = ["atus_latest_data.csv"].
Proof. vm_compute. reflexivity. Qed.

(** ** [fetch_atus_api.py]: what the fetch returns, and the marker ["-"] *)

Section FetchApiFacts.
Context `{Runtime} `{Network}.
Import FetchApi Response MissingValue.

(** X18. [fetch_atus_data] sends one POST request to the endpoint, after
    two lines of progress.  It lets no [RequestException] through, and
    what it returns is [None] or the decoded answer, a dictionary whose
    status is [REQUEST_SUCCEEDED] and which is therefore true in a test;
    an answer without the key [status] makes it raise [KeyError]. *)
Theorem fetch_atus_data_returns (series_ids : list string) (start_year end_year : string) :
  let run := fetch_atus_data series_ids start_year end_year in
  ∃ line1 line2 data headers rest,
    run.1 = EPrint line1 :: EPrint line2 :: EPost endpoint data headers :: rest
    ∧ Forall (λ e, ∃ line, e = EPrint line) rest
    ∧ (∀ e, run.2 ≠ Raise (RequestException e))
    ∧ (∀ v, run.2 = Ok v →
            v = PNone
            ∨ ∃ d : gmap string pyval,
                v = PDict d ∧ http_post endpoint data headers = Ok v
                ∧ d !! "status" = Some (PStr "REQUEST_SUCCEEDED")
                ∧ Builtins.truthy v = true)
    ∧ (∀ d : gmap string pyval,
         http_post endpoint data headers = Ok (PDict d) → d !! "status" = None →
         run.2 = Raise (KeyError "status")).
Proof.
  cbn zeta. unfold fetch_atus_data. cbn zeta.
  match goal with
  | |- context [http_post endpoint ?data ?headers] =>
      eexists _, _, data, headers;
      destruct (http_post endpoint data headers) as [json_data|e] eqn:Hpost
  end.
  2: { assert (∀ d : gmap string pyval, Raise e ≠ Ok (PDict d)) as Hne by done.
       destruct e; simpl; eexists; (split; [reflexivity|]);
         (split; [repeat first [apply Forall_nil_2 | apply Forall_cons_2; [by eauto|]]|]);
         (split; [done|]); (split; [by intros v [= <-]; left|]);
         intros d Hd; by apply Hne in Hd. }
  destruct (Builtins.getitem json_data "status") as [status|e] eqn:Hstatus; simpl.
  2: { eexists; split; [reflexivity|]. split; [by constructor|].
       destruct json_data as [| | | | | |d]; simpl in Hstatus;
         try (injection Hstatus as <-; by repeat split).
       destruct (d !! "status") eqn:Hd; [done|]. injection Hstatus as <-.
       by repeat split. }
  assert (∃ d : gmap string pyval, json_data = PDict d ∧ d !! "status" = Some status)
    as (d & -> & Hd).
  { destruct json_data as [| | | | | |d]; simpl in Hstatus; try done.
    exists d. split; [done|]. by destruct (d !! "status"); simplify_eq. }
  destruct (Builtins.eq_str status "REQUEST_SUCCEEDED") eqn:Heq; simpl.
  - eexists; split; [reflexivity|].
    split; [repeat first [apply Forall_nil_2 | apply Forall_cons_2; [by eauto|]]|].
    split; [done|]. split.
    + intros v [= <-]. right. exists d. split; [done|]. split; [done|].
      destruct status; simpl in Heq; try done. apply String.eqb_eq in Heq as ->.
      split; [done|]. simpl. apply negb_true_iff, bool_decide_eq_false_2.
      intros ->. by rewrite lookup_empty in Hd.
    + intros d' [= <-] Hnone. by rewrite Hnone in Hd.
  - eexists; split; [reflexivity|].
    split; [repeat first [apply Forall_nil_2 | apply Forall_cons_2; [by eauto|]]|].
    split; [done|]. split; [by intros v [= <-]; left|].
    intros d' [= <-] Hnone. by rewrite Hnone in Hd.
Qed.

Lemma collect_footnote_texts notes :
  forallb footnote_ok notes = true →
  ∃ footnotes,
    collect (λ footnote, option_list <$> footnote_text footnote) notes = Ok footnotes.
Proof.
  induction notes as [|note notes IH]; simpl; [by eauto|].
  intros [Hnote Hnotes]%andb_prop. destruct (IH Hnotes) as [footnotes ->].
  unfold footnote_ok in Hnote. unfold footnote_text.
  destruct (Builtins.truthy note); simpl in *; [|by eauto].
  destruct note; try done. simpl. by eauto.
Qed.

(** The row of a well-formed item: [float] refuses the marker. *)
Lemma row_of_item_marker series_id series_catalog item :
  float_of_other_str "-" = Raise ValueError →
  item_ok item = true → is_dict series_catalog = true →
  if missing item then row_of_item series_id series_catalog item = Raise ValueError
  else ∃ row, row_of_item series_id series_catalog item = Ok row.
Proof.
  intros Hfloat Hitem Hcat.
  destruct series_catalog as [| | | | | |catalog]; try done.
  destruct item as [| | | | | |d]; try done. simpl in Hitem.
  repeat (apply andb_prop in Hitem as [Hitem ?]).
  apply bool_decide_eq_true in Hitem as [year Hyear].
  match goal with Hp : bool_decide _ = true |- _ =>
    apply bool_decide_eq_true in Hp as [period Hperiod] end.
  destruct (d !! "value") as [raw|] eqn:Hraw; [|done].
  unfold row_of_item, missing. simpl. rewrite Hyear, Hperiod, Hraw. simpl.
  destruct (Builtins.eq_str raw "-") eqn:Hmarker.
  { destruct raw; simpl in Hmarker; try done. apply String.eqb_eq in Hmarker as ->.
    simpl. unfold Builtins.float_of_str. simpl. by rewrite Hfloat. }
  simpl in *. destruct (Builtins.float_of raw) as [value|]; [|done]. simpl.
  assert (∃ notes, Builtins.iter (default (PList []) (d !! "footnotes")) = Ok notes
                   ∧ forallb footnote_ok notes = true) as (notes & -> & Hnotes).
  { destruct (d !! "footnotes") as [[]|]; try done; simpl; by eauto. }
  simpl. destruct (collect_footnote_texts _ Hnotes) as [footnotes ->]. simpl.
  by eauto.
Qed.

Lemma rows_of_items_marker series_id series_catalog items :
  float_of_other_str "-" = Raise ValueError →
  forallb item_ok items = true → is_dict series_catalog = true →
  if existsb missing items
  then collect (λ item, row ← row_of_item series_id series_catalog item; Ok [row]) items
       = Raise ValueError
  else ∃ rows,
         collect (λ item, row ← row_of_item series_id series_catalog item; Ok [row]) items
         = Ok rows
         ∧ length rows = length items.
Proof.
  intros Hfloat Hitems Hcat. induction items as [|item items IH]; simpl.
  { by exists []. }
  simpl in Hitems. apply andb_prop in Hitems as [Hitem Hitems].
  pose proof (row_of_item_marker series_id series_catalog item Hfloat Hitem Hcat) as Hrow.
  destruct (missing item); simpl.
  { by rewrite Hrow. }
  destruct Hrow as [row ->]. simpl. specialize (IH Hitems).
  destruct (existsb missing items).
  - by rewrite IH.
  - destruct IH as (rows & -> & Hlen). simpl. exists (row :: rows).
    split; [done|]. simpl. by rewrite Hlen.
Qed.

Lemma rows_of_series_marker series :
  float_of_other_str "-" = Raise ValueError →
  series_ok series = true →
  if existsb missing (data_of series)
  then (rows_of_series series).2 = Raise ValueError
  else ∃ rows, (rows_of_series series).2 = Ok rows
               ∧ length rows = length (data_of series).
Proof.
  intros Hfloat Hseries.
  destruct series as [| | | | | |d]; try done. simpl in Hseries.
  repeat (apply andb_prop in Hseries as [Hseries ?]).
  apply bool_decide_eq_true in Hseries as [series_id Hid].
  destruct (d !! "data") as [[| | | | |items|]|] eqn:Hdata; try done.
  assert (is_dict (default (PDict ∅) (d !! "catalog")) = true) as Hcat.
  { by destruct (d !! "catalog") as [[]|]. }
  pose proof (rows_of_items_marker series_id (default (PDict ∅) (d !! "catalog")) items
                Hfloat ltac:(done) Hcat) as Hitems.
  unfold rows_of_series, data_of. simpl. rewrite Hid, Hdata. simpl.
  by destruct (default (PDict ∅) (d !! "catalog")) as [| | | | | |catalog].
Qed.

Lemma rows_of_all_marker all_series :
  float_of_other_str "-" = Raise ValueError →
  forallb series_ok all_series = true →
  if existsb missing (all_series ≫= data_of)
  then (rows_of_all all_series).2 = Raise ValueError
  else ∃ rows, (rows_of_all all_series).2 = Ok rows
               ∧ length rows = length (all_series ≫= data_of).
Proof.
  intros Hfloat Hall. induction all_series as [|series all_series IH].
  { by exists []. }
  simpl in Hall. apply andb_prop in Hall as [Hseries Hall].
  pose proof (rows_of_series_marker series Hfloat Hseries) as Hrows.
  specialize (IH Hall). rewrite bind_cons, existsb_app, length_app.
  cbn [rows_of_all].
  destruct (rows_of_series series) as [t [rows|e]]; simpl in *.
  2: { destruct (existsb missing (data_of series)); [done|]. by destruct Hrows as (? & ? & _). }
  destruct (existsb missing (data_of series)); [done|].
  destruct Hrows as (? & [= <-] & Hlen). simpl.
  destruct (rows_of_all all_series) as [t' [rows'|e]]; simpl in *.
  - destruct (existsb missing _); [done|]. destruct IH as (? & [= <-] & Hlen').
    exists (rows ++ rows'). split; [done|]. rewrite length_app. lia.
  - destruct (existsb missing _); [done|]. by destruct IH as (? & ? & _).
Qed.

(** X19. On a well-formed answer [parse_atus_response], which converts
    every value with [float], raises [ValueError] as soon as one
    observation has the marker ["-"] for its value; without the marker it
    returns one row for each observation. *)
Theorem parse_atus_response_marker (json_data : pyval) :
  float_of_other_str "-" = Raise ValueError →
  response_ok json_data = true →
  if existsb missing (snd <$> observations json_data)
  then (parse_atus_response json_data).2 = Raise ValueError
  else ∃ rows, (parse_atus_response json_data).2 = Ok (Some rows)
               ∧ length rows = length (observations json_data).
Proof.
  intros Hfloat Hok.
  destruct json_data as [| | | | | |d]; try done. simpl in Hok.
  apply andb_prop in Hok as [Hstatus Hresults].
  destruct (d !! "Results") as [[| | | | | |results]|] eqn:Hres; try done.
  destruct (results !! "series") as [[| | | | |all_series|]|] eqn:Hser; try done.
  pose proof (rows_of_all_marker all_series Hfloat Hresults) as Hrows.
  assert (snd <$> observations (PDict d) = all_series ≫= data_of) as Hobs.
  { unfold observations, series_of. rewrite Hres, Hser. clear.
    induction all_series as [|series all_series IH]; [done|].
    rewrite !bind_cons, fmap_app, IH. f_equal.
    rewrite <- list_fmap_compose. simpl. by rewrite list_fmap_id. }
  rewrite Hobs. rewrite <- (length_fmap snd), Hobs.
  unfold parse_atus_response. simpl.
  rewrite bool_decide_eq_false_2 by (intros ->; by rewrite lookup_empty in Hres).
  simpl. rewrite Hres. rewrite bool_decide_eq_true_2 by eauto. simpl.
  rewrite Hser. simpl.
  destruct (rows_of_all all_series) as [t [rows|e]]; simpl in *.
  - destruct (existsb missing _); [discriminate Hrows|].
    destruct Hrows as (rows' & Heq & Hlen). injection Heq as ->.
    exists (Pandas.DataFrame rows'). by rewrite length_DataFrame.
  - destruct (existsb missing _); [congruence|]. by destruct Hrows as (? & ? & _).
Qed.

End FetchApiFacts.

(** The sample answer has an observation without a value: the flattener
    of [atus_api_client.py] keeps its row, this one raises. *)
Lemma parse_atus_response_marker_sample :
  (FetchApi.parse_atus_response (H := Sample.runtime) SampleResponse.answer).2
  = Raise ValueError.
Proof.
  exact (parse_atus_response_marker (H := Sample.runtime) SampleResponse.answer
           eq_refl eq_refl).
Defined.
